(** * Hardware Bitcoin wallet: storage layout, packet protocol and user interface

    A shallow embedding of
    - [storage_common.h]: the layout of non-volatile storage;
    - the PROTOCOL description: packet format and command catalogue;
    - [user_interface.c] (LPC11Uxx port): pending outputs, [askUser] and
      [writeBackupSeed].

    Integers of the C code are [Z] with their wrap-around written out,
    characters are [ascii], C arrays are lists updated by index. *)

From Stdlib Require Import ZArith Lia Ascii String.
From stdpp Require Import base list strings.

Local Open Scope Z_scope.

(* ===================================================================== *)
(** * Part I: definitions *)
(* ===================================================================== *)

(* --------------------------------------------------------------------- *)
(** ** storage_common.h *)
(* --------------------------------------------------------------------- *)

(** Length of a wallet record. *)
Definition WALLET_RECORD_LENGTH : Z := 160.

(** Address where the persistent entropy pool is located. *)
Definition ADDRESS_ENTROPY_POOL : Z := 64.

(** Address where the checksum of the persistent entropy pool is located. *)
Definition ADDRESS_POOL_CHECKSUM : Z := 96.

(** Address where the wallet staging area is. *)
Definition ADDRESS_WALLET_STAGING : Z := 128.

(** Address where wallet records start at. *)
Definition ADDRESS_WALLET_START : Z :=
  ADDRESS_WALLET_STAGING + WALLET_RECORD_LENGTH.

(** Block size of AES in bytes (the header's warning: 128 bits). *)
Definition AES_BLOCK_SIZE : Z := 16.

(** Modelled from the spec: the code that computes the address of a wallet
    record (the wallet module) is not part of the sources at hand.  The
    header says that from [ADDRESS_WALLET_START] on, storage consists of
    sequential wallet records; the spec says records sit at
    [start + index * record_length]. *)
Definition wallet_record_address (index : Z) : Z :=
  ADDRESS_WALLET_START + index * WALLET_RECORD_LENGTH.

(** The staging area extends from its address up to the first record. *)
Definition staging_area_length : Z :=
  ADDRESS_WALLET_START - ADDRESS_WALLET_STAGING.

(* --------------------------------------------------------------------- *)
(** ** PROTOCOL: the command catalogue *)
(* --------------------------------------------------------------------- *)

(** The commands of the PROTOCOL description, with their type byte. *)
Inductive command : Set :=
| CmdPing                (* 0x00 *)
| CmdAcknowledgePing     (* 0x01 *)
| CmdReturnSuccess       (* 0x02 *)
| CmdReturnFailure       (* 0x03 *)
| CmdCreateWallet        (* 0x04 *)
| CmdCreateAddress       (* 0x05 *)
| CmdGetNumAddresses     (* 0x06 *)
| CmdGetAddress          (* 0x09 *)
| CmdSignTransaction     (* 0x0A *)
| CmdLoadWallet          (* 0x0B *)
| CmdUnloadWallet        (* 0x0C *)
| CmdFormatStorage       (* 0x0D *)
| CmdChangeKey           (* 0x0E *)
| CmdChangeName          (* 0x0F *)
| CmdListWallets         (* 0x10 *)
| CmdBackupWallet        (* 0x11 *)
| CmdRestoreWallet.      (* 0x12 *)

Definition command_type (c : command) : Z :=
  match c with
  | CmdPing => 0x00
  | CmdAcknowledgePing => 0x01
  | CmdReturnSuccess => 0x02
  | CmdReturnFailure => 0x03
  | CmdCreateWallet => 0x04
  | CmdCreateAddress => 0x05
  | CmdGetNumAddresses => 0x06
  | CmdGetAddress => 0x09
  | CmdSignTransaction => 0x0A
  | CmdLoadWallet => 0x0B
  | CmdUnloadWallet => 0x0C
  | CmdFormatStorage => 0x0D
  | CmdChangeKey => 0x0E
  | CmdChangeName => 0x0F
  | CmdListWallets => 0x10
  | CmdBackupWallet => 0x11
  | CmdRestoreWallet => 0x12
  end.

Definition all_commands : list command :=
  [CmdPing; CmdAcknowledgePing; CmdReturnSuccess; CmdReturnFailure;
   CmdCreateWallet; CmdCreateAddress; CmdGetNumAddresses; CmdGetAddress;
   CmdSignTransaction; CmdLoadWallet; CmdUnloadWallet; CmdFormatStorage;
   CmdChangeKey; CmdChangeName; CmdListWallets; CmdBackupWallet;
   CmdRestoreWallet].

(** The kinds of field a command's value is made of. *)
Inductive field : Set :=
| FWalletNumber    (* little-endian wallet number *)
| FHidden          (* whether to create/restore a hidden wallet *)
| FEncryptionKey   (* encryption key *)
| FWalletName      (* wallet name, padded with spaces *)
| FSeed            (* deterministic address generator seed *)
| FEntropyPool     (* initial persistent entropy pool state *)
| FAddressHandle   (* address handle *)
| FDoEncrypt       (* whether encryption is to be done *)
| FDevice.         (* platform-specific device for the backup seed *)

(** Width in bytes of each kind of field, as the catalogue gives them
    ("first 4 bytes of value are ...", "next 32 bytes of value are ..."). *)
Definition field_width (f : field) : Z :=
  match f with
  | FWalletNumber => 4
  | FHidden => 1
  | FEncryptionKey => 32
  | FWalletName => 40
  | FSeed => 64
  | FEntropyPool => 32
  | FAddressHandle => 4
  | FDoEncrypt => 1
  | FDevice => 1
  end.

(** The "length is N" line of each command; [None] where the length can be
    anything or depends on the data (ping, the two responses, and
    sign transaction, whose length is 4 + the transaction data size). *)
Definition declared_length (c : command) : option Z :=
  match c with
  | CmdPing | CmdAcknowledgePing | CmdReturnSuccess | CmdReturnFailure => None
  | CmdCreateWallet => Some 77
  | CmdCreateAddress => Some 0
  | CmdGetNumAddresses => Some 0
  | CmdGetAddress => Some 4
  | CmdSignTransaction => None
  | CmdLoadWallet => Some 36
  | CmdUnloadWallet => Some 0
  | CmdFormatStorage => Some 32
  | CmdChangeKey => Some 32
  | CmdChangeName => Some 40
  | CmdListWallets => Some 0
  | CmdBackupWallet => Some 2
  | CmdRestoreWallet => Some 141
  end.

(** The fixed fields each command's value starts with, in order. *)
Definition value_fields (c : command) : list field :=
  match c with
  | CmdPing | CmdAcknowledgePing | CmdReturnSuccess | CmdReturnFailure => []
  | CmdCreateWallet => [FWalletNumber; FHidden; FEncryptionKey; FWalletName]
  | CmdCreateAddress => []
  | CmdGetNumAddresses => []
  | CmdGetAddress => [FAddressHandle]
  | CmdSignTransaction => [FAddressHandle]
  | CmdLoadWallet => [FWalletNumber; FEncryptionKey]
  | CmdUnloadWallet => []
  | CmdFormatStorage => [FEntropyPool]
  | CmdChangeKey => [FEncryptionKey]
  | CmdChangeName => [FWalletName]
  | CmdListWallets => []
  | CmdBackupWallet => [FDoEncrypt; FDevice]
  | CmdRestoreWallet =>
      [FWalletNumber; FHidden; FEncryptionKey; FWalletName; FSeed]
  end.

Definition fields_width (fs : list field) : Z :=
  fold_right (fun f acc => field_width f + acc) 0 fs.

(* --------------------------------------------------------------------- *)
(** ** PROTOCOL: the packet format *)
(* --------------------------------------------------------------------- *)

(** A packet: the command type and the value.  The length is that of the
    value. *)
Record packet : Type := Packet {
  packet_type : Z;
  packet_value : list Z
}.

Definition is_byte (b : Z) : Prop := 0 <= b < 256.

(** The four bytes of a little-endian 32 bit number. *)
Definition le32_bytes (n : Z) : list Z :=
  [n mod 256; (n / 256) mod 256; (n / 65536) mod 256; (n / 16777216) mod 256].

Definition le32_value (b0 b1 b2 b3 : Z) : Z :=
  b0 + 256 * b1 + 65536 * b2 + 16777216 * b3.

(** Modelled from the spec: the code that sends and receives packets is not
    part of the sources at hand.  The PROTOCOL description gives the format:
    type (1 byte), length (4 bytes, little-endian length in bytes of the
    value), value (that many bytes). *)
Definition encode_packet (p : packet) : list Z :=
  packet_type p :: le32_bytes (Z.of_nat (length (packet_value p))) ++ packet_value p.

(** Modelled from the spec: reading one packet from the front of a byte
    stream, into a buffer that holds [capacity] bytes of value; the bytes
    after the packet are left in the stream.  There is no packet if the
    stream ends before the declared length is reached or the declared length
    is beyond the capacity. *)
Definition decode_packet (capacity : Z) (stream : list Z)
    : option (packet * list Z) :=
  match stream with
  | t :: b0 :: b1 :: b2 :: b3 :: rest =>
      let len := le32_value b0 b1 b2 b3 in
      if (len <=? capacity) && (len <=? Z.of_nat (length rest))
      then Some (Packet t (take (Z.to_nat len) rest), drop (Z.to_nat len) rest)
      else None
  | _ => None
  end.

(* --------------------------------------------------------------------- *)
(** ** user_interface.c: buttons, display and the i/o of the functions *)
(* --------------------------------------------------------------------- *)

(** Maximum number of address/amount pairs that can be stored in RAM waiting
    for approval from the user. *)
Definition MAX_OUTPUTS : Z := 20.

(** Modelled from the spec: [SEED_LENGTH] is defined in a header that is not
    part of the sources at hand; the PROTOCOL description gives the
    deterministic address generator seed 64 bytes. *)
Definition SEED_LENGTH : Z := 64.

(** What the user did at a [waitForButtonPress()]: the buttons held down in
    the last of the [DEBOUNCE_COUNT] consistent samples (at least one of the
    two is down there, since the debounce counter only decreases then). *)
Inductive press : Set :=
| PressAccept   (* accept only *)
| PressCancel   (* cancel only *)
| PressBoth.    (* both simultaneously *)

(** Calls into the display driver (ssd1306.h) and the two waits, in the
    order the code makes them. *)
Inductive event : Set :=
| EvClearDisplay
| EvDisplayOn
| EvDisplayOff
| EvNextLine
| EvWriteString (s : string)
| EvWriteStringWordWrap (s : string)
| EvWaitForNoButtonPress
| EvWaitForButtonPress (p : press).

(** What user_interface.c takes from headers that are not part of the
    sources at hand: the sizes of the text buffers (common.h), the values of
    the [AskUserCommand] enumeration (hwinterface.h), and whether the display
    cursor is at the end of the display (ssd1306.h), which depends on what
    the display was sent so far. *)
Class Platform : Type := {
  TEXT_AMOUNT_LENGTH : nat;
  TEXT_ADDRESS_LENGTH : nat;
  ASKUSER_NUKE_WALLET : Z;
  ASKUSER_NEW_ADDRESS : Z;
  ASKUSER_SIGN_TRANSACTION : Z;
  ASKUSER_FORMAT : Z;
  ASKUSER_CHANGE_NAME : Z;
  ASKUSER_BACKUP_WALLET : Z;
  ASKUSER_RESTORE_WALLET : Z;
  displayCursorAtEnd : list event -> bool
}.

(** The world outside the function: the button presses still to come, and
    the calls made so far. *)
Record world : Type := World {
  pending : list press;
  log : list event
}.

(** A function with i/o either returns a value in a new world, or waits for
    a button press that never comes ([None]). *)
Definition io (A : Type) : Type := world -> option (A * world).

#[global] Instance io_ret : MRet io :=
  fun A (a : A) (w : world) => Some (a, w).

#[global] Instance io_bind : MBind io :=
  fun A B (k : A -> io B) (m : io A) (w : world) =>
    match m w with
    | Some (a, w') => k a w'
    | None => None
    end.

Definition emit (e : event) : io unit :=
  fun w => Some (tt, World (pending w) (log w ++ [e])).

Definition clearDisplay : io unit := emit EvClearDisplay.
Definition displayOn : io unit := emit EvDisplayOn.
Definition displayOff : io unit := emit EvDisplayOff.
Definition nextLine : io unit := emit EvNextLine.
Definition writeStringToDisplay (s : string) : io unit := emit (EvWriteString s).
Definition writeStringToDisplayWordWrap (s : string) : io unit :=
  emit (EvWriteStringWordWrap s).

(** Wait until neither accept nor cancel buttons are being pressed. *)
Definition waitForNoButtonPress : io unit := emit EvWaitForNoButtonPress.

(** The return value of [waitForButtonPress()]: 0 if the accept button was
    pressed, 1 if the cancel button was pressed, also when both were. *)
Definition button_result (p : press) : Z :=
  match p with
  | PressAccept => 0
  | PressCancel | PressBoth => 1
  end.

(** Wait until accept or cancel button is pressed. *)
Definition waitForButtonPress : io Z :=
  fun w =>
    match pending w with
    | [] => None
    | p :: ps => Some (button_result p, World ps (log w ++ [EvWaitForButtonPress p]))
    end.

(** [displayCursorAtEnd()] of the display driver. *)
Definition cursorAtEnd `{Platform} : io bool :=
  fun w => Some (displayCursorAtEnd (log w), w).

(* --------------------------------------------------------------------- *)
(** ** user_interface.c: the pending outputs *)
(* --------------------------------------------------------------------- *)

(** The NUL character. *)
Definition NUL : ascii := Ascii.zero.

(** [strncpy(dest, src, n)]: the [n] characters written to [dest].  The
    characters of [src] up to its terminator are copied, at most [n] of
    them, and the rest of [dest] is filled with NUL. *)
Fixpoint strncpy (n : nat) (src : string) : list ascii :=
  match n with
  | O => []
  | S n' =>
      match src with
      | EmptyString => replicate (S n') NUL
      | String c s =>
          if Ascii.eqb c NUL then replicate (S n') NUL
          else c :: strncpy n' s
      end
  end.

(** The string a character buffer holds: its characters up to the first
    NUL. *)
Fixpoint cstring (buf : list ascii) : string :=
  match buf with
  | [] => EmptyString
  | c :: rest => if Ascii.eqb c NUL then EmptyString else String c (cstring rest)
  end.

(** The static variables of user_interface.c. *)
Record ui_state : Type := UiState {
  list_amount : list (list ascii);         (* char [MAX_OUTPUTS][TEXT_AMOUNT_LENGTH] *)
  list_address : list (list ascii);        (* char [MAX_OUTPUTS][TEXT_ADDRESS_LENGTH] *)
  list_index : Z;                          (* uint32_t *)
  transaction_fee_set : Z;                 (* int *)
  transaction_fee_amount : list ascii      (* char [TEXT_AMOUNT_LENGTH] *)
}.

(** Static storage is zero-initialised. *)
Definition ui_initial `{Platform} : ui_state :=
  UiState (replicate (Z.to_nat MAX_OUTPUTS) (replicate TEXT_AMOUNT_LENGTH NUL))
          (replicate (Z.to_nat MAX_OUTPUTS) (replicate TEXT_ADDRESS_LENGTH NUL))
          0 0 (replicate TEXT_AMOUNT_LENGTH NUL).

(** [strncpy(dest, src, n); dest[n - 1] = '\0';] *)
Definition copy_terminated (n : nat) (src : string) : list ascii :=
  <[(n - 1)%nat := NUL]> (strncpy n src).

(** Notify the user interface that the transaction parser has seen a new
    Bitcoin amount/address pair.  Returns 0 if no error occurred, non-zero if
    there was not enough space to store the amount/address pair. *)
Definition newOutputSeen `{Platform} (text_amount text_address : string)
    (st : ui_state) : Z * ui_state :=
  if MAX_OUTPUTS <=? list_index st then (1, st)
  else
    let amount_dest := copy_terminated TEXT_AMOUNT_LENGTH text_amount in
    let address_dest := copy_terminated TEXT_ADDRESS_LENGTH text_address in
    (0, UiState (<[Z.to_nat (list_index st) := amount_dest]> (list_amount st))
                (<[Z.to_nat (list_index st) := address_dest]> (list_address st))
                ((list_index st + 1) mod 2 ^ 32)
                (transaction_fee_set st)
                (transaction_fee_amount st)).

(** Notify the user interface that the transaction parser has seen the
    transaction fee. *)
Definition setTransactionFee `{Platform} (text_amount : string)
    (st : ui_state) : ui_state :=
  UiState (list_amount st) (list_address st) (list_index st)
          1 (copy_terminated TEXT_AMOUNT_LENGTH text_amount).

(** Notify the user interface that the list of Bitcoin amount/address pairs
    should be cleared. *)
Definition clearOutputsSeen (st : ui_state) : ui_state :=
  UiState (list_amount st) (list_address st) 0 0 (transaction_fee_amount st).

(** The text of row [i] of one of the two arrays. *)
Definition row_text (rows : list (list ascii)) (i : Z) : string :=
  cstring (rows !!! Z.to_nat i).

(* --------------------------------------------------------------------- *)
(** ** user_interface.c: askUser *)
(* --------------------------------------------------------------------- *)

(** What the display shows for output [i] before the wait for a button:
    the body of the [for] loop of [askUser] up to [waitForButtonPress()]. *)
Definition output_prompt (st : ui_state) (i : Z) : list event :=
  [EvClearDisplay; EvWaitForNoButtonPress;
   EvWriteString "Send ";
   EvWriteString (row_text (list_amount st) i);
   EvWriteString " BTC to ";
   EvWriteString (row_text (list_address st) i);
   EvWriteString "?"].

(** The loop [for (i = 0; i < list_index; i++)] of [askUser], entered with
    the values [i] and [r] of the two local variables.  Every iteration waits
    for one button press, so the loop is defined by recursion on the presses
    to come; [i] is a [uint8_t] and wraps around, [list_index] is a
    [uint32_t].  The loop is left by [break] when [r] is non-zero. *)
Fixpoint askUser_outputs (st : ui_state) (i r : Z)
    (ps : list press) (lg : list event) : option (Z * world) :=
  if i <? list_index st then
    match ps with
    | [] => None
    | p :: ps' =>
        let lg' := lg ++ output_prompt st i ++ [EvWaitForButtonPress p] in
        let r' := button_result p in
        if negb (r' =? 0) then Some (r', World ps' lg')
        else askUser_outputs st ((i + 1) mod 2 ^ 8) r' ps' lg'
    end
  else Some (r, World ps lg).

Definition askUser_outputs_loop (st : ui_state) (r : Z) : io Z :=
  fun w => askUser_outputs st 0 r (pending w) (log w).

(** Ask user if they want to allow some action.  Returns 0 if the user
    accepted, non-zero if the user denied.

    The local variable [r] is declared without an initialiser; [r_uninit]
    is the value it happens to hold when it is read before any assignment. *)
Definition askUser `{Platform} (r_uninit : Z) (command : Z) (st : ui_state)
    : io Z :=
  clearDisplay;;
  displayOn;;
  r ← (if command =? ASKUSER_NUKE_WALLET then
         waitForNoButtonPress;;
         writeStringToDisplayWordWrap "Delete current wallet and create new one?";;
         waitForButtonPress
       else if command =? ASKUSER_NEW_ADDRESS then
         waitForNoButtonPress;;
         writeStringToDisplayWordWrap "Create new address?";;
         waitForButtonPress
       else if command =? ASKUSER_SIGN_TRANSACTION then
         r ← askUser_outputs_loop st r_uninit;
         if (r =? 0) && negb (transaction_fee_set st =? 0) then
           clearDisplay;;
           waitForNoButtonPress;;
           writeStringToDisplay "Transaction fee:";;
           nextLine;;
           writeStringToDisplay (cstring (transaction_fee_amount st));;
           writeStringToDisplay " BTC.";;
           nextLine;;
           writeStringToDisplay "Is this okay?";;
           waitForButtonPress
         else mret r
       else if command =? ASKUSER_FORMAT then
         waitForNoButtonPress;;
         writeStringToDisplayWordWrap "Format storage? This will delete everything!";;
         r ← waitForButtonPress;
         if r =? 0 then
           clearDisplay;;
           waitForNoButtonPress;;
           writeStringToDisplayWordWrap "Are you sure you you want to nuke all wallets?";;
           r ← waitForButtonPress;
           if r =? 0 then
             clearDisplay;;
             waitForNoButtonPress;;
             writeStringToDisplayWordWrap "Are you really really sure?";;
             waitForButtonPress
           else mret r
         else mret r
       else if command =? ASKUSER_CHANGE_NAME then
         waitForNoButtonPress;;
         writeStringToDisplayWordWrap "Change the name of the current wallet?";;
         waitForButtonPress
       else if command =? ASKUSER_BACKUP_WALLET then
         waitForNoButtonPress;;
         writeStringToDisplayWordWrap "Do you want to backup the current wallet?";;
         waitForButtonPress
       else if command =? ASKUSER_RESTORE_WALLET then
         waitForNoButtonPress;;
         writeStringToDisplayWordWrap "Delete current wallet and restore from a backup?";;
         waitForButtonPress
       else
         waitForNoButtonPress;;
         writeStringToDisplayWordWrap "Unknown command in askUser(). Press any button to continue...";;
         waitForButtonPress;;
         mret 1);
  clearDisplay;;
  displayOff;;
  mret r.

(* --------------------------------------------------------------------- *)
(** ** user_interface.c: writeBackupSeed *)
(* --------------------------------------------------------------------- *)

(** The character with the given code, as the cast [(char)] gives it. *)
Definition char_of (code : Z) : ascii := ascii_of_N (Z.to_N (code mod 2 ^ 8)).

(** Convert 4 bit number into corresponding hexadecimal character.  Only the
    least significant 4 bits are considered. *)
Definition nibbleToHex (nibble : Z) : ascii :=
  let temp := Z.land nibble 0xf in
  if temp <? 10 then char_of (Z.of_N (N_of_ascii "0") + temp)
  else char_of (Z.of_N (N_of_ascii "a") + (temp - 10)).

(** The loop [for (i = 0; i < SEED_LENGTH; i++)] of [writeBackupSeed], with
    [n] iterations left and the values of the local variables [i],
    [byte_counter] and [line_number] (all [uint8_t]).  It gives [Some 2]
    when the function returns 2 from within the loop, [None] when the loop
    runs to its end. *)
Fixpoint writeBackupSeed_loop `{Platform} (n : nat) (seed : list Z)
    (i byte_counter line_number : Z) : io (option Z) :=
  match n with
  | O => mret None
  | S n' =>
      let one_byte := nth (Z.to_nat i) seed 0 in
      let str :=
        String (nibbleToHex (Z.shiftr one_byte 4))
               (String (nibbleToHex one_byte) EmptyString) in
      (if byte_counter =? 0 then
         writeStringToDisplay (String (nibbleToHex line_number) ":")
       else if Z.land byte_counter 1 =? 0 then
         writeStringToDisplay " "
       else mret tt);;
      writeStringToDisplay str;;
      let byte_counter := (byte_counter + 1) mod 2 ^ 8 in
      let line_number' :=
        if byte_counter =? 6 then (line_number + 1) mod 2 ^ 8 else line_number in
      let byte_counter' := if byte_counter =? 6 then 0 else byte_counter in
      at_end ← cursorAtEnd;
      if at_end : bool then
        waitForNoButtonPress;;
        r ← waitForButtonPress;
        clearDisplay;;
        if negb (r =? 0) then
          displayOff;;
          mret (Some 2)
        else writeBackupSeed_loop n' seed ((i + 1) mod 2 ^ 8) 0 line_number'
      else writeBackupSeed_loop n' seed ((i + 1) mod 2 ^ 8) byte_counter' line_number'
  end.

(** Write backup seed to some output device.  Returns 0 on success, or
    non-zero if the backup seed could not be written to the destination
    device. *)
Definition writeBackupSeed `{Platform} (seed : list Z)
    (is_encrypted destination_device : Z) : io Z :=
  if negb (destination_device =? 0) then mret 1
  else
    clearDisplay;;
    displayOn;;
    waitForNoButtonPress;;
    (if negb (is_encrypted =? 0) then
       writeStringToDisplayWordWrap "Backup is encrypted."
     else
       writeStringToDisplayWordWrap "Backup is not encrypted.");;
    r ← waitForButtonPress;
    clearDisplay;;
    if negb (r =? 0) then
      displayOff;;
      mret 2
    else
      waitForNoButtonPress;;
      early ← writeBackupSeed_loop (Z.to_nat SEED_LENGTH) seed 0 0 0;
      match early with
      | Some code => mret code
      | None =>
          waitForNoButtonPress;;
          r ← waitForButtonPress;
          clearDisplay;;
          displayOff;;
          if negb (r =? 0) then mret 2 else mret 0
      end.

(** Notify user of stream error via. display. *)
Definition streamError : io unit :=
  clearDisplay;;
  displayOn;;
  writeStringToDisplayWordWrap "Unexpected communications error! Halting.".

(** Number of two-character strings written since the display was last
    cleared. *)
Definition strings_shown (lg : list event) : nat :=
  fold_left (fun k e =>
               match e with
               | EvClearDisplay => O
               | EvWriteString s => if (String.length s =? 2)%nat then S k else k
               | _ => k
               end) lg O.

(** A platform to run the functions on: the text buffers hold 22 and 36
    characters, the commands are numbered from 1, and the display cursor is
    at the end once 16 two-character strings were written since the display
    was last cleared. *)
Definition sample_platform : Platform := {|
  TEXT_AMOUNT_LENGTH := 22;
  TEXT_ADDRESS_LENGTH := 36;
  ASKUSER_NUKE_WALLET := 1;
  ASKUSER_NEW_ADDRESS := 2;
  ASKUSER_SIGN_TRANSACTION := 3;
  ASKUSER_FORMAT := 4;
  ASKUSER_CHANGE_NAME := 5;
  ASKUSER_BACKUP_WALLET := 6;
  ASKUSER_RESTORE_WALLET := 7;
  displayCursorAtEnd := fun lg => (16 <=? strings_shown lg)%nat
|}.

(* --------------------------------------------------------------------- *)
(** ** Notions used to state the properties of the user interface *)
(* --------------------------------------------------------------------- *)

(** The two arrays have [MAX_OUTPUTS] rows and [list_index] is at most
    [MAX_OUTPUTS]. *)
Definition ui_wf (st : ui_state) : Prop :=
  length (list_amount st) = Z.to_nat MAX_OUTPUTS /\
  length (list_address st) = Z.to_nat MAX_OUTPUTS /\
  0 <= list_index st <= MAX_OUTPUTS.

(** The pending outputs: the amount/address pairs of rows
    [0 .. list_index - 1]. *)
Definition pending_outputs (st : ui_state) : list (string * string) :=
  map (fun i => (row_text (list_amount st) (Z.of_nat i),
                 row_text (list_address st) (Z.of_nat i)))
      (seq 0 (Z.to_nat (list_index st))).

(** The first [k] characters of a string, or all of them up to its
    terminator if these are fewer. *)
Fixpoint c_prefix (k : nat) (src : string) : string :=
  match k, src with
  | S k', String c s =>
      if Ascii.eqb c NUL then EmptyString else String c (c_prefix k' s)
  | _, _ => EmptyString
  end.

Fixpoint all_distinct (l : list Z) : bool :=
  match l with
  | [] => true
  | x :: rest => forallb (fun y => negb (x =? y)) rest && all_distinct rest
  end.

(** The commands [askUser] recognises. *)
Definition askuser_commands `{Platform} : list Z :=
  [ASKUSER_NUKE_WALLET; ASKUSER_NEW_ADDRESS; ASKUSER_SIGN_TRANSACTION;
   ASKUSER_FORMAT; ASKUSER_CHANGE_NAME; ASKUSER_BACKUP_WALLET;
   ASKUSER_RESTORE_WALLET].

(** The enumeration gives its constants distinct values. *)
Definition commands_distinct `{Platform} : Prop :=
  all_distinct askuser_commands = true.

Definition command_known `{Platform} (command : Z) : bool :=
  existsb (Z.eqb command) askuser_commands.

Definition accepted (p : press) : Prop := button_result p = 0.
Definition denied (p : press) : Prop := button_result p <> 0.

(** The presses a run took are all acceptances, or acceptances followed by
    one denial. *)
Definition all_accepted (consumed : list press) : Prop :=
  Forall accepted consumed.

Definition denied_last (consumed : list press) : Prop :=
  exists acc p, consumed = acc ++ [p] /\ Forall accepted acc /\ denied p.

(** The log of the prompts for outputs [i], [i + 1], ..., one for each of
    the given presses. *)
Fixpoint output_prompts (st : ui_state) (i : Z) (presses : list press)
    : list event :=
  match presses with
  | [] => []
  | p :: rest =>
      output_prompt st i ++ EvWaitForButtonPress p ::
      output_prompts st (i + 1) rest
  end.

(** The log of the prompt for one output, with the answer to it. *)
Definition prompt_for (output : string * string) (p : press) : list event :=
  [EvClearDisplay; EvWaitForNoButtonPress;
   EvWriteString "Send "; EvWriteString output.1;
   EvWriteString " BTC to "; EvWriteString output.2;
   EvWriteString "?"; EvWaitForButtonPress p].

(** The log of the prompts for the first outputs of a list, one prompt for
    each of the given presses, in the order of the list. *)
Definition outputs_log (outputs : list (string * string))
    (presses : list press) : list event :=
  concat (zip_with prompt_for outputs presses).

(** The log of the prompt for the transaction fee. *)
Definition fee_prompt (st : ui_state) (p : press) : list event :=
  [EvClearDisplay; EvWaitForNoButtonPress;
   EvWriteString "Transaction fee:"; EvNextLine;
   EvWriteString (cstring (transaction_fee_amount st));
   EvWriteString " BTC."; EvNextLine;
   EvWriteString "Is this okay?";
   EvWaitForButtonPress p].

(** The log of one confirmation prompt of the format command. *)
Definition confirm_prompt (text : string) (p : press) : list event :=
  [EvWaitForNoButtonPress; EvWriteStringWordWrap text; EvWaitForButtonPress p].

(** The shapes of an approval session for a transaction with [n] pending
    outputs: [outs] are the answers to the output prompts, [fee] the answer
    to the fee prompt if there was one, [r] the result.  [r_uninit] is what
    [r] holds when no output was prompted for. *)
Inductive sign_session (n : nat) (fee_set : bool) (r_uninit : Z)
    : list press -> list press -> Z -> Prop :=
| SessionOutputDenied acc p :
    Forall accepted acc -> denied p -> (length acc < n)%nat ->
    sign_session n fee_set r_uninit (acc ++ [p]) [] 1
| SessionNoFeePrompt outs r :
    Forall accepted outs -> length outs = n ->
    r = (if outs is [] then r_uninit else 0) ->
    r <> 0 \/ fee_set = false ->
    sign_session n fee_set r_uninit outs [] r
| SessionFeePrompt outs p :
    Forall accepted outs -> length outs = n ->
    (if outs is [] then r_uninit else 0) = 0 ->
    fee_set = true ->
    sign_session n fee_set r_uninit outs [p] (button_result p).

(* --------------------------------------------------------------------- *)
(** ** user_interface.c: the pushbuttons *)
(* --------------------------------------------------------------------- *)

(** The functions that read the two pushbuttons from the pins of the
    LPC11Uxx.  The waits for a button have the same names as the i/o actions
    above, which stand for them in [askUser] and [writeBackupSeed]. *)
Module Buttons.

(** Number of consistent samples (each sample is 1 ms apart) required to
    register a button press. *)
Definition DEBOUNCE_COUNT : Z := 50.

(** The registers [initUserInterface] writes, each 32 bits wide. *)
Record registers : Type := Registers {
  SYSAHBCLKCTRL : Z;   (* LPC_SYSCON->SYSAHBCLKCTRL *)
  PIO0_7 : Z;          (* LPC_IOCON->PIO0_7 *)
  PIO0_17 : Z;         (* LPC_IOCON->PIO0_17 *)
  DIR0 : Z             (* LPC_GPIO->DIR[0] *)
}.

(** [~x] for an [int] constant [x], as the 32 bit value it is used as. *)
Definition not32 (x : Z) : Z := Z.lnot x mod 2 ^ 32.

(** Set up LPC11Uxx peripherals to get input from two pushbuttons. *)
Definition initUserInterface (r : registers) : registers :=
  let r := Registers (Z.lor (SYSAHBCLKCTRL r) 0x10040)
                     (PIO0_7 r) (PIO0_17 r) (DIR0 r) in
  let r := Registers (SYSAHBCLKCTRL r) 0xb0 (PIO0_17 r) (DIR0 r) in
  let r := Registers (SYSAHBCLKCTRL r) (PIO0_7 r) (PIO0_17 r)
                     (Z.land (DIR0 r) (not32 0x80)) in
  let r := Registers (SYSAHBCLKCTRL r) (PIO0_7 r) 0xb0 (DIR0 r) in
  Registers (SYSAHBCLKCTRL r) (PIO0_7 r) (PIO0_17 r)
            (Z.land (DIR0 r) (not32 0x20000)).

(** Returns 1 if the accept button is being pressed, 0 if it is not; [pin]
    is the value read from [LPC_GPIO->PIN[0]]. *)
Definition isAcceptPressed (pin : Z) : Z :=
  if Z.land pin 0x20000 =? 0 then 1 else 0.

(** Returns 1 if the cancel button is being pressed, 0 if it is not. *)
Definition isCancelPressed (pin : Z) : Z :=
  if Z.land pin 0x80 =? 0 then 1 else 0.

(** One pass of a debounce loop, after [wait1ms()]: the value of
    [LPC_GPIO->PIN[0]] as [isAcceptPressed()] reads it and as
    [isCancelPressed()] reads it (when it is called). *)
Definition sample : Type := (Z * Z)%type.

(** The loop of [waitForNoButtonPress] entered with the value [counter];
    it gives the samples left when the function returns, and [None] when
    the samples end before it does. *)
Fixpoint waitForNoButtonPress_loop (counter : Z) (samples : list sample)
    : option (list sample) :=
  if 0 <? counter then
    match samples with
    | [] => None
    | s :: rest =>
        if negb (isAcceptPressed s.1 =? 0) || negb (isCancelPressed s.2 =? 0)
        then waitForNoButtonPress_loop DEBOUNCE_COUNT rest
        else waitForNoButtonPress_loop ((counter - 1) mod 2 ^ 32) rest
    end
  else Some samples.

(** Wait until neither accept nor cancel buttons are being pressed. *)
Definition waitForNoButtonPress (samples : list sample) : option (list sample) :=
  waitForNoButtonPress_loop DEBOUNCE_COUNT samples.

(** The loop of [waitForButtonPress] entered with the values [counter] and
    [cancel_pressed] of the local variables ([accept_pressed] is assigned
    and read within one pass), followed by the function's return. *)
Fixpoint waitForButtonPress_loop (counter cancel_pressed : Z)
    (samples : list sample) : option (Z * list sample) :=
  if 0 <? counter then
    match samples with
    | [] => None
    | s :: rest =>
        let accept_pressed := isAcceptPressed s.1 in
        let cancel_pressed := isCancelPressed s.2 in
        if (accept_pressed =? 0) && (cancel_pressed =? 0)
        then waitForButtonPress_loop DEBOUNCE_COUNT cancel_pressed rest
        else waitForButtonPress_loop ((counter - 1) mod 2 ^ 32) cancel_pressed rest
    end
  else Some (if negb (cancel_pressed =? 0) then 1 else 0, samples).

(** Wait until accept or cancel button is pressed.  Returns 0 if the accept
    button was pressed, non-zero if the cancel button was pressed.
    [cancel_uninit] is what the local variable [cancel_pressed], declared
    without initialiser, holds before the loop. *)
Definition waitForButtonPress (cancel_uninit : Z) (samples : list sample)
    : option (Z * list sample) :=
  waitForButtonPress_loop DEBOUNCE_COUNT cancel_uninit samples.

(** Whether a button is down in a sample, as the loops see it. *)
Definition button_down (s : sample) : bool :=
  negb (isAcceptPressed s.1 =? 0) || negb (isCancelPressed s.2 =? 0).

(** The buttons held down in a sample in which one is. *)
Definition press_of_sample (s : sample) : press :=
  if isCancelPressed s.2 =? 0 then PressAccept
  else if isAcceptPressed s.1 =? 0 then PressCancel
  else PressBoth.

End Buttons.

(** No [n] samples in a row of a list are all in the state [down] of the
    buttons. *)
Definition no_run_of (down : bool) (n : nat) (l : list Buttons.sample) : Prop :=
  forall l1 l2 l3,
    l = l1 ++ l2 ++ l3 ->
    Forall (fun s => Buttons.button_down s = down) l2 ->
    (length l2 < n)%nat.

(** A list of samples is empty or ends with a sample in the state [down]. *)
Definition ends_with (down : bool) (l : list Buttons.sample) : Prop :=
  l = [] \/ exists l' s, l = l' ++ [s] /\ Buttons.button_down s = down.

(* --------------------------------------------------------------------- *)
(** ** Notions used to state further properties *)
(* --------------------------------------------------------------------- *)

(** A call of one of the three functions that change the pending outputs
    and the fee. *)
Inductive ui_call : Type :=
| CallNewOutputSeen (text_amount text_address : string)
| CallSetTransactionFee (text_amount : string)
| CallClearOutputsSeen.

Definition ui_step `{Platform} (st : ui_state) (c : ui_call) : ui_state :=
  match c with
  | CallNewOutputSeen a d => (newOutputSeen a d st).2
  | CallSetTransactionFee a => setTransactionFee a st
  | CallClearOutputsSeen => clearOutputsSeen st
  end.

(** The state after a sequence of calls. *)
Definition ui_run `{Platform} (calls : list ui_call) (st : ui_state) : ui_state :=
  fold_left ui_step calls st.

(** [newOutputSeen] called for each of a list of outputs in turn, as for the
    outputs of one transaction: the values returned and the final state. *)
Fixpoint newOutputsSeen `{Platform} (outputs : list (string * string))
    (st : ui_state) : list Z * ui_state :=
  match outputs with
  | [] => ([], st)
  | (a, d) :: rest =>
      let (r, st') := newOutputSeen a d st in
      let (rs, st'') := newOutputsSeen rest st' in
      (r :: rs, st'')
  end.

(** A character buffer of [n] characters whose last character is NUL. *)
Definition terminated_buffer (n : nat) (buf : list ascii) : Prop :=
  length buf = n /\ last buf = Some NUL.

(** Every text buffer of the user interface is terminated. *)
Definition buffers_terminated `{Platform} (st : ui_state) : Prop :=
  Forall (terminated_buffer TEXT_AMOUNT_LENGTH) (list_amount st) /\
  Forall (terminated_buffer TEXT_ADDRESS_LENGTH) (list_address st) /\
  terminated_buffer TEXT_AMOUNT_LENGTH (transaction_fee_amount st).

(** A text that a buffer of [n] characters has room for: shorter than [n]
    and without NUL. *)
Definition text_fits (n : nat) (text : string) : Prop :=
  (String.length text < n)%nat /\
  forall c, In c (list_ascii_of_string text) -> c <> NUL.

(** An amount/address pair as the buffers keep it. *)
Definition stored_pair `{Platform} (output : string * string) : string * string :=
  (c_prefix (TEXT_AMOUNT_LENGTH - 1) output.1,
   c_prefix (TEXT_ADDRESS_LENGTH - 1) output.2).

(** The commands for which [askUser] asks one question, with the question. *)
Definition single_questions `{Platform} : list (Z * string) :=
  [(ASKUSER_NUKE_WALLET, "Delete current wallet and create new one?");
   (ASKUSER_NEW_ADDRESS, "Create new address?");
   (ASKUSER_CHANGE_NAME, "Change the name of the current wallet?");
   (ASKUSER_BACKUP_WALLET, "Do you want to backup the current wallet?");
   (ASKUSER_RESTORE_WALLET, "Delete current wallet and restore from a backup?")].

(** What an i/o action does when it returns: its value satisfies [P], the
    log has grown at its end and presses were taken from the front of those
    to come. *)
Definition io_post {A : Type} (m : io A) (P : A -> Prop) : Prop :=
  forall w a w',
    m w = Some (a, w') ->
    P a /\
    exists mid consumed,
      log w' = log w ++ mid /\ pending w = consumed ++ pending w'.

(** The value of a hexadecimal digit. *)
Definition hex_digit_value (c : ascii) : option Z :=
  let n := Z.of_N (N_of_ascii c) in
  if (48 <=? n) && (n <=? 57) then Some (n - 48)
  else if (97 <=? n) && (n <=? 102) then Some (n - 87)
  else None.

(** The byte that a string of two hexadecimal digits stands for. *)
Definition hex_byte_value (s : string) : option Z :=
  match s with
  | String h (String l EmptyString) =>
      match hex_digit_value h, hex_digit_value l with
      | Some a, Some b => Some (16 * a + b)
      | _, _ => None
      end
  | _ => None
  end.

(** The bytes written to the display as two hexadecimal digits, in the
    order they were written. *)
Definition bytes_shown (lg : list event) : list Z :=
  omap (fun e => match e with
                 | EvWriteString s => hex_byte_value s
                 | _ => None
                 end) lg.

(* ===================================================================== *)
(** * Part II: theorems *)
(* ===================================================================== *)

(** C5: the layout constants give the partition of non-volatile storage:
    entropy pool at 64, pool checksum at 96, staging area at 128 whose
    length is the record length 160 (a multiple of 16), and wallet record
    [i] at [(128 + record_length) + i * record_length]. *)
Theorem storage_layout_partition :
  ADDRESS_ENTROPY_POOL = 64 /\
  ADDRESS_POOL_CHECKSUM = 96 /\
  ADDRESS_WALLET_STAGING = 128 /\
  staging_area_length = WALLET_RECORD_LENGTH /\
  WALLET_RECORD_LENGTH = 160 /\
  WALLET_RECORD_LENGTH mod AES_BLOCK_SIZE = 0 /\
  forall i, wallet_record_address i =
            (128 + WALLET_RECORD_LENGTH) + i * WALLET_RECORD_LENGTH.
Proof.
  repeat split.
Qed.

(** C7: every command with a declared fixed payload length has exactly the
    sum of its field widths as that length; in particular create-wallet 77,
    load-wallet 36, restore-wallet 141, format-storage 32, change-key 32,
    change-name 40, backup-wallet 2 and get-address 4. *)
Theorem declared_length_is_sum_of_fields :
  (forall c, declared_length c = None \/
             declared_length c = Some (fields_width (value_fields c))) /\
  declared_length CmdCreateWallet = Some (4 + 1 + 32 + 40) /\
  declared_length CmdLoadWallet = Some (4 + 32) /\
  declared_length CmdRestoreWallet = Some (4 + 1 + 32 + 40 + 64) /\
  declared_length CmdFormatStorage = Some 32 /\
  declared_length CmdChangeKey = Some 32 /\
  declared_length CmdChangeName = Some 40 /\
  declared_length CmdBackupWallet = Some 2 /\
  declared_length CmdGetAddress = Some 4 /\
  fields_width (value_fields CmdCreateWallet) = 77 /\
  fields_width (value_fields CmdLoadWallet) = 36 /\
  fields_width (value_fields CmdRestoreWallet) = 141.
Proof.
  split.
  - intros c. destruct c; simpl; auto.
  - repeat split.
Qed.

(* --------------------------------------------------------------------- *)
(** ** The packet format *)
(* --------------------------------------------------------------------- *)

Lemma le32_bytes_of_value b0 b1 b2 b3 :
  is_byte b0 -> is_byte b1 -> is_byte b2 -> is_byte b3 ->
  le32_bytes (le32_value b0 b1 b2 b3) = [b0; b1; b2; b3].
Proof.
  unfold is_byte, le32_bytes, le32_value. intros H0 H1 H2 H3.
  repeat f_equal.
  - symmetry. apply (Z.mod_unique_pos _ _ (b1 + 256 * b2 + 65536 * b3)); lia.
  - replace ((b0 + 256 * b1 + 65536 * b2 + 16777216 * b3) / 256)
      with (b1 + 256 * b2 + 65536 * b3)
      by (apply (Z.div_unique_pos _ _ _ b0); lia).
    symmetry. apply (Z.mod_unique_pos _ _ (b2 + 256 * b3)); lia.
  - replace ((b0 + 256 * b1 + 65536 * b2 + 16777216 * b3) / 65536)
      with (b2 + 256 * b3)
      by (apply (Z.div_unique_pos _ _ _ (b0 + 256 * b1)); lia).
    symmetry. apply (Z.mod_unique_pos _ _ b3); lia.
  - replace ((b0 + 256 * b1 + 65536 * b2 + 16777216 * b3) / 16777216)
      with b3
      by (apply (Z.div_unique_pos _ _ _ (b0 + 256 * b1 + 65536 * b2)); lia).
    symmetry. apply (Z.mod_unique_pos _ _ 0); lia.
Qed.

Lemma le32_value_of_bytes n :
  0 <= n < 2 ^ 32 ->
  match le32_bytes n with
  | [b0; b1; b2; b3] =>
      le32_value b0 b1 b2 b3 = n /\
      is_byte b0 /\ is_byte b1 /\ is_byte b2 /\ is_byte b3
  | _ => False
  end.
Proof.
  intros H. unfold le32_bytes, le32_value, is_byte.
  change (2 ^ 32) with 4294967296 in H.
  repeat split; try (apply Z.mod_pos_bound; lia).
  pose proof (Z.div_mod n 256 ltac:(lia)).
  pose proof (Z.div_mod (n / 256) 256 ltac:(lia)).
  pose proof (Z.div_mod (n / 256 / 256) 256 ltac:(lia)).
  pose proof (Z.div_mod (n / 256 / 256 / 256) 256 ltac:(lia)).
  replace (n / 65536) with (n / 256 / 256)
    by (rewrite Z.div_div by lia; reflexivity).
  replace (n / 16777216) with (n / 256 / 256 / 256)
    by (rewrite !Z.div_div by lia; reflexivity).
  assert (n / 256 / 256 / 256 / 256 = 0).
  { rewrite !Z.div_div by lia. apply Z.div_small. lia. }
  lia.
Qed.

(** C4: a packet read from a stream of bytes is one type byte, a 4-byte
    little-endian length within capacity and exactly that many value bytes;
    encoding it gives back the bytes it was read from. *)
Theorem encode_decode_packet (capacity : Z) (stream rest : list Z) (p : packet) :
  Forall is_byte stream ->
  decode_packet capacity stream = Some (p, rest) ->
  encode_packet p ++ rest = stream /\
  (rest = [] -> encode_packet p = stream) /\
  Z.of_nat (length (packet_value p)) <= capacity /\
  exists b0 b1 b2 b3,
    stream = packet_type p :: b0 :: b1 :: b2 :: b3 :: packet_value p ++ rest /\
    le32_value b0 b1 b2 b3 = Z.of_nat (length (packet_value p)).
Proof.
  intros Hbytes Hdec. unfold decode_packet in Hdec.
  destruct stream as [|t [|b0 [|b1 [|b2 [|b3 body]]]]]; try discriminate.
  destruct (Z.leb_spec (le32_value b0 b1 b2 b3) capacity) as [Hcap|];
    [|discriminate].
  destruct (Z.leb_spec (le32_value b0 b1 b2 b3) (Z.of_nat (length body)))
    as [Hlen|]; [|discriminate].
  simpl in Hdec. injection Hdec as <- <-.
  repeat match goal with
         | H : Forall _ (_ :: _) |- _ => apply Forall_cons in H; destruct H
         end.
  assert (Hnonneg : 0 <= le32_value b0 b1 b2 b3)
    by (unfold le32_value, is_byte in *; lia).
  assert (Hvalue : Z.of_nat (length (take (Z.to_nat (le32_value b0 b1 b2 b3)) body))
                   = le32_value b0 b1 b2 b3).
  { rewrite length_take. lia. }
  assert (Henc : encode_packet
                   (Packet t (take (Z.to_nat (le32_value b0 b1 b2 b3)) body)) ++
                 drop (Z.to_nat (le32_value b0 b1 b2 b3)) body
                 = t :: b0 :: b1 :: b2 :: b3 :: body).
  { unfold encode_packet. cbn [packet_type packet_value].
    rewrite Hvalue, le32_bytes_of_value by assumption.
    cbn [app]. rewrite take_drop. reflexivity. }
  split; [exact Henc|]. split; [|split].
  - intros Hrest. rewrite Hrest, app_nil_r in Henc. exact Henc.
  - cbn [packet_value]. lia.
  - exists b0, b1, b2, b3. cbn [packet_type packet_value].
    rewrite take_drop. split; [reflexivity|]. symmetry. exact Hvalue.
Qed.

(** Conversely, every packet whose value fits the capacity and the length
    field is read back from its encoding. *)
Lemma decode_encode_packet (capacity : Z) (p : packet) (rest : list Z) :
  Z.of_nat (length (packet_value p)) <= capacity ->
  Z.of_nat (length (packet_value p)) < 2 ^ 32 ->
  decode_packet capacity (encode_packet p ++ rest) = Some (p, rest).
Proof.
  intros Hcap H32. destruct p as [t v]. cbn [packet_value] in *.
  pose proof (le32_value_of_bytes (Z.of_nat (length v)) ltac:(lia)) as Hle.
  unfold encode_packet. cbn [packet_type packet_value].
  unfold le32_bytes in *.
  destruct Hle as (Hval & _).
  cbn [app decode_packet]. rewrite Hval.
  rewrite length_app.
  destruct (Z.leb_spec (Z.of_nat (length v)) capacity); [|lia].
  destruct (Z.leb_spec (Z.of_nat (length v))
              (Z.of_nat (length v + length rest))); [|lia].
  simpl. rewrite Nat2Z.id, take_app_length, drop_app_length. reflexivity.
Qed.

Lemma encode_decode_packet_witness :
  let stream := [0x0B; 2; 0; 0; 0; 17; 42; 0x0C; 0; 0; 0; 0] in
  Forall is_byte stream /\
  decode_packet 4 stream = Some (Packet 0x0B [17; 42], [0x0C; 0; 0; 0; 0]) /\
  encode_packet (Packet 0x0B [17; 42]) ++ [0x0C; 0; 0; 0; 0] = stream.
Proof.
  intros stream.
  assert (Hb : Forall is_byte stream)
    by (repeat constructor; unfold is_byte; lia).
  split; [exact Hb|]. split; [reflexivity|].
  exact (proj1 (encode_decode_packet 4 stream _ _ Hb eq_refl)).
Defined.

(* --------------------------------------------------------------------- *)
(** ** The pending outputs *)
(* --------------------------------------------------------------------- *)

Section PendingOutputs.

Context `{Platform}.

Lemma strncpy_length (n : nat) : forall src, length (strncpy n src) = n.
Proof.
  induction n as [|n IH]; intros src; [reflexivity|].
  destruct src as [|c s]; cbn [strncpy].
  - apply length_replicate.
  - destruct (Ascii.eqb c NUL); [apply length_replicate|].
    simpl. rewrite IH. reflexivity.
Qed.

Lemma cstring_replicate_NUL (n : nat) (i : nat) :
  cstring (<[i := NUL]> (replicate n NUL)) = EmptyString.
Proof. destruct n, i; reflexivity. Qed.

(** The buffer holds the text cut to the room the buffer has for it. *)
Lemma cstring_copy_terminated (n : nat) : forall src,
  cstring (copy_terminated (S n) src) = c_prefix n src.
Proof.
  unfold copy_terminated.
  induction n as [|n IH]; intros src.
  - destruct src as [|c s]; cbn; [reflexivity|].
    destruct (Ascii.eqb c NUL); reflexivity.
  - replace (S (S n) - 1)%nat with (S n) by lia.
    replace (S n - 1)%nat with n in IH by lia.
    destruct src as [|c s]; cbn [strncpy c_prefix].
    + apply cstring_replicate_NUL.
    + destruct (Ascii.eqb c NUL) eqn:Hc; [apply cstring_replicate_NUL|].
      cbn [insert list_insert cstring]. rewrite Hc.
      f_equal. apply IH.
Qed.

(** A text without NUL that fits is kept as it is. *)
Lemma c_prefix_fits (src : string) : forall k,
  (String.length src <= k)%nat ->
  (forall c, In c (list_ascii_of_string src) -> c <> NUL) ->
  c_prefix k src = src.
Proof.
  induction src as [|c s IH]; intros k Hk Hnul; [destruct k; reflexivity|].
  destruct k as [|k]; simpl in Hk; [lia|].
  cbn [c_prefix].
  destruct (Ascii.eqb_spec c NUL) as [->|_].
  - exfalso. apply (Hnul NUL); [left|]; reflexivity.
  - f_equal. apply IH; [lia|]. intros c' Hc'. apply Hnul. right. exact Hc'.
Qed.

Lemma pending_outputs_length (st : ui_state) :
  length (pending_outputs st) = Z.to_nat (list_index st).
Proof. unfold pending_outputs. rewrite length_map, length_seq. reflexivity. Qed.

(** C3: with [MAX_OUTPUTS] = 20 pairs stored, [newOutputSeen] returns 1 and
    changes nothing; with fewer, it returns 0, the count goes up by one and
    the pending outputs are those there were, followed by the new pair (its
    texts cut to the size of their buffers): no row of another index
    changes. *)
Theorem newOutputSeen_full_or_appended
    (text_amount text_address : string) (st : ui_state) :
  ui_wf st ->
  (0 < TEXT_AMOUNT_LENGTH)%nat ->
  (0 < TEXT_ADDRESS_LENGTH)%nat ->
  MAX_OUTPUTS = 20 /\
  (list_index st = MAX_OUTPUTS ->
   newOutputSeen text_amount text_address st = (1, st)) /\
  (list_index st < MAX_OUTPUTS ->
   exists st',
     newOutputSeen text_amount text_address st = (0, st') /\
     list_index st' = list_index st + 1 /\
     pending_outputs st' =
       pending_outputs st ++
       [(c_prefix (TEXT_AMOUNT_LENGTH - 1) text_amount,
         c_prefix (TEXT_ADDRESS_LENGTH - 1) text_address)] /\
     (forall i : nat, Z.of_nat i <> list_index st ->
        list_amount st' !! i = list_amount st !! i /\
        list_address st' !! i = list_address st !! i) /\
     transaction_fee_set st' = transaction_fee_set st /\
     transaction_fee_amount st' = transaction_fee_amount st /\
     ui_wf st').
Proof.
  intros (Hla & Hld & Hidx) Ham Had.
  split; [reflexivity|]. split.
  - intros Hfull. unfold newOutputSeen.
    destruct (Z.leb_spec MAX_OUTPUTS (list_index st)); [reflexivity|lia].
  - intros Hroom. unfold newOutputSeen.
    destruct (Z.leb_spec MAX_OUTPUTS (list_index st)); [lia|].
    eexists. split; [reflexivity|].
    cbn [list_index list_amount list_address transaction_fee_set
         transaction_fee_amount].
    assert (Hmod : (list_index st + 1) mod 2 ^ 32 = list_index st + 1).
    { apply Z.mod_small. unfold MAX_OUTPUTS in *. lia. }
    split; [exact Hmod|]. split; [|split; [|split; [|split]]].
    + unfold pending_outputs.
      cbn [list_index list_amount list_address]. rewrite Hmod.
      replace (Z.to_nat (list_index st + 1))
        with (S (Z.to_nat (list_index st))) by lia.
      rewrite seq_S, map_app. cbn [map Nat.add]. f_equal.
      * apply map_ext_in. intros i Hi. apply in_seq in Hi.
        unfold row_text. rewrite Nat2Z.id.
        rewrite !list_lookup_total_insert_ne by lia. reflexivity.
      * unfold row_text. rewrite Nat2Z.id.
        rewrite !list_lookup_total_insert_eq
          by (rewrite ?Hla, ?Hld; unfold MAX_OUTPUTS in *; lia).
        destruct TEXT_AMOUNT_LENGTH as [|na]; [lia|].
        destruct TEXT_ADDRESS_LENGTH as [|nd]; [lia|].
        rewrite !cstring_copy_terminated.
        replace (S na - 1)%nat with na by lia.
        replace (S nd - 1)%nat with nd by lia.
        reflexivity.
    + intros i Hi.
      rewrite !list_lookup_insert_ne by lia. split; reflexivity.
    + reflexivity.
    + reflexivity.
    + unfold ui_wf. cbn [list_index list_amount list_address].
      rewrite !length_insert, Hmod. repeat split; try assumption; lia.
Qed.

(** The functions that change the pending outputs keep them well formed,
    starting from the zero-initialised variables. *)
Lemma ui_initial_wf : ui_wf ui_initial.
Proof.
  unfold ui_wf, ui_initial. cbn [list_amount list_address list_index].
  rewrite !length_replicate.
  unfold MAX_OUTPUTS. repeat split; try reflexivity; lia.
Qed.

Lemma clearOutputsSeen_wf st : ui_wf st -> ui_wf (clearOutputsSeen st).
Proof.
  intros (? & ? & ?). unfold ui_wf, clearOutputsSeen. cbn.
  unfold MAX_OUTPUTS. repeat split; try assumption; lia.
Qed.

Lemma setTransactionFee_wf text st :
  ui_wf st -> ui_wf (setTransactionFee text st).
Proof. intros H0. exact H0. Qed.

Lemma newOutputSeen_wf a d st :
  ui_wf st -> ui_wf (newOutputSeen a d st).2.
Proof.
  intros (Hla & Hld & Hidx). unfold newOutputSeen.
  destruct (Z.leb_spec MAX_OUTPUTS (list_index st)).
  - exact (conj Hla (conj Hld Hidx)).
  - unfold ui_wf. cbn [snd list_amount list_address list_index].
    rewrite !length_insert.
    rewrite Z.mod_small by (unfold MAX_OUTPUTS in *; lia).
    repeat split; try assumption; lia.
Qed.

End PendingOutputs.

Lemma newOutputSeen_full_or_appended_witness :
  let st := clearOutputsSeen (@ui_initial sample_platform) in
  let st1 := (newOutputSeen (H := sample_platform) "0.01"
                "1RaTTuSEN7jJUDiW1EGogHwtek7g9BiEn" st).2 in
  ui_wf st /\
  (0 < @TEXT_AMOUNT_LENGTH sample_platform)%nat /\
  (0 < @TEXT_ADDRESS_LENGTH sample_platform)%nat /\
  list_index st < MAX_OUTPUTS /\
  pending_outputs st1 = [("0.01", "1RaTTuSEN7jJUDiW1EGogHwtek7g9BiEn")].
Proof.
  intros st st1.
  assert (Hwf : ui_wf st)
    by (unfold ui_wf; cbn; unfold MAX_OUTPUTS; repeat split; lia).
  assert (Ha : (0 < @TEXT_AMOUNT_LENGTH sample_platform)%nat) by (cbn; lia).
  assert (Hd : (0 < @TEXT_ADDRESS_LENGTH sample_platform)%nat) by (cbn; lia).
  assert (Hroom : list_index st < MAX_OUTPUTS) by (cbn; unfold MAX_OUTPUTS; lia).
  split; [exact Hwf|]. split; [exact Ha|]. split; [exact Hd|].
  split; [exact Hroom|].
  destruct (newOutputSeen_full_or_appended (H := sample_platform)
              "0.01" "1RaTTuSEN7jJUDiW1EGogHwtek7g9BiEn" st Hwf Ha Hd)
    as (_ & _ & Happ).
  destruct (Happ Hroom) as (st' & Heq & _ & Hpend & _).
  subst st1. rewrite Heq. exact Hpend.
Defined.

(* --------------------------------------------------------------------- *)
(** ** askUser *)
(* --------------------------------------------------------------------- *)

(** Turns the hypothesis that the commands are distinct into the
    inequalities between them. *)
Ltac use_distinct Hd :=
  unfold commands_distinct, askuser_commands in Hd;
  cbn [all_distinct forallb] in Hd;
  rewrite ?andb_true_iff, ?negb_true_iff, ?Z.eqb_neq in Hd;
  destruct_and?.

(** Settles the comparisons of the command with the constants. *)
Ltac decide_command :=
  repeat match goal with
         | |- context [?a =? ?b] =>
             first [ rewrite (Z.eqb_refl a)
                   | rewrite (proj2 (Z.eqb_neq a b)) by congruence ]
         end.

(** Brings a log to the form [lg ++ events]. *)
Ltac normalise_log := rewrite <- ?app_assoc; cbn [app].

(** Runs the i/o of a function as far as the presses are known. *)
Ltac run_io :=
  cbv beta iota zeta delta
    [mbind io_bind mret io_ret emit clearDisplay displayOn displayOff nextLine
     writeStringToDisplay writeStringToDisplayWordWrap waitForNoButtonPress
     waitForButtonPress cursorAtEnd pending log button_result
     Z.eqb negb andb].

Tactic Notation "run_io" "in" hyp(Hyp) :=
  cbv beta iota zeta delta
    [mbind io_bind mret io_ret emit clearDisplay displayOn displayOff nextLine
     writeStringToDisplay writeStringToDisplayWordWrap waitForNoButtonPress
     waitForButtonPress cursorAtEnd pending log button_result
     Z.eqb negb andb] in Hyp.

Lemma denied_result (p : press) : denied p -> button_result p = 1.
Proof. destruct p; unfold denied; simpl; [congruence|reflexivity..]. Qed.

Lemma accepted_press (p : press) : accepted p -> p = PressAccept.
Proof. destruct p; unfold accepted; simpl; [reflexivity|discriminate..]. Qed.

Ltac solve_denied := unfold denied; simpl; discriminate.

Lemma accepted_or_denied (p : press) : accepted p \/ denied p.
Proof. destruct p; [left; reflexivity|right; discriminate..]. Qed.

Section AskUser.

Context `{Platform}.

(** C10: for a command that is none of the seven recognised ones,
    [askUser] waits for one button press and returns 1 (denial) whichever
    button it was; it never returns anything else. *)
Theorem askUser_unknown_command_denied
    (r_uninit command : Z) (st : ui_state) (lg : list event) :
  command_known command = false ->
  (forall p rest,
      askUser r_uninit command st (World (p :: rest) lg) =
      Some (1, World rest
                 (lg ++ [EvClearDisplay; EvDisplayOn; EvWaitForNoButtonPress;
                         EvWriteStringWordWrap
                           "Unknown command in askUser(). Press any button to continue...";
                         EvWaitForButtonPress p;
                         EvClearDisplay; EvDisplayOff]))) /\
  askUser r_uninit command st (World [] lg) = None /\
  (forall ps r w', askUser r_uninit command st (World ps lg) = Some (r, w') ->
                   r = 1).
Proof.
  intros Hunknown.
  unfold command_known, askuser_commands in Hunknown.
  cbn [existsb] in Hunknown.
  rewrite !orb_false_iff in Hunknown. destruct_and?.
  assert (Hrun : forall p rest,
    askUser r_uninit command st (World (p :: rest) lg) =
    Some (1, World rest
               (lg ++ [EvClearDisplay; EvDisplayOn; EvWaitForNoButtonPress;
                       EvWriteStringWordWrap
                         "Unknown command in askUser(). Press any button to continue...";
                       EvWaitForButtonPress p;
                       EvClearDisplay; EvDisplayOff]))).
  { intros p rest. unfold askUser.
    repeat match goal with
           | Hc : (command =? _) = false |- _ => rewrite Hc; clear Hc
           end.
    run_io. normalise_log. reflexivity. }
  assert (Hblocked : askUser r_uninit command st (World [] lg) = None).
  { unfold askUser.
    repeat match goal with
           | Hc : (command =? _) = false |- _ => rewrite Hc; clear Hc
           end.
    reflexivity. }
  split; [exact Hrun|]. split; [exact Hblocked|].
  intros [|p rest] r w' Hres.
  - rewrite Hblocked in Hres. discriminate.
  - rewrite Hrun in Hres. congruence.
Qed.

(** C9: for the format command [askUser] returns 0 (acceptance) exactly
    when the user accepts three confirmation prompts in a row; a denial at
    the first, second or third prompt makes it return 1 without any
    further confirmation prompt. *)
Theorem askUser_format_three_confirmations
    (r_uninit : Z) (st : ui_state) (ps : list press) (lg : list event) :
  commands_distinct ->
  let run := askUser r_uninit ASKUSER_FORMAT st (World ps lg) in
  let first_prompt :=
    confirm_prompt "Format storage? This will delete everything!" in
  let second_prompt :=
    confirm_prompt "Are you sure you you want to nuke all wallets?" in
  let third_prompt := confirm_prompt "Are you really really sure?" in
  (forall rest,
      ps = PressAccept :: PressAccept :: PressAccept :: rest ->
      run = Some (0, World rest
                       (lg ++ [EvClearDisplay; EvDisplayOn] ++
                        first_prompt PressAccept ++
                        EvClearDisplay :: second_prompt PressAccept ++
                        EvClearDisplay :: third_prompt PressAccept ++
                        [EvClearDisplay; EvDisplayOff]))) /\
  (forall p1 rest,
      denied p1 -> ps = p1 :: rest ->
      run = Some (1, World rest
                       (lg ++ [EvClearDisplay; EvDisplayOn] ++
                        first_prompt p1 ++
                        [EvClearDisplay; EvDisplayOff]))) /\
  (forall p2 rest,
      denied p2 -> ps = PressAccept :: p2 :: rest ->
      run = Some (1, World rest
                       (lg ++ [EvClearDisplay; EvDisplayOn] ++
                        first_prompt PressAccept ++
                        EvClearDisplay :: second_prompt p2 ++
                        [EvClearDisplay; EvDisplayOff]))) /\
  (forall p3 rest,
      denied p3 -> ps = PressAccept :: PressAccept :: p3 :: rest ->
      run = Some (1, World rest
                       (lg ++ [EvClearDisplay; EvDisplayOn] ++
                        first_prompt PressAccept ++
                        EvClearDisplay :: second_prompt PressAccept ++
                        EvClearDisplay :: third_prompt p3 ++
                        [EvClearDisplay; EvDisplayOff]))) /\
  (forall w', run = Some (0, w') ->
              ps = PressAccept :: PressAccept :: PressAccept :: pending w') /\
  (forall r w', run = Some (r, w') -> r = 0 \/ r = 1).
Proof.
  intros Hd run first_prompt second_prompt third_prompt.
  use_distinct Hd.
  assert (Hrun : run = askUser r_uninit ASKUSER_FORMAT st (World ps lg))
    by reflexivity.
  clearbody run. unfold askUser in Hrun. revert Hrun. decide_command.
  intros Hrun.
  repeat split.
  - intros rest ->. rewrite Hrun. run_io. normalise_log. reflexivity.
  - intros p1 rest Hp ->. rewrite Hrun.
    destruct p1; [exfalso; apply Hp; reflexivity|..];
      run_io; normalise_log; reflexivity.
  - intros p2 rest Hp ->. rewrite Hrun.
    destruct p2; [exfalso; apply Hp; reflexivity|..];
      run_io; normalise_log; reflexivity.
  - intros p3 rest Hp ->. rewrite Hrun.
    destruct p3; [exfalso; apply Hp; reflexivity|..];
      run_io; normalise_log; reflexivity.
  - intros w' Hres. rewrite Hrun in Hres.
    destruct ps as [|[] [|[] [|[] rest]]]; run_io in Hres;
      try discriminate; inversion Hres; reflexivity.
  - intros r w' Hres. rewrite Hrun in Hres.
    destruct ps as [|[] [|[] [|[] rest]]]; run_io in Hres;
      try discriminate; inversion Hres; auto.
Qed.

(** *** The sign-transaction command *)

(** The user denies an output: the loop is left at once. *)
Lemma askUser_outputs_denied (st : ui_state) (acc : list press) :
  forall i r p rest lg,
    Forall accepted acc -> denied p ->
    0 <= i -> i + Z.of_nat (length acc) < list_index st ->
    list_index st <= 255 ->
    askUser_outputs st i r (acc ++ p :: rest) lg =
    Some (1, World rest (lg ++ output_prompts st i (acc ++ [p]))).
Proof.
  induction acc as [|a acc IH]; intros i r p rest lg Hacc Hp Hi Hlt Hmax.
  - cbn [app askUser_outputs output_prompts length] in *.
    destruct (Z.ltb_spec i (list_index st)); [|lia].
    rewrite (denied_result p Hp). cbn [Z.eqb negb]. reflexivity.
  - apply Forall_cons in Hacc. destruct Hacc as [Ha Hacc].
    apply accepted_press in Ha. subst a.
    cbn [app askUser_outputs output_prompts length] in *.
    destruct (Z.ltb_spec i (list_index st)); [|lia].
    cbn [button_result Z.eqb negb].
    rewrite Z.mod_small by lia.
    rewrite IH by (try assumption; lia).
    normalise_log. reflexivity.
Qed.

(** The user accepts every output: the loop runs to its end, and [r] is 0
    unless there was no output at all. *)
Lemma askUser_outputs_approved (st : ui_state) (acc : list press) :
  forall i r rest lg,
    Forall accepted acc ->
    0 <= i -> i + Z.of_nat (length acc) = list_index st ->
    list_index st <= 255 ->
    askUser_outputs st i r (acc ++ rest) lg =
    Some (if acc is [] then r else 0,
          World rest (lg ++ output_prompts st i acc)).
Proof.
  induction acc as [|a acc IH]; intros i r rest lg Hacc Hi Hlen Hmax.
  - cbn [app output_prompts length] in *. rewrite app_nil_r.
    destruct rest; cbn [askUser_outputs];
      destruct (Z.ltb_spec i (list_index st)); try lia; reflexivity.
  - apply Forall_cons in Hacc. destruct Hacc as [Ha Hacc].
    apply accepted_press in Ha. subst a.
    cbn [app askUser_outputs output_prompts length] in *.
    destruct (Z.ltb_spec i (list_index st)); [|lia].
    cbn [button_result Z.eqb negb].
    rewrite Z.mod_small by lia.
    rewrite IH by (try assumption; lia).
    normalise_log. destruct acc; reflexivity.
Qed.

(** The presses run out before every output was answered. *)
Lemma askUser_outputs_blocked (st : ui_state) (ps : list press) :
  forall i r lg,
    Forall accepted ps ->
    0 <= i -> i + Z.of_nat (length ps) < list_index st ->
    list_index st <= 255 ->
    askUser_outputs st i r ps lg = None.
Proof.
  induction ps as [|a ps IH]; intros i r lg Hacc Hi Hlen Hmax.
  - cbn [askUser_outputs length] in *.
    destruct (Z.ltb_spec i (list_index st)); [reflexivity|lia].
  - apply Forall_cons in Hacc. destruct Hacc as [Ha Hacc].
    apply accepted_press in Ha. subst a.
    cbn [askUser_outputs length] in *.
    destruct (Z.ltb_spec i (list_index st)); [|lia].
    cbn [button_result Z.eqb negb].
    rewrite Z.mod_small by lia.
    apply IH; try assumption; lia.
Qed.

(** The presses to come either hold a denial among the first [n], or
    start with [n] acceptances, or are fewer than [n] acceptances. *)
Lemma presses_cases (n : nat) : forall ps : list press,
  (exists acc p rest, ps = acc ++ p :: rest /\ Forall accepted acc /\
                      denied p /\ (length acc < n)%nat) \/
  (exists acc rest, ps = acc ++ rest /\ Forall accepted acc /\
                    length acc = n) \/
  (Forall accepted ps /\ (length ps < n)%nat).
Proof.
  induction n as [|n IH]; intros ps.
  - right. left. exists [], ps. repeat split. constructor.
  - destruct ps as [|p ps].
    + right. right. split; [constructor|simpl; lia].
    + destruct (accepted_or_denied p) as [Hp|Hp].
      * destruct (IH ps) as [(acc & q & rest & -> & Hacc & Hq & Hlen)
                            |[(acc & rest & -> & Hacc & Hlen)
                             |(Hacc & Hlen)]].
        -- left. exists (p :: acc), q, rest.
           repeat split; [constructor; assumption|assumption|simpl; lia].
        -- right. left. exists (p :: acc), rest.
           repeat split; [constructor; assumption|simpl; lia].
        -- right. right. split; [constructor; assumption|simpl; lia].
      * left. exists [], p, ps.
        repeat split; [constructor|assumption|simpl; lia].
Qed.

(** [askUser] for the sign-transaction command: the loop over the outputs,
    then the fee prompt if [r] is 0 and the fee is set. *)
Lemma askUser_sign_run (r_uninit : Z) (st : ui_state) ps lg :
  commands_distinct ->
  askUser r_uninit ASKUSER_SIGN_TRANSACTION st (World ps lg) =
  match askUser_outputs st 0 r_uninit ps (lg ++ [EvClearDisplay; EvDisplayOn]) with
  | None => None
  | Some (r, w1) =>
      if (r =? 0) && negb (transaction_fee_set st =? 0) then
        match pending w1 with
        | [] => None
        | p :: rest =>
            Some (button_result p,
                  World rest (log w1 ++ fee_prompt st p ++
                              [EvClearDisplay; EvDisplayOff]))
        end
      else Some (r, World (pending w1)
                          (log w1 ++ [EvClearDisplay; EvDisplayOff]))
  end.
Proof.
  intros Hd. use_distinct Hd. unfold askUser. decide_command.
  cbv beta iota zeta delta
    [mbind io_bind mret io_ret emit clearDisplay displayOn displayOff
     askUser_outputs_loop pending log].
  normalise_log.
  destruct (askUser_outputs st 0 r_uninit ps (lg ++ [EvClearDisplay; EvDisplayOn]))
    as [[r [ps1 lg1]]|]; [|reflexivity].
  destruct ((r =? 0) && negb (transaction_fee_set st =? 0)).
  - cbv beta iota zeta delta
      [mbind io_bind mret io_ret emit clearDisplay displayOn displayOff
       nextLine writeStringToDisplay waitForNoButtonPress
       waitForButtonPress pending log fee_prompt].
    destruct ps1 as [|p rest]; [reflexivity|].
    normalise_log. reflexivity.
  - cbv beta iota zeta delta [pending log]. normalise_log. reflexivity.
Qed.

(** The prompts of the loop are those for the pending outputs, in their
    order. *)
Lemma output_prompts_outputs_log (st : ui_state) (outs : list press) :
  forall (i k : nat),
    (length outs <= k)%nat ->
    output_prompts st (Z.of_nat i) outs =
    outputs_log
      (map (fun j => (row_text (list_amount st) (Z.of_nat j),
                      row_text (list_address st) (Z.of_nat j)))
           (seq i k))
      outs.
Proof.
  induction outs as [|p outs IH]; intros i k Hk.
  - destruct k; reflexivity.
  - destruct k as [|k]; [simpl in Hk; lia|].
    cbn [output_prompts seq map]. unfold outputs_log.
    cbn [zip_with concat]. fold (outputs_log
      (map (fun j => (row_text (list_amount st) (Z.of_nat j),
                      row_text (list_address st) (Z.of_nat j)))
           (seq (S i) k)) outs).
    rewrite <- (IH (S i) k) by (simpl in Hk; lia).
    replace (Z.of_nat (S i)) with (Z.of_nat i + 1) by lia.
    reflexivity.
Qed.

Lemma output_prompts_pending (st : ui_state) (outs : list press) :
  (length outs <= Z.to_nat (list_index st))%nat ->
  output_prompts st 0 outs = outputs_log (pending_outputs st) outs.
Proof.
  intros Hlen. unfold pending_outputs.
  rewrite <- (output_prompts_outputs_log st outs 0) by exact Hlen.
  reflexivity.
Qed.

(** C2: an approval session for the sign-transaction command.  [askUser]
    returns [r] in the world [w'] exactly when the presses it took and the
    prompts it showed make up a session: one prompt for each pending output
    in order, up to and including the first one denied, which ends the
    session with result 1 and neither a later output prompt nor the fee
    prompt; the fee prompt only after every output was accepted and only
    if the fee is set, its answer then being the result.  The result is 0
    only if every output and, if set, the fee were accepted. *)
Theorem askUser_sign_transaction_session
    (r_uninit : Z) (st : ui_state) (ps : list press) (lg : list event) :
  commands_distinct ->
  ui_wf st ->
  let n := Z.to_nat (list_index st) in
  let fee_set := negb (transaction_fee_set st =? 0) in
  let run := askUser r_uninit ASKUSER_SIGN_TRANSACTION st (World ps lg) in
  (forall r w',
      run = Some (r, w') <->
      exists outs fee,
        sign_session n fee_set r_uninit outs fee r /\
        ps = outs ++ fee ++ pending w' /\
        log w' = lg ++ [EvClearDisplay; EvDisplayOn] ++
                 outputs_log (pending_outputs st) outs ++
                 concat (map (fee_prompt st) fee) ++
                 [EvClearDisplay; EvDisplayOff]) /\
  (forall w',
      run = Some (0, w') ->
      exists outs,
        length outs = n /\ Forall accepted outs /\
        ps = outs ++ (if fee_set then [PressAccept] else []) ++ pending w') /\
  ((n < length ps)%nat -> exists r w', run = Some (r, w')).
Proof.
  intros Hd (_ & _ & Hidx) n fee_set run.
  assert (Hn : Z.of_nat n = list_index st) by (unfold n; lia).
  assert (Hmax : list_index st <= 255) by (unfold MAX_OUTPUTS in Hidx; lia).
  assert (Hrun : run =
    match askUser_outputs st 0 r_uninit ps (lg ++ [EvClearDisplay; EvDisplayOn]) with
    | None => None
    | Some (r, w1) =>
        if (r =? 0) && fee_set then
          match pending w1 with
          | [] => None
          | p :: rest =>
              Some (button_result p,
                    World rest (log w1 ++ fee_prompt st p ++
                                [EvClearDisplay; EvDisplayOff]))
          end
        else Some (r, World (pending w1)
                            (log w1 ++ [EvClearDisplay; EvDisplayOff]))
    end) by (apply askUser_sign_run; exact Hd).
  clearbody run.
  assert (Hiff : forall r w',
    run = Some (r, w') <->
    exists outs fee,
      sign_session n fee_set r_uninit outs fee r /\
      ps = outs ++ fee ++ pending w' /\
      log w' = lg ++ [EvClearDisplay; EvDisplayOn] ++
               outputs_log (pending_outputs st) outs ++
               concat (map (fee_prompt st) fee) ++
               [EvClearDisplay; EvDisplayOff]).
  { intros r w'. split.
    - intros Hres. rewrite Hrun in Hres.
      destruct (presses_cases n ps)
        as [(acc & p & rest & -> & Hacc & Hp & Hlen)
           |[(acc & rest & -> & Hacc & Hlen)|(Hacc & Hlen)]].
      + rewrite askUser_outputs_denied in Hres by (try assumption; lia).
        cbn [Z.eqb andb pending log] in Hres. injection Hres as <- <-.
        exists (acc ++ [p]), []. split; [constructor; assumption|].
        cbn [pending log map concat app]. split.
        * rewrite <- app_assoc. reflexivity.
        * rewrite output_prompts_pending
            by (rewrite length_app; simpl; fold n; lia).
          normalise_log. reflexivity.
      + rewrite askUser_outputs_approved in Hres by (try assumption; lia).
        destruct (((if acc is [] then r_uninit else 0) =? 0) && fee_set)
          eqn:Htest.
        * apply andb_true_iff in Htest. destruct Htest as [Hr Hfee].
          apply Z.eqb_eq in Hr.
          cbn [pending log] in Hres.
          destruct rest as [|p rest]; [discriminate|].
          injection Hres as <- <-.
          exists acc, [p]. split; [constructor; assumption|].
          cbn [pending log map concat app]. split; [reflexivity|].
          rewrite output_prompts_pending by (fold n; lia).
          rewrite app_nil_r. normalise_log. reflexivity.
        * cbn [pending log] in Hres. injection Hres as <- <-.
          exists acc, []. split.
          -- constructor; try assumption; try reflexivity.
             apply andb_false_iff in Htest.
             destruct Htest as [Hr|Hfee]; [left|right; exact Hfee].
             apply Z.eqb_neq in Hr. exact Hr.
          -- cbn [pending log map concat app]. split; [reflexivity|].
             rewrite output_prompts_pending by (fold n; lia).
             normalise_log. reflexivity.
      + rewrite askUser_outputs_blocked in Hres by (try assumption; lia).
        discriminate.
    - intros (outs & fee & Hsession & Hps & Hlog).
      destruct w' as [ps' lg']. cbn [pending log] in *. subst ps lg'.
      rewrite Hrun.
      destruct Hsession as [acc p Hacc Hp Hlen
                           |outs r Houts Hlen Hr Hno
                           |outs p Houts Hlen Hr Hfee].
      + rewrite <- app_assoc. cbn [app].
        rewrite askUser_outputs_denied by (try assumption; lia).
        cbn [Z.eqb andb pending log map concat app].
        rewrite output_prompts_pending
          by (rewrite length_app; simpl; fold n; lia).
        normalise_log. reflexivity.
      + cbn [app].
        rewrite askUser_outputs_approved by (try assumption; lia).
        rewrite <- Hr.
        replace ((r =? 0) && fee_set) with false.
        * cbn [pending log map concat app].
          rewrite output_prompts_pending by (fold n; lia).
          normalise_log. reflexivity.
        * symmetry. apply andb_false_iff.
          destruct Hno as [Hne|Hfee]; [left|right; exact Hfee].
          apply Z.eqb_neq. exact Hne.
      + cbn [app].
        rewrite askUser_outputs_approved by (try assumption; lia).
        rewrite Hr, Hfee.
        cbn [Z.eqb andb pending log map concat app].
        rewrite output_prompts_pending by (fold n; lia).
        rewrite app_nil_r. normalise_log. reflexivity. }
  split; [exact Hiff|]. split.
  - intros w' Hres. apply Hiff in Hres.
    destruct Hres as (outs & fee & Hsession & Hps & _).
    inversion Hsession as [acc p Hacc Hp Hlen
                          |outs' r Houts Hlen Hr Hno
                          |outs' p Houts Hlen Hr Hfee]; subst.
    + exists outs. split; [exact Hlen|]. split; [exact Houts|].
      destruct Hno as [Hne|Hfee]; [congruence|].
      rewrite Hfee. reflexivity.
    + exists outs. split; [exact Hlen|]. split; [exact Houts|].
      rewrite Hfee.
      assert (Hp : accepted p) by (unfold accepted; congruence).
      apply accepted_press in Hp. subst p. reflexivity.
  - intros Hlen. rewrite Hrun.
    destruct (presses_cases n ps)
      as [(acc & p & rest & -> & Hacc & Hp & Hlen')
         |[(acc & rest & -> & Hacc & Hlen')|(Hacc & Hlen')]].
    + rewrite askUser_outputs_denied by (try assumption; lia).
      cbn [Z.eqb andb]. eauto.
    + rewrite askUser_outputs_approved by (try assumption; lia).
      destruct (((if acc is [] then r_uninit else 0) =? 0) && fee_set);
        [|eauto].
      cbn [pending]. destruct rest as [|p rest]; [|eauto].
      rewrite length_app in Hlen. simpl in Hlen. lia.
    + lia.
Qed.

(** C8: for the sign-transaction command with no pending output and no
    fee set, [askUser] returns the value its variable [r] held before any
    assignment: neither the command, nor the stored outputs and fee, nor
    the buttons decide what is returned, and no button is waited for. *)
Theorem askUser_sign_empty_returns_uninitialised
    (r_uninit : Z) (st : ui_state) (ps : list press) (lg : list event) :
  commands_distinct ->
  askUser r_uninit ASKUSER_SIGN_TRANSACTION (clearOutputsSeen st) (World ps lg) =
  Some (r_uninit,
        World ps (lg ++ [EvClearDisplay; EvDisplayOn;
                         EvClearDisplay; EvDisplayOff])).
Proof.
  intros Hd. rewrite askUser_sign_run by exact Hd.
  destruct ps; cbn; rewrite andb_false_r; normalise_log; reflexivity.
Qed.

(** X10: everywhere else the unassigned value of [r] plays no part: for any
    other command, and for the sign-transaction command with at least one
    pending output, the result is the same whatever [r] held. *)
Lemma askUser_determined_otherwise
    (r1 r2 command : Z) (st : ui_state) (w : world) :
  commands_distinct ->
  command <> ASKUSER_SIGN_TRANSACTION \/ 0 < list_index st ->
  askUser r1 command st w = askUser r2 command st w.
Proof.
  intros Hd [Hother|Hsome].
  - unfold askUser.
    destruct (command =? ASKUSER_NUKE_WALLET); [reflexivity|].
    destruct (command =? ASKUSER_NEW_ADDRESS); [reflexivity|].
    rewrite (proj2 (Z.eqb_neq _ _) Hother). reflexivity.
  - destruct (Z.eq_dec command ASKUSER_SIGN_TRANSACTION) as [->|Hne].
    + destruct w as [ps lg]. rewrite !askUser_sign_run by exact Hd.
      assert (Hloop : forall lg0,
        askUser_outputs st 0 r1 ps lg0 = askUser_outputs st 0 r2 ps lg0).
      { intros lg0. destruct ps as [|p ps]; cbn [askUser_outputs];
          destruct (Z.ltb_spec 0 (list_index st)); try lia; reflexivity. }
      rewrite Hloop. reflexivity.
    + unfold askUser.
      destruct (command =? ASKUSER_NUKE_WALLET); [reflexivity|].
      destruct (command =? ASKUSER_NEW_ADDRESS); [reflexivity|].
      rewrite (proj2 (Z.eqb_neq _ _) Hne). reflexivity.
Qed.

End AskUser.

Lemma sample_commands_distinct : commands_distinct (H := sample_platform).
Proof. reflexivity. Qed.

Lemma askUser_unknown_command_denied_witness :
  command_known (H := sample_platform) 9 = false /\
  askUser (H := sample_platform) 0 9 (@ui_initial sample_platform)
    (World [PressAccept; PressCancel] []) =
  Some (1, World [PressCancel]
             [EvClearDisplay; EvDisplayOn; EvWaitForNoButtonPress;
              EvWriteStringWordWrap
                "Unknown command in askUser(). Press any button to continue...";
              EvWaitForButtonPress PressAccept;
              EvClearDisplay; EvDisplayOff]).
Proof.
  split; [reflexivity|].
  exact (proj1 (askUser_unknown_command_denied (H := sample_platform)
                  0 9 (@ui_initial sample_platform) [] eq_refl)
               PressAccept [PressCancel]).
Defined.

Lemma askUser_format_three_confirmations_witness :
  commands_distinct (H := sample_platform) /\
  forall w',
    askUser (H := sample_platform) 0 4 (@ui_initial sample_platform)
      (World [PressAccept; PressAccept; PressCancel; PressAccept] []) =
    Some (0, w') ->
    [PressAccept; PressAccept; PressCancel; PressAccept] =
    PressAccept :: PressAccept :: PressAccept :: pending w'.
Proof.
  split; [reflexivity|].
  pose proof (askUser_format_three_confirmations (H := sample_platform)
                0 (@ui_initial sample_platform)
                [PressAccept; PressAccept; PressCancel; PressAccept] []
                eq_refl) as Hthm.
  cbv zeta in Hthm. destruct Hthm as (_ & _ & _ & _ & Honly & _).
  exact Honly.
Defined.

Lemma askUser_sign_transaction_session_witness :
  let st := (newOutputSeen (H := sample_platform) "0.02" "1abc"
               (newOutputSeen (H := sample_platform) "0.5" "1xyz"
                  (clearOutputsSeen (@ui_initial sample_platform))).2).2 in
  commands_distinct (H := sample_platform) /\
  ui_wf st /\
  exists r w',
    askUser (H := sample_platform) 0 3 st
      (World [PressAccept; PressCancel; PressAccept] []) = Some (r, w').
Proof.
  intros st.
  assert (Hwf : ui_wf st).
  { unfold st. apply newOutputSeen_wf, newOutputSeen_wf,
      clearOutputsSeen_wf, ui_initial_wf. }
  split; [reflexivity|]. split; [exact Hwf|].
  pose proof (askUser_sign_transaction_session (H := sample_platform)
                0 st [PressAccept; PressCancel; PressAccept] []
                eq_refl Hwf) as Hthm.
  cbv zeta in Hthm. destruct Hthm as (_ & _ & Hreturns).
  apply Hreturns. subst st. vm_compute. lia.
Defined.

Lemma askUser_sign_empty_returns_uninitialised_witness :
  commands_distinct (H := sample_platform) /\
  askUser (H := sample_platform) 0 3
    (clearOutputsSeen (@ui_initial sample_platform)) (World [] []) =
  Some (0, World [] [EvClearDisplay; EvDisplayOn; EvClearDisplay; EvDisplayOff]) /\
  askUser (H := sample_platform) 1 3
    (clearOutputsSeen (@ui_initial sample_platform)) (World [] []) =
  Some (1, World [] [EvClearDisplay; EvDisplayOn; EvClearDisplay; EvDisplayOff]).
Proof.
  split; [reflexivity|]. split.
  - exact (askUser_sign_empty_returns_uninitialised (H := sample_platform)
             0 (@ui_initial sample_platform) [] [] eq_refl).
  - exact (askUser_sign_empty_returns_uninitialised (H := sample_platform)
             1 (@ui_initial sample_platform) [] [] eq_refl).
Defined.

(* --------------------------------------------------------------------- *)
(** ** writeBackupSeed *)
(* --------------------------------------------------------------------- *)

Section WriteBackupSeed.

Context `{Platform}.

(** The loop takes presses up to the first denial, at which it gives 2;
    it runs to its end only on acceptances. *)
Lemma writeBackupSeed_loop_presses (n : nat) :
  forall seed i byte_counter line_number w res w',
    writeBackupSeed_loop n seed i byte_counter line_number w = Some (res, w') ->
    exists consumed,
      pending w = consumed ++ pending w' /\
      (res = None /\ all_accepted consumed \/
       res = Some 2 /\ denied_last consumed).
Proof.
  induction n as [|n IH];
    intros seed i byte_counter line_number w res w' Hrun.
  - injection Hrun as <- <-. exists []. split; [reflexivity|].
    left. split; [reflexivity|constructor].
  - cbn [writeBackupSeed_loop] in Hrun.
    cbv beta iota zeta delta
      [mbind io_bind mret io_ret emit clearDisplay displayOff
       writeStringToDisplay waitForNoButtonPress waitForButtonPress
       cursorAtEnd] in Hrun.
    destruct w as [ps lg].
    assert (Hcons : forall (p : press) rest,
      accepted p ->
      (exists consumed, rest = consumed ++ pending w' /\
         (res = None /\ all_accepted consumed \/
          res = Some 2 /\ denied_last consumed)) ->
      exists consumed, p :: rest = consumed ++ pending w' /\
         (res = None /\ all_accepted consumed \/
          res = Some 2 /\ denied_last consumed)).
    { intros p rest Hp (consumed & -> & Hshape).
      exists (p :: consumed). split; [reflexivity|].
      destruct Hshape as [[-> Hall]|[-> (acc & q & -> & Hacc & Hq)]].
      - left. split; [reflexivity|]. constructor; assumption.
      - right. split; [reflexivity|].
        exists (p :: acc), q. repeat split; try assumption.
        constructor; assumption. }
    assert (Hdeny : forall (p : press) rest lg',
      denied p ->
      Some (Some 2, World rest lg') = Some (res, w') ->
      exists consumed, p :: rest = consumed ++ pending w' /\
         (res = None /\ all_accepted consumed \/
          res = Some 2 /\ denied_last consumed)).
    { intros p rest lg' Hp Heq. injection Heq as <- <-.
      exists [p]. split; [reflexivity|]. right. split; [reflexivity|].
      exists [], p. repeat split; [constructor|exact Hp]. }
    destruct (byte_counter =? 0); [|destruct (Z.land byte_counter 1 =? 0)];
      cbv beta iota in Hrun; cbn [pending log] in Hrun;
      (destruct (displayCursorAtEnd _);
       [ destruct ps as [|p rest]; [discriminate|];
         destruct p; cbn [button_result Z.eqb negb pending log] in Hrun;
         [ apply (Hcons PressAccept rest eq_refl);
           apply IH in Hrun; exact Hrun
         | apply (Hdeny PressCancel rest _ ltac:(discriminate) Hrun)
         | apply (Hdeny PressBoth rest _ ltac:(discriminate) Hrun) ]
       | apply IH in Hrun; exact Hrun ]).
Qed.

(** The loop returns if there is a press for every byte of the seed. *)
Lemma writeBackupSeed_loop_returns (n : nat) :
  forall seed i byte_counter line_number w,
    (n <= length (pending w))%nat ->
    exists res w',
      writeBackupSeed_loop n seed i byte_counter line_number w = Some (res, w') /\
      (res = None -> (length (pending w) <= n + length (pending w'))%nat).
Proof.
  induction n as [|n IH];
    intros seed i byte_counter line_number w Hlen.
  - exists None, w. split; [reflexivity|]. intros _. simpl. lia.
  - cbn [writeBackupSeed_loop].
    cbv beta iota zeta delta
      [mbind io_bind mret io_ret emit clearDisplay displayOff
       writeStringToDisplay waitForNoButtonPress waitForButtonPress
       cursorAtEnd].
    destruct w as [ps lg]. cbn [pending] in Hlen.
    destruct (byte_counter =? 0); [|destruct (Z.land byte_counter 1 =? 0)];
      cbv beta iota; cbn [pending log];
      (destruct (displayCursorAtEnd _);
       [ destruct ps as [|p rest]; [simpl in Hlen; lia|];
         simpl in Hlen;
         destruct p; cbn [button_result Z.eqb negb pending log];
         [ match goal with
           | |- context [writeBackupSeed_loop n ?s ?j ?b ?l ?w0] =>
               destruct (IH s j b l w0) as (res & w' & Hrun & Hleft);
               [cbn [pending]; lia|];
               exists res, w'; split; [exact Hrun|];
               intros Hres; specialize (Hleft Hres);
               cbn [pending length] in *; lia
           end
         | eexists _, _; split; [reflexivity|discriminate]
         | eexists _, _; split; [reflexivity|discriminate] ]
       | match goal with
         | |- context [writeBackupSeed_loop n ?s ?j ?b ?l ?w0] =>
             destruct (IH s j b l w0) as (res & w' & Hrun & Hleft);
             [cbn [pending]; lia|];
             exists res, w'; split; [exact Hrun|];
             intros Hres; specialize (Hleft Hres);
             cbn [pending length] in *; lia
         end ]).
Qed.

Lemma denied_last_cons (p : press) (consumed : list press) :
  accepted p -> denied_last consumed -> denied_last (p :: consumed).
Proof.
  intros Hp (acc & q & -> & Hacc & Hq).
  exists (p :: acc), q. repeat split; try assumption.
  constructor; assumption.
Qed.

Lemma denied_last_snoc (acc : list press) (p : press) :
  all_accepted acc -> denied p -> denied_last (acc ++ [p]).
Proof. intros Hacc Hp. exists acc, p. repeat split; assumption. Qed.

Lemma denied_last_not_accepted (consumed : list press) :
  denied_last consumed -> all_accepted consumed -> False.
Proof.
  intros (acc & p & -> & _ & Hp) Hall.
  apply Forall_app in Hall. destruct Hall as [_ Hlast].
  apply Forall_cons in Hlast. destruct Hlast as [Hacc _].
  exact (Hp Hacc).
Qed.

(** [writeBackupSeed] for device 0: the notice whether the backup is
    encrypted, the loop over the seed, the last confirmation. *)
Lemma writeBackupSeed_run (seed : list Z) (is_encrypted : Z) ps lg :
  writeBackupSeed seed is_encrypted 0 (World ps lg) =
  match ps with
  | [] => None
  | p :: rest =>
      let notice :=
        if negb (is_encrypted =? 0) then "Backup is encrypted."%string
        else "Backup is not encrypted."%string in
      let lg1 :=
        lg ++ [EvClearDisplay; EvDisplayOn; EvWaitForNoButtonPress;
               EvWriteStringWordWrap notice; EvWaitForButtonPress p;
               EvClearDisplay] in
      if negb (button_result p =? 0)
      then Some (2, World rest (lg1 ++ [EvDisplayOff]))
      else
        match writeBackupSeed_loop (Z.to_nat SEED_LENGTH) seed 0 0 0
                (World rest (lg1 ++ [EvWaitForNoButtonPress])) with
        | None => None
        | Some (Some code, w1) => Some (code, w1)
        | Some (None, w1) =>
            match pending w1 with
            | [] => None
            | q :: rest1 =>
                Some (if negb (button_result q =? 0) then 2 else 0,
                      World rest1
                        (log w1 ++ [EvWaitForNoButtonPress;
                                    EvWaitForButtonPress q;
                                    EvClearDisplay; EvDisplayOff]))
            end
        end
  end.
Proof.
  unfold writeBackupSeed. cbn [Z.eqb negb].
  cbv beta iota zeta delta
    [mbind io_bind mret io_ret emit clearDisplay displayOn displayOff
     writeStringToDisplayWordWrap waitForNoButtonPress
     waitForButtonPress].
  destruct (negb (is_encrypted =? 0));
    cbv beta iota zeta; cbn [pending log];
    (destruct ps as [|p rest]; [reflexivity|]);
    (destruct (negb (button_result p =? 0));
     [cbn [pending log]; normalise_log; reflexivity|]);
    cbn [pending log]; normalise_log;
    (destruct (writeBackupSeed_loop _ _ _ _ _ _) as [[[code|] [ps1 lg1]]|];
     [reflexivity| |reflexivity]);
    cbn [pending log];
    (destruct ps1 as [|q rest1]; [reflexivity|]);
    destruct (negb (button_result q =? 0));
    cbn [pending log]; normalise_log; reflexivity.
Qed.

(** C6: [writeBackupSeed] returns 1 for every destination device other
    than 0, with nothing displayed and no button waited for.  For device 0
    it takes button presses up to the first that is not an acceptance:
    it returns 2 when a confirmation was denied, and 0 only when every
    confirmation it asked for was accepted; it does return when there is a
    button press for each confirmation. *)
Theorem writeBackupSeed_result
    (seed : list Z) (is_encrypted destination_device : Z) (w : world) :
  let run := writeBackupSeed seed is_encrypted destination_device w in
  (destination_device <> 0 -> run = Some (1, w)) /\
  (destination_device = 0 ->
   forall r w',
     run = Some (r, w') ->
     exists consumed,
       pending w = consumed ++ pending w' /\ consumed <> [] /\
       (r = 0 /\ all_accepted consumed \/ r = 2 /\ denied_last consumed)) /\
  (forall w',
     run = Some (0, w') ->
     destination_device = 0 /\
     exists consumed,
       pending w = consumed ++ pending w' /\ all_accepted consumed) /\
  (destination_device = 0 ->
   (Z.to_nat SEED_LENGTH + 2 <= length (pending w))%nat ->
   exists r w', run = Some (r, w')).
Proof.
  intros run.
  assert (Hother : destination_device <> 0 -> run = Some (1, w)).
  { intros Hdev. unfold run, writeBackupSeed.
    rewrite (proj2 (Z.eqb_neq _ _) Hdev). reflexivity. }
  assert (Hzero : destination_device = 0 ->
    forall r w',
      run = Some (r, w') ->
      exists consumed,
        pending w = consumed ++ pending w' /\ consumed <> [] /\
        (r = 0 /\ all_accepted consumed \/ r = 2 /\ denied_last consumed)).
  { intros -> r w' Hrun. unfold run in Hrun.
    destruct w as [ps lg]. rewrite writeBackupSeed_run in Hrun.
    cbn [pending].
    destruct ps as [|p rest]; [discriminate|].
    cbv zeta in Hrun.
    destruct (writeBackupSeed_loop _ _ _ _ _ _)
      as [[res [ps1 lg1]]|] eqn:Hloop in Hrun.
    - apply writeBackupSeed_loop_presses in Hloop.
      destruct Hloop as (consumed & Hpend & Hshape).
      cbn [pending log] in Hpend, Hrun. subst rest.
      destruct (accepted_or_denied p) as [Hp|Hp].
      + pose proof Hp as Hp'. unfold accepted in Hp'. rewrite Hp' in Hrun.
        cbn [Z.eqb negb] in Hrun.
        destruct Hshape as [[-> Hall]|[-> Hlast]].
        * destruct ps1 as [|q rest1]; [discriminate|].
          injection Hrun as <- <-. cbn [pending].
          exists (p :: consumed ++ [q]).
          split; [cbn [app]; rewrite <- app_assoc; reflexivity|].
          split; [discriminate|].
          destruct (accepted_or_denied q) as [Hq|Hq].
          -- left. unfold accepted in Hq. rewrite Hq.
             split; [reflexivity|]. constructor; [exact Hp|].
             apply Forall_app. split; [exact Hall|].
             constructor; [exact Hq|constructor].
          -- right. rewrite (denied_result q Hq).
             split; [reflexivity|].
             apply denied_last_cons; [exact Hp|].
             apply denied_last_snoc; assumption.
        * injection Hrun as <- <-. cbn [pending].
          exists (p :: consumed). split; [reflexivity|].
          split; [discriminate|]. right. split; [reflexivity|].
          apply denied_last_cons; assumption.
      + rewrite (denied_result p Hp) in Hrun. cbn [Z.eqb negb] in Hrun.
        injection Hrun as <- <-. cbn [pending].
        exists [p]. split; [reflexivity|]. split; [discriminate|].
        right. split; [reflexivity|].
        apply (denied_last_snoc []); [constructor|exact Hp].
    - clear Hloop.
      destruct (accepted_or_denied p) as [Hp|Hp].
      + unfold accepted in Hp. rewrite Hp in Hrun.
        cbn [Z.eqb negb] in Hrun. discriminate.
      + rewrite (denied_result p Hp) in Hrun. cbn [Z.eqb negb] in Hrun.
        injection Hrun as <- <-. cbn [pending].
        exists [p]. split; [reflexivity|]. split; [discriminate|].
        right. split; [reflexivity|].
        apply (denied_last_snoc []); [constructor|exact Hp]. }
  split; [exact Hother|]. split; [exact Hzero|]. split.
  - intros w' Hrun.
    destruct (Z.eq_dec destination_device 0) as [Hdev|Hdev].
    + split; [exact Hdev|].
      destruct (Hzero Hdev 0 w' Hrun)
        as (consumed & Hpend & _ & [[_ Hall]|[Hr _]]); [|discriminate].
      exists consumed. split; assumption.
    + rewrite (Hother Hdev) in Hrun. discriminate.
  - intros -> Hlen. unfold run.
    destruct w as [ps lg]. rewrite writeBackupSeed_run. cbv zeta.
    cbn [pending] in Hlen.
    destruct ps as [|p rest]; [cbn [length] in Hlen; lia|].
    cbn [length] in Hlen.
    destruct (negb (button_result p =? 0)); [eauto|].
    match goal with
    | |- context [writeBackupSeed_loop ?n ?s ?i ?b ?l ?w0] =>
        destruct (writeBackupSeed_loop_returns n s i b l w0)
          as (res & [ps1 lg1] & Hloop & Hleft); [cbn [pending]; lia|];
        rewrite Hloop
    end.
    destruct res as [code|]; [eauto|].
    specialize (Hleft eq_refl). cbn [pending length] in *.
    destruct ps1 as [|q rest1]; [cbn [length] in Hleft; lia|]. eauto.
Qed.

End WriteBackupSeed.

Lemma writeBackupSeed_result_witness :
  let seed := map Z.of_nat (seq 0 64) in
  (3 <> 0 /\
   writeBackupSeed (H := sample_platform) seed 0 3
     (World [PressAccept] []) = Some (1, World [PressAccept] [])) /\
  ((Z.to_nat SEED_LENGTH + 2 <= length (replicate 66 PressAccept))%nat /\
   exists r w',
     writeBackupSeed (H := sample_platform) seed 0 0
       (World (replicate 66 PressAccept) []) = Some (r, w')).
Proof.
  intros seed.
  pose proof (writeBackupSeed_result (H := sample_platform) seed 0 3
                (World [PressAccept] [])) as Hother.
  pose proof (writeBackupSeed_result (H := sample_platform) seed 0 0
                (World (replicate 66 PressAccept) [])) as Hzero.
  cbv zeta in Hother, Hzero.
  destruct Hother as (Hother & _). destruct Hzero as (_ & _ & _ & Hzero).
  assert (Hdev : 3 <> 0) by lia.
  assert (Hlen : (Z.to_nat SEED_LENGTH + 2 <= length (replicate 66 PressAccept))%nat)
    by (rewrite length_replicate; unfold SEED_LENGTH; lia).
  split; split.
  - exact Hdev.
  - exact (Hother Hdev).
  - exact Hlen.
  - exact (Hzero eq_refl Hlen).
Defined.

(* --------------------------------------------------------------------- *)
(** ** The pushbuttons *)
(* --------------------------------------------------------------------- *)

Lemma land_pow2_zero (x n : Z) :
  0 <= n -> (Z.land x (2 ^ n) = 0 <-> Z.testbit x n = false).
Proof.
  intros Hn. split.
  - intros H0.
    assert (Hbit : Z.testbit (Z.land x (2 ^ n)) n = false)
      by (rewrite H0; apply Z.bits_0).
    rewrite Z.land_spec, Z.pow2_bits_true, andb_true_r in Hbit by exact Hn.
    exact Hbit.
  - intros Hbit. apply Z.bits_inj'. intros j Hj.
    rewrite Z.land_spec, Z.bits_0, Z.pow2_bits_eqb by exact Hn.
    destruct (Z.eqb_spec n j) as [->|_].
    + rewrite Hbit. reflexivity.
    + apply andb_false_r.
Qed.

Lemma not32_testbit (n j : Z) :
  0 <= n -> 0 <= j < 32 ->
  Z.testbit (Buttons.not32 (2 ^ n)) j = negb (n =? j).
Proof.
  intros Hn Hj. unfold Buttons.not32.
  rewrite Z.mod_pow2_bits_low by lia.
  rewrite Z.lnot_spec by lia.
  rewrite Z.pow2_bits_eqb by exact Hn. reflexivity.
Qed.

Lemma land_not32_range (y x : Z) :
  0 <= Z.land y (Buttons.not32 x) < 2 ^ 32.
Proof.
  unfold Buttons.not32.
  rewrite <- (Z.land_ones (Z.lnot x) 32) by lia.
  rewrite Z.land_assoc, Z.land_ones by lia.
  apply Z.mod_pos_bound. lia.
Qed.

(** X1: [initUserInterface] makes pins 7 and 17 of port 0 inputs and leaves
    the direction of every other pin as it was; it switches on the clocks of
    GPIO (bit 6) and IOCON (bit 16) and leaves every other clock as it was;
    both pin configurations are 0xb0; calling it again changes nothing. *)
Theorem initUserInterface_configures_buttons (r : Buttons.registers) :
  let r' := Buttons.initUserInterface r in
  (forall j, 0 <= j < 32 ->
     Z.testbit (Buttons.DIR0 r') j =
     if (j =? 7) || (j =? 17) then false else Z.testbit (Buttons.DIR0 r) j) /\
  (forall j, 0 <= j ->
     Z.testbit (Buttons.SYSAHBCLKCTRL r') j =
     if (j =? 6) || (j =? 16) then true
     else Z.testbit (Buttons.SYSAHBCLKCTRL r) j) /\
  Buttons.PIO0_7 r' = 0xb0 /\
  Buttons.PIO0_17 r' = 0xb0 /\
  Buttons.initUserInterface r' = r' /\
  0 <= Buttons.DIR0 r' < 2 ^ 32.
Proof.
  intros r'.
  assert (Hdir : forall d j, 0 <= j < 32 ->
    Z.testbit (Z.land (Z.land d (Buttons.not32 0x80)) (Buttons.not32 0x20000)) j =
    if (j =? 7) || (j =? 17) then false else Z.testbit d j).
  { intros d j Hj. rewrite !Z.land_spec.
    change 0x80 with (2 ^ 7). change 0x20000 with (2 ^ 17).
    rewrite !not32_testbit by lia.
    destruct (Z.eqb_spec 7 j), (Z.eqb_spec 17 j),
             (Z.eqb_spec j 7), (Z.eqb_spec j 17); try lia;
      cbn [negb orb]; rewrite ?andb_true_r, ?andb_false_r; reflexivity. }
  assert (Hclk : forall c j, 0 <= j ->
    Z.testbit (Z.lor c 0x10040) j =
    if (j =? 6) || (j =? 16) then true else Z.testbit c j).
  { intros c j Hj. rewrite Z.lor_spec.
    change 0x10040 with (Z.lor (2 ^ 6) (2 ^ 16)).
    rewrite Z.lor_spec, !Z.pow2_bits_eqb by lia.
    rewrite (Z.eqb_sym 6 j), (Z.eqb_sym 16 j).
    destruct (j =? 6), (j =? 16); cbn [orb];
      rewrite ?orb_true_r, ?orb_false_r; reflexivity. }
  split; [intros j Hj; apply Hdir; exact Hj|].
  split; [intros j Hj; apply Hclk; exact Hj|].
  split; [reflexivity|]. split; [reflexivity|].
  assert (Hrange : 0 <= Buttons.DIR0 r' < 2 ^ 32).
  { unfold r', Buttons.initUserInterface. cbn [Buttons.DIR0].
    apply land_not32_range. }
  split; [|exact Hrange].
  unfold r', Buttons.initUserInterface.
  cbn [Buttons.DIR0 Buttons.SYSAHBCLKCTRL Buttons.PIO0_7 Buttons.PIO0_17].
  f_equal.
  - apply Z.bits_inj'. intros j Hj. rewrite !Z.lor_spec.
    destruct (Z.testbit (Buttons.SYSAHBCLKCTRL r) j),
             (Z.testbit 0x10040 j); reflexivity.
  - apply Z.bits_inj'. intros j Hj. rewrite !Z.land_spec.
    destruct (Z.testbit (Buttons.DIR0 r) j),
             (Z.testbit (Buttons.not32 0x80) j),
             (Z.testbit (Buttons.not32 0x20000) j); reflexivity.
Qed.

(** X2: the buttons are active low; [isAcceptPressed] looks at pin 17 only
    and [isCancelPressed] at pin 7 only, each giving 1 when its pin reads 0
    and 0 otherwise. *)
Theorem buttons_read_active_low (pin : Z) :
  Buttons.isAcceptPressed pin = (if Z.testbit pin 17 then 0 else 1) /\
  Buttons.isCancelPressed pin = (if Z.testbit pin 7 then 0 else 1).
Proof.
  unfold Buttons.isAcceptPressed, Buttons.isCancelPressed.
  change 0x20000 with (2 ^ 17). change 0x80 with (2 ^ 7).
  split.
  - destruct (Z.eqb_spec (Z.land pin (2 ^ 17)) 0) as [H0|H0].
    + apply land_pow2_zero in H0; [|lia]. rewrite H0. reflexivity.
    + destruct (Z.testbit pin 17) eqn:Hb; [reflexivity|].
      exfalso. apply H0. apply land_pow2_zero; [lia|exact Hb].
  - destruct (Z.eqb_spec (Z.land pin (2 ^ 7)) 0) as [H0|H0].
    + apply land_pow2_zero in H0; [|lia]. rewrite H0. reflexivity.
    + destruct (Z.testbit pin 7) eqn:Hb; [reflexivity|].
      exfalso. apply H0. apply land_pow2_zero; [lia|exact Hb].
Qed.

Lemma isCancelPressed_bool (pin : Z) :
  Buttons.isCancelPressed pin = 0 \/ Buttons.isCancelPressed pin = 1.
Proof.
  unfold Buttons.isCancelPressed.
  destruct (Z.land pin 128 =? 0); [right|left]; reflexivity.
Qed.

Lemma isAcceptPressed_bool (pin : Z) :
  Buttons.isAcceptPressed pin = 0 \/ Buttons.isAcceptPressed pin = 1.
Proof.
  unfold Buttons.isAcceptPressed.
  destruct (Z.land pin 131072 =? 0); [right|left]; reflexivity.
Qed.

(** The test [!accept_pressed && !cancel_pressed] of [waitForButtonPress]
    is that no button is down. *)
Lemma no_button_test (s : Buttons.sample) :
  (Buttons.isAcceptPressed s.1 =? 0) && (Buttons.isCancelPressed s.2 =? 0) =
  negb (Buttons.button_down s).
Proof.
  unfold Buttons.button_down.
  destruct (Buttons.isAcceptPressed s.1 =? 0),
           (Buttons.isCancelPressed s.2 =? 0); reflexivity.
Qed.

Lemma cancel_result (pin : Z) :
  (if negb (Buttons.isCancelPressed pin =? 0) then 1 else 0) =
  Buttons.isCancelPressed pin.
Proof.
  destruct (isCancelPressed_bool pin) as [-> | ->]; reflexivity.
Qed.

(** The result is that of the press the last sample shows. *)
Lemma cancel_is_button_result (s : Buttons.sample) :
  Buttons.button_down s = true ->
  Buttons.isCancelPressed s.2 = button_result (Buttons.press_of_sample s).
Proof.
  unfold Buttons.button_down, Buttons.press_of_sample. intros Hdown.
  destruct (isCancelPressed_bool s.2) as [Hc|Hc];
    destruct (isAcceptPressed_bool s.1) as [Ha|Ha];
    rewrite Hc, Ha in *; cbn in *; try reflexivity; discriminate.
Qed.

(** What the loop of [waitForButtonPress] has seen when it returns: a run of
    samples with a button down, as long as the counter it was entered with
    if nothing else came before, [DEBOUNCE_COUNT] long after a sample with
    no button down. *)
Lemma waitForButtonPress_loop_shape (samples : list Buttons.sample) :
  forall counter cancel_pressed r rest,
    0 <= counter <= Buttons.DEBOUNCE_COUNT ->
    Buttons.waitForButtonPress_loop counter cancel_pressed samples = Some (r, rest) ->
    exists pre run,
      samples = pre ++ run ++ rest /\
      Forall (fun s => Buttons.button_down s = true) run /\
      (pre = [] /\ Z.of_nat (length run) = counter \/
       (exists pre' s, pre = pre' ++ [s] /\ Buttons.button_down s = false) /\
       Z.of_nat (length run) = Buttons.DEBOUNCE_COUNT) /\
      r = match last run with
          | Some s => Buttons.isCancelPressed s.2
          | None => if negb (cancel_pressed =? 0) then 1 else 0
          end.
Proof.
  assert (Hlast : forall (run : list Buttons.sample) (a b : Z),
    Z.of_nat (length run) = Buttons.DEBOUNCE_COUNT ->
    match last run with
    | Some s => Buttons.isCancelPressed s.2
    | None => a
    end =
    match last run with
    | Some s => Buttons.isCancelPressed s.2
    | None => b
    end).
  { intros run a b Hlen. destruct (last run) eqn:E; [reflexivity|].
    apply last_None in E. subst run.
    unfold Buttons.DEBOUNCE_COUNT in Hlen. simpl in Hlen. lia. }
  induction samples as [|s samples IH]; intros counter cp r rest Hc Hrun.
  - cbn [Buttons.waitForButtonPress_loop] in Hrun.
    destruct (Z.ltb_spec 0 counter); [discriminate|].
    injection Hrun as <- <-. exists [], [].
    split; [reflexivity|]. split; [constructor|].
    split; [|reflexivity].
    left. split; [reflexivity|simpl; lia].
  - cbn [Buttons.waitForButtonPress_loop] in Hrun.
    destruct (Z.ltb_spec 0 counter) as [Hpos|Hzero].
    + cbv zeta in Hrun. rewrite no_button_test in Hrun.
      destruct (Buttons.button_down s) eqn:Hdown; cbn [negb] in Hrun.
      * rewrite Z.mod_small in Hrun
          by (unfold Buttons.DEBOUNCE_COUNT in Hc; lia).
        apply IH in Hrun; [|lia].
        destruct Hrun as (pre & run & -> & Hall & Hshape & ->).
        destruct Hshape as [[-> Hlen]|[(pre' & s0 & -> & Hs0) Hlen]].
        -- exists [], (s :: run).
           split; [reflexivity|]. split; [constructor; assumption|].
           split.
           ++ left. split; [reflexivity|]. cbn [length]. lia.
           ++ destruct run as [|s1 run].
              ** cbn [last]. apply cancel_result.
              ** rewrite last_cons_cons.
                 destruct (last (s1 :: run)) eqn:E; [reflexivity|].
                 apply last_None in E. discriminate.
        -- exists (s :: pre' ++ [s0]), run.
           split; [reflexivity|]. split; [exact Hall|].
           split.
           ++ right. split; [|exact Hlen].
              exists (s :: pre'), s0. split; [reflexivity|exact Hs0].
           ++ apply Hlast. exact Hlen.
      * apply IH in Hrun; [|unfold Buttons.DEBOUNCE_COUNT; lia].
        destruct Hrun as (pre & run & -> & Hall & Hshape & ->).
        assert (Hlen : Z.of_nat (length run) = Buttons.DEBOUNCE_COUNT)
          by (destruct Hshape as [[_ Hlen]|[_ Hlen]]; exact Hlen).
        exists (s :: pre), run.
        split; [reflexivity|]. split; [exact Hall|].
        split.
        -- right. split; [|exact Hlen].
           destruct Hshape as [[-> _]|[(pre' & s0 & -> & Hs0) _]].
           ++ exists [], s. split; [reflexivity|exact Hdown].
           ++ exists (s :: pre'), s0. split; [reflexivity|exact Hs0].
        -- apply Hlast. exact Hlen.
    + injection Hrun as <- <-. exists [], [].
      split; [reflexivity|]. split; [constructor|].
      split; [|reflexivity].
      left. split; [reflexivity|simpl; lia].
Qed.

(** The loop returns once it is given as many samples with a button down
    as its counter asks for. *)
Lemma waitForButtonPress_loop_run (run : list Buttons.sample) :
  forall counter cancel_pressed rest,
    0 <= counter <= Buttons.DEBOUNCE_COUNT ->
    counter <= Z.of_nat (length run) ->
    Forall (fun s => Buttons.button_down s = true) run ->
    exists r rest',
      Buttons.waitForButtonPress_loop counter cancel_pressed (run ++ rest) =
      Some (r, rest').
Proof.
  induction run as [|s run IH]; intros counter cp rest Hc Hlen Hall.
  - cbn [length] in Hlen. cbn [app].
    destruct rest; cbn [Buttons.waitForButtonPress_loop];
      destruct (Z.ltb_spec 0 counter); try lia; eauto.
  - apply Forall_cons in Hall. destruct Hall as [Hs Hall].
    cbn [app Buttons.waitForButtonPress_loop].
    destruct (Z.ltb_spec 0 counter); [|eauto].
    cbv zeta. rewrite no_button_test, Hs. cbn [negb].
    rewrite Z.mod_small by (unfold Buttons.DEBOUNCE_COUNT in Hc; lia).
    apply IH; [lia|cbn [length] in Hlen; lia|exact Hall].
Qed.

Lemma waitForButtonPress_loop_returns (pre : list Buttons.sample) :
  forall counter cancel_pressed run rest,
    0 <= counter <= Buttons.DEBOUNCE_COUNT ->
    Z.of_nat (length run) = Buttons.DEBOUNCE_COUNT ->
    Forall (fun s => Buttons.button_down s = true) run ->
    exists r rest',
      Buttons.waitForButtonPress_loop counter cancel_pressed
        (pre ++ run ++ rest) = Some (r, rest').
Proof.
  induction pre as [|s pre IH]; intros counter cp run rest Hc Hlen Hall.
  - cbn [app]. apply waitForButtonPress_loop_run; [exact Hc|lia|exact Hall].
  - cbn [app Buttons.waitForButtonPress_loop].
    destruct (Z.ltb_spec 0 counter); [|eauto].
    cbv zeta. rewrite no_button_test.
    destruct (Buttons.button_down s); cbn [negb].
    + rewrite Z.mod_small by (unfold Buttons.DEBOUNCE_COUNT in Hc; lia).
      apply IH; [lia|exact Hlen|exact Hall].
    + apply IH; [unfold Buttons.DEBOUNCE_COUNT; lia|exact Hlen|exact Hall].
Qed.

(** X3: when [waitForButtonPress] returns, the samples it took end with
    [DEBOUNCE_COUNT] = 50 samples in a row with a button down, which are the
    first such after the last sample with no button down; the value returned
    is the state of the cancel button in the very last sample: 1 when
    cancel, or both buttons, are down there, 0 when only accept is, whichever
    buttons were down in the 49 samples before. *)
Theorem waitForButtonPress_debounced
    (cancel_uninit : Z) (samples rest : list Buttons.sample) (r : Z) :
  Buttons.waitForButtonPress cancel_uninit samples = Some (r, rest) ->
  exists pre run s,
    samples = pre ++ run ++ rest /\
    Z.of_nat (length run) = Buttons.DEBOUNCE_COUNT /\
    Buttons.DEBOUNCE_COUNT = 50 /\
    Forall (fun s => Buttons.button_down s = true) run /\
    (pre = [] \/
     exists pre' s0, pre = pre' ++ [s0] /\ Buttons.button_down s0 = false) /\
    last run = Some s /\
    r = Buttons.isCancelPressed s.2 /\
    r = button_result (Buttons.press_of_sample s).
Proof.
  intros Hrun. unfold Buttons.waitForButtonPress in Hrun.
  apply waitForButtonPress_loop_shape in Hrun;
    [|unfold Buttons.DEBOUNCE_COUNT; lia].
  destruct Hrun as (pre & run & -> & Hall & Hshape & ->).
  assert (Hlen : Z.of_nat (length run) = Buttons.DEBOUNCE_COUNT)
    by (destruct Hshape as [[_ Hlen]|[_ Hlen]]; exact Hlen).
  destruct (last run) as [s|] eqn:Hlast.
  - exists pre, run, s. repeat split; try assumption.
    + destruct Hshape as [[-> _]|[Hpre _]]; [left; reflexivity|right; exact Hpre].
    + apply cancel_is_button_result.
      apply last_Some in Hlast. destruct Hlast as (run' & ->).
      apply Forall_app in Hall. destruct Hall as [_ Hs].
      apply Forall_cons in Hs. destruct Hs as [Hs _]. exact Hs.
  - apply last_None in Hlast. subst run.
    unfold Buttons.DEBOUNCE_COUNT in Hlen. simpl in Hlen. lia.
Qed.

(** Facts on runs of samples used for both waits. *)
Lemma no_run_of_tail (down : bool) (n : nat) s (l : list Buttons.sample) :
  no_run_of down n (s :: l) -> no_run_of down n l.
Proof.
  intros Hno l1 l2 l3 Heq Hall.
  apply (Hno (s :: l1) l2 l3); [rewrite Heq; reflexivity|exact Hall].
Qed.

Lemma ends_with_tail (down : bool) s (l : list Buttons.sample) :
  ends_with down (s :: l) -> ends_with down l.
Proof.
  intros [Hnil|(l' & s0 & Heq & Hs0)]; [discriminate|].
  destruct l' as [|s1 l'].
  - left. injection Heq as _ ->. reflexivity.
  - right. injection Heq as _ ->. exists l', s0. split; [reflexivity|exact Hs0].
Qed.

Lemma ends_with_single (down : bool) (s : Buttons.sample) :
  ends_with down [s] -> Buttons.button_down s = down.
Proof.
  intros [Hnil|(l' & s0 & Heq & Hs0)]; [discriminate|].
  destruct l' as [|s1 l'].
  - injection Heq as ->. exact Hs0.
  - injection Heq as _ Heq. destruct l'; discriminate.
Qed.

(** The loop entered with [counter] equal to the length of a run of samples
    with a button down returns right after the run, with the state of the
    cancel button in its last sample. *)
Lemma waitForButtonPress_loop_exact_run (run : list Buttons.sample) :
  forall counter cancel_pressed rest,
    0 <= counter <= Buttons.DEBOUNCE_COUNT ->
    Z.of_nat (length run) = counter ->
    Forall (fun s => Buttons.button_down s = true) run ->
    Buttons.waitForButtonPress_loop counter cancel_pressed (run ++ rest) =
    Some (match last run with
          | Some s => Buttons.isCancelPressed s.2
          | None => if negb (cancel_pressed =? 0) then 1 else 0
          end, rest).
Proof.
  induction run as [|s run IH]; intros counter cp rest Hc Hlen Hall.
  - cbn [length] in Hlen. cbn [app last].
    destruct rest; cbn [Buttons.waitForButtonPress_loop];
      destruct (Z.ltb_spec 0 counter); try lia; reflexivity.
  - apply Forall_cons in Hall. destruct Hall as [Hs Hall].
    cbn [length] in Hlen.
    cbn [app Buttons.waitForButtonPress_loop].
    destruct (Z.ltb_spec 0 counter); [|lia].
    cbv zeta. rewrite no_button_test, Hs. cbn [negb].
    rewrite Z.mod_small by (unfold Buttons.DEBOUNCE_COUNT in Hc; lia).
    rewrite IH by (try exact Hall; lia).
    f_equal. f_equal.
    destruct run as [|s1 run].
    + cbn [last]. apply cancel_result.
    + rewrite last_cons_cons.
      destruct (last (s1 :: run)) eqn:E; [reflexivity|].
      apply last_None in E. discriminate.
Qed.

(** The loop does not return within samples that hold no 50 in a row with a
    button down and end with a sample with no button down: it returns right
    after the run of 50 that follows them. *)
Lemma waitForButtonPress_loop_first (pre : list Buttons.sample) :
  forall counter cancel_pressed run rest s,
    0 < counter <= Buttons.DEBOUNCE_COUNT ->
    Z.of_nat (length run) = Buttons.DEBOUNCE_COUNT ->
    Forall (fun s => Buttons.button_down s = true) run ->
    last run = Some s ->
    (pre = [] -> counter = Buttons.DEBOUNCE_COUNT) ->
    ends_with false pre ->
    no_run_of true 50 pre ->
    (forall l2 l3, pre = l2 ++ l3 ->
       Forall (fun s => Buttons.button_down s = true) l2 ->
       Z.of_nat (length l2) < counter) ->
    Buttons.waitForButtonPress_loop counter cancel_pressed (pre ++ run ++ rest) =
    Some (Buttons.isCancelPressed s.2, rest).
Proof.
  induction pre as [|s0 pre IH];
    intros counter cp run rest s Hc Hlen Hall Hlast Hnil Hend Hno Hprefix.
  - cbn [app]. rewrite (Hnil eq_refl).
    rewrite waitForButtonPress_loop_exact_run
      by (try assumption; unfold Buttons.DEBOUNCE_COUNT; lia).
    rewrite Hlast. reflexivity.
  - cbn [app Buttons.waitForButtonPress_loop].
    destruct (Z.ltb_spec 0 counter); [|lia].
    cbv zeta. rewrite no_button_test.
    destruct (Buttons.button_down s0) eqn:Hs0; cbn [negb].
    + assert (Hc1 : 1 < counter).
      { specialize (Hprefix [s0] pre eq_refl).
        cbn [length] in Hprefix. apply Hprefix.
        constructor; [exact Hs0|constructor]. }
      assert (Hpre : pre <> []).
      { intros ->. apply ends_with_single in Hend. congruence. }
      rewrite Z.mod_small by (unfold Buttons.DEBOUNCE_COUNT in Hc; lia).
      apply IH; try assumption.
      * lia.
      * intros Hp. contradiction.
      * apply (ends_with_tail false s0). exact Hend.
      * apply (no_run_of_tail true 50%nat s0). exact Hno.
      * intros l2 l3 Heq Hl2.
        specialize (Hprefix (s0 :: l2) l3).
        cbn [length] in Hprefix.
        assert (Z.of_nat (S (length l2)) < counter).
        { apply Hprefix; [rewrite Heq; reflexivity|].
          constructor; assumption. }
        lia.
    + apply IH; try assumption.
      * unfold Buttons.DEBOUNCE_COUNT. lia.
      * intros _. reflexivity.
      * apply (ends_with_tail false s0). exact Hend.
      * apply (no_run_of_tail true 50%nat s0). exact Hno.
      * intros l2 l3 Heq Hl2.
        assert (length l2 < 50)%nat
          by (apply (Hno [s0] l2 l3); [rewrite Heq; reflexivity|exact Hl2]).
        unfold Buttons.DEBOUNCE_COUNT. lia.
Qed.

(** X4: [waitForButtonPress] returns as soon as the samples hold 50 in a
    row with a button down.  At the first such run, that is one that starts
    at the first sample or right after a sample with no button down and has
    no 50 samples in a row with a button down before it, the function
    returns the state of the cancel button in the last sample of the run and
    leaves exactly the samples after the run; whatever came before a run of
    50, it does return; and what it does never depends on the value its
    variable [cancel_pressed] held before the loop, which always assigns it
    before it is read. *)
Theorem waitForButtonPress_returns_and_initialised :
  (forall cancel_uninit pre run rest s,
      Z.of_nat (length run) = Buttons.DEBOUNCE_COUNT ->
      Forall (fun s => Buttons.button_down s = true) run ->
      last run = Some s ->
      ends_with false pre ->
      no_run_of true 50 pre ->
      Buttons.waitForButtonPress cancel_uninit (pre ++ run ++ rest) =
      Some (Buttons.isCancelPressed s.2, rest)) /\
  (forall cancel_uninit pre run rest,
      Z.of_nat (length run) = Buttons.DEBOUNCE_COUNT ->
      Forall (fun s => Buttons.button_down s = true) run ->
      exists r rest',
        Buttons.waitForButtonPress cancel_uninit (pre ++ run ++ rest) =
        Some (r, rest')) /\
  (forall c1 c2 samples,
      Buttons.waitForButtonPress c1 samples =
      Buttons.waitForButtonPress c2 samples).
Proof.
  split; [|split].
  - intros cu pre run rest s Hlen Hall Hlast Hend Hno.
    unfold Buttons.waitForButtonPress.
    apply waitForButtonPress_loop_first; try assumption.
    + unfold Buttons.DEBOUNCE_COUNT. lia.
    + intros _. reflexivity.
    + intros l2 l3 Heq Hl2.
      assert (length l2 < 50)%nat
        by (apply (Hno [] l2 l3); [exact Heq|exact Hl2]).
      unfold Buttons.DEBOUNCE_COUNT. lia.
  - intros cu pre run rest Hlen Hall. unfold Buttons.waitForButtonPress.
    apply waitForButtonPress_loop_returns;
      [unfold Buttons.DEBOUNCE_COUNT; lia|exact Hlen|exact Hall].
  - intros c1 c2 samples. unfold Buttons.waitForButtonPress.
    destruct samples as [|s samples]; reflexivity.
Qed.

Lemma waitForButtonPress_debounced_witness :
  let samples := replicate 49 (0, 0x80) ++ [(0x20000, 0)] ++ [(0, 0)] in
  Buttons.waitForButtonPress 0 samples = Some (1, [(0, 0)]) /\
  exists pre run s,
    samples = pre ++ run ++ [(0, 0)] /\
    last run = Some s /\ 1 = Buttons.isCancelPressed s.2.
Proof.
  intros samples.
  assert (Hrun : Buttons.waitForButtonPress 0 samples = Some (1, [(0, 0)]))
    by (vm_compute; reflexivity).
  split; [exact Hrun|].
  destruct (waitForButtonPress_debounced 0 samples [(0, 0)] 1 Hrun)
    as (pre & run & s & Hsplit & _ & _ & _ & _ & Hlast & Hr & _).
  exists pre, run, s. split; [exact Hsplit|]. split; [exact Hlast|exact Hr].
Defined.

(** What the loop of [waitForNoButtonPress] has seen when it returns. *)
Lemma waitForNoButtonPress_loop_shape (samples : list Buttons.sample) :
  forall counter rest,
    0 <= counter <= Buttons.DEBOUNCE_COUNT ->
    Buttons.waitForNoButtonPress_loop counter samples = Some rest ->
    exists pre run,
      samples = pre ++ run ++ rest /\
      Forall (fun s => Buttons.button_down s = false) run /\
      (pre = [] /\ Z.of_nat (length run) = counter \/
       (exists pre' s, pre = pre' ++ [s] /\ Buttons.button_down s = true) /\
       Z.of_nat (length run) = Buttons.DEBOUNCE_COUNT).
Proof.
  induction samples as [|s samples IH]; intros counter rest Hc Hrun.
  - cbn [Buttons.waitForNoButtonPress_loop] in Hrun.
    destruct (Z.ltb_spec 0 counter); [discriminate|].
    injection Hrun as <-. exists [], [].
    split; [reflexivity|]. split; [constructor|].
    left. split; [reflexivity|simpl; lia].
  - cbn [Buttons.waitForNoButtonPress_loop] in Hrun.
    destruct (Z.ltb_spec 0 counter) as [Hpos|Hzero].
    + fold (Buttons.button_down s) in Hrun.
      destruct (Buttons.button_down s) eqn:Hdown.
      * apply IH in Hrun; [|unfold Buttons.DEBOUNCE_COUNT; lia].
        destruct Hrun as (pre & run & -> & Hall & Hshape).
        assert (Hlen : Z.of_nat (length run) = Buttons.DEBOUNCE_COUNT)
          by (destruct Hshape as [[_ Hlen]|[_ Hlen]]; exact Hlen).
        exists (s :: pre), run.
        split; [reflexivity|]. split; [exact Hall|].
        right. split; [|exact Hlen].
        destruct Hshape as [[-> _]|[(pre' & s0 & -> & Hs0) _]].
        -- exists [], s. split; [reflexivity|exact Hdown].
        -- exists (s :: pre'), s0. split; [reflexivity|exact Hs0].
      * rewrite Z.mod_small in Hrun
          by (unfold Buttons.DEBOUNCE_COUNT in Hc; lia).
        apply IH in Hrun; [|lia].
        destruct Hrun as (pre & run & -> & Hall & Hshape).
        destruct Hshape as [[-> Hlen]|[(pre' & s0 & -> & Hs0) Hlen]].
        -- exists [], (s :: run).
           split; [reflexivity|]. split; [constructor; assumption|].
           left. split; [reflexivity|]. cbn [length]. lia.
        -- exists (s :: pre' ++ [s0]), run.
           split; [reflexivity|]. split; [exact Hall|].
           right. split; [|exact Hlen].
           exists (s :: pre'), s0. split; [reflexivity|exact Hs0].
    + injection Hrun as <-. exists [], [].
      split; [reflexivity|]. split; [constructor|].
      left. split; [reflexivity|simpl; lia].
Qed.

Lemma waitForNoButtonPress_loop_returns (pre : list Buttons.sample) :
  forall counter run rest,
    0 <= counter <= Buttons.DEBOUNCE_COUNT ->
    counter <= Z.of_nat (length run) ->
    (pre = [] \/ Z.of_nat (length run) = Buttons.DEBOUNCE_COUNT) ->
    Forall (fun s => Buttons.button_down s = false) run ->
    exists rest',
      Buttons.waitForNoButtonPress_loop counter (pre ++ run ++ rest) = Some rest'.
Proof.
  induction pre as [|s pre IH]; intros counter run rest Hc Hlen Hfull Hall.
  - cbn [app]. clear Hfull. revert counter Hc Hlen.
    induction run as [|s run IHrun]; intros counter Hc Hlen.
    + cbn [length] in Hlen. cbn [app].
      destruct rest; cbn [Buttons.waitForNoButtonPress_loop];
        destruct (Z.ltb_spec 0 counter); try lia; eauto.
    + apply Forall_cons in Hall. destruct Hall as [Hs Hall].
      cbn [app Buttons.waitForNoButtonPress_loop].
      destruct (Z.ltb_spec 0 counter); [|eauto].
      fold (Buttons.button_down s). rewrite Hs.
      rewrite Z.mod_small by (unfold Buttons.DEBOUNCE_COUNT in Hc; lia).
      apply IHrun; [exact Hall|lia|cbn [length] in Hlen; lia].
  - destruct Hfull as [Hnil|Hfull]; [discriminate|].
    cbn [app Buttons.waitForNoButtonPress_loop].
    destruct (Z.ltb_spec 0 counter); [|eauto].
    fold (Buttons.button_down s).
    destruct (Buttons.button_down s).
    + apply IH; [unfold Buttons.DEBOUNCE_COUNT; lia|lia|
                 right; exact Hfull|exact Hall].
    + rewrite Z.mod_small by (unfold Buttons.DEBOUNCE_COUNT in Hc; lia).
      apply IH; [lia|lia|right; exact Hfull|exact Hall].
Qed.

(** The loop entered with [counter] equal to the length of a run of samples
    with neither button down returns right after the run. *)
Lemma waitForNoButtonPress_loop_exact_run (run : list Buttons.sample) :
  forall counter rest,
    0 <= counter <= Buttons.DEBOUNCE_COUNT ->
    Z.of_nat (length run) = counter ->
    Forall (fun s => Buttons.button_down s = false) run ->
    Buttons.waitForNoButtonPress_loop counter (run ++ rest) = Some rest.
Proof.
  induction run as [|s run IH]; intros counter rest Hc Hlen Hall.
  - cbn [length] in Hlen. cbn [app].
    destruct rest; cbn [Buttons.waitForNoButtonPress_loop];
      destruct (Z.ltb_spec 0 counter); try lia; reflexivity.
  - apply Forall_cons in Hall. destruct Hall as [Hs Hall].
    cbn [length] in Hlen.
    cbn [app Buttons.waitForNoButtonPress_loop].
    destruct (Z.ltb_spec 0 counter); [|lia].
    fold (Buttons.button_down s). rewrite Hs.
    rewrite Z.mod_small by (unfold Buttons.DEBOUNCE_COUNT in Hc; lia).
    apply IH; [lia|lia|exact Hall].
Qed.

(** The loop does not return within samples that hold no 50 in a row with
    neither button down and end with a sample with a button down: it returns
    right after the run of 50 that follows them. *)
Lemma waitForNoButtonPress_loop_first (pre : list Buttons.sample) :
  forall counter run rest,
    0 < counter <= Buttons.DEBOUNCE_COUNT ->
    Z.of_nat (length run) = Buttons.DEBOUNCE_COUNT ->
    Forall (fun s => Buttons.button_down s = false) run ->
    (pre = [] -> counter = Buttons.DEBOUNCE_COUNT) ->
    ends_with true pre ->
    no_run_of false 50 pre ->
    (forall l2 l3, pre = l2 ++ l3 ->
       Forall (fun s => Buttons.button_down s = false) l2 ->
       Z.of_nat (length l2) < counter) ->
    Buttons.waitForNoButtonPress_loop counter (pre ++ run ++ rest) = Some rest.
Proof.
  induction pre as [|s0 pre IH];
    intros counter run rest Hc Hlen Hall Hnil Hend Hno Hprefix.
  - cbn [app]. rewrite (Hnil eq_refl).
    apply waitForNoButtonPress_loop_exact_run;
      [unfold Buttons.DEBOUNCE_COUNT; lia|exact Hlen|exact Hall].
  - cbn [app Buttons.waitForNoButtonPress_loop].
    destruct (Z.ltb_spec 0 counter); [|lia].
    fold (Buttons.button_down s0).
    destruct (Buttons.button_down s0) eqn:Hs0.
    + apply IH; try assumption.
      * unfold Buttons.DEBOUNCE_COUNT. lia.
      * intros _. reflexivity.
      * apply (ends_with_tail true s0). exact Hend.
      * apply (no_run_of_tail false 50%nat s0). exact Hno.
      * intros l2 l3 Heq Hl2.
        assert (length l2 < 50)%nat
          by (apply (Hno [s0] l2 l3); [rewrite Heq; reflexivity|exact Hl2]).
        unfold Buttons.DEBOUNCE_COUNT. lia.
    + assert (Hc1 : 1 < counter).
      { specialize (Hprefix [s0] pre eq_refl).
        cbn [length] in Hprefix. apply Hprefix.
        constructor; [exact Hs0|constructor]. }
      assert (Hpre : pre <> []).
      { intros ->. apply ends_with_single in Hend. congruence. }
      rewrite Z.mod_small by (unfold Buttons.DEBOUNCE_COUNT in Hc; lia).
      apply IH; try assumption.
      * lia.
      * intros Hp. contradiction.
      * apply (ends_with_tail true s0). exact Hend.
      * apply (no_run_of_tail false 50%nat s0). exact Hno.
      * intros l2 l3 Heq Hl2.
        specialize (Hprefix (s0 :: l2) l3).
        cbn [length] in Hprefix.
        assert (Z.of_nat (S (length l2)) < counter).
        { apply Hprefix; [rewrite Heq; reflexivity|].
          constructor; assumption. }
        lia.
Qed.

(** X5: [waitForNoButtonPress] returns exactly at the end of the first 50
    samples in a row with neither button down.  At the first such run, that
    is one that starts at the first sample or right after a sample with a
    button down and has no 50 samples in a row with neither button down
    before it, the function returns and leaves exactly the samples after the
    run; when it returns the samples it took end with such a run, which
    starts right after a sample with a button down (or at the first sample);
    it does return when there is such a run; and it does not return while a
    button stays down. *)
Theorem waitForNoButtonPress_debounced :
  (forall pre run rest,
      Z.of_nat (length run) = 50 ->
      Forall (fun s => Buttons.button_down s = false) run ->
      ends_with true pre ->
      no_run_of false 50 pre ->
      Buttons.waitForNoButtonPress (pre ++ run ++ rest) = Some rest) /\
  (forall samples rest,
      Buttons.waitForNoButtonPress samples = Some rest ->
      exists pre run,
        samples = pre ++ run ++ rest /\
        Z.of_nat (length run) = 50 /\
        Forall (fun s => Buttons.button_down s = false) run /\
        (pre = [] \/
         exists pre' s, pre = pre' ++ [s] /\ Buttons.button_down s = true)) /\
  (forall pre run rest,
      Z.of_nat (length run) = 50 ->
      Forall (fun s => Buttons.button_down s = false) run ->
      exists rest',
        Buttons.waitForNoButtonPress (pre ++ run ++ rest) = Some rest') /\
  (forall samples,
      Forall (fun s => Buttons.button_down s = true) samples ->
      Buttons.waitForNoButtonPress samples = None).
Proof.
  assert (Hsound : forall samples rest,
    Buttons.waitForNoButtonPress samples = Some rest ->
    exists pre run,
      samples = pre ++ run ++ rest /\
      Z.of_nat (length run) = 50 /\
      Forall (fun s => Buttons.button_down s = false) run /\
      (pre = [] \/
       exists pre' s, pre = pre' ++ [s] /\ Buttons.button_down s = true)).
  { intros samples rest Hrun. unfold Buttons.waitForNoButtonPress in Hrun.
    apply waitForNoButtonPress_loop_shape in Hrun;
      [|unfold Buttons.DEBOUNCE_COUNT; lia].
    destruct Hrun as (pre & run & -> & Hall & Hshape).
    exists pre, run. split; [reflexivity|].
    split; [destruct Hshape as [[_ Hlen]|[_ Hlen]]; exact Hlen|].
    split; [exact Hall|].
    destruct Hshape as [[-> _]|[Hpre _]]; [left; reflexivity|right; exact Hpre]. }
  split; [|split; [exact Hsound|split]].
  - intros pre run rest Hlen Hall Hend Hno.
    unfold Buttons.waitForNoButtonPress.
    apply waitForNoButtonPress_loop_first; try assumption.
    + unfold Buttons.DEBOUNCE_COUNT. lia.
    + intros _. reflexivity.
    + intros l2 l3 Heq Hl2.
      assert (length l2 < 50)%nat
        by (apply (Hno [] l2 l3); [exact Heq|exact Hl2]).
      unfold Buttons.DEBOUNCE_COUNT. lia.
  - intros pre run rest Hlen Hall. unfold Buttons.waitForNoButtonPress.
    apply waitForNoButtonPress_loop_returns;
      [unfold Buttons.DEBOUNCE_COUNT; lia
      |unfold Buttons.DEBOUNCE_COUNT; lia
      |right; exact Hlen|exact Hall].
  - intros samples Hall.
    destruct (Buttons.waitForNoButtonPress samples) as [rest|] eqn:Hrun;
      [|reflexivity].
    exfalso. apply Hsound in Hrun.
    destruct Hrun as (pre & [|s run] & -> & Hlen & Hup & _);
      [simpl in Hlen; lia|].
    apply Forall_app in Hall. destruct Hall as [_ Hall].
    apply Forall_app in Hall. destruct Hall as [Hall _].
    apply Forall_cons in Hall. destruct Hall as [Hs _].
    apply Forall_cons in Hup. destruct Hup as [Hs' _].
    congruence.
Qed.

(* --------------------------------------------------------------------- *)
(** ** The pending outputs over sequences of calls *)
(* --------------------------------------------------------------------- *)

Section PendingOutputsCalls.

Context `{Platform}.

Lemma copy_terminated_buffer (n : nat) (src : string) :
  (0 < n)%nat -> terminated_buffer n (copy_terminated n src).
Proof.
  intros Hn. unfold terminated_buffer, copy_terminated.
  rewrite length_insert, strncpy_length. split; [reflexivity|].
  rewrite last_lookup, length_insert, strncpy_length.
  replace (Init.Nat.pred n) with (n - 1)%nat by lia.
  apply list_lookup_insert_eq. rewrite strncpy_length. lia.
Qed.

Lemma replicate_terminated_buffer (n : nat) :
  (0 < n)%nat -> terminated_buffer n (replicate n NUL).
Proof.
  intros Hn. unfold terminated_buffer. rewrite length_replicate.
  split; [reflexivity|]. rewrite last_lookup, length_replicate.
  apply lookup_replicate_2. lia.
Qed.

(** The text read from a terminated buffer is shorter than the buffer. *)
Lemma cstring_within_buffer (buf : list ascii) :
  last buf = Some NUL -> (String.length (cstring buf) < length buf)%nat.
Proof.
  induction buf as [|c buf IH]; intros Hlast; [discriminate|].
  cbn [cstring length].
  destruct (Ascii.eqb c NUL) eqn:Hc; [simpl; lia|].
  destruct buf as [|c' buf].
  - cbn in Hlast. injection Hlast as ->.
    rewrite Ascii.eqb_refl in Hc. discriminate.
  - rewrite last_cons_cons in Hlast. specialize (IH Hlast).
    cbn [String.length length] in *. lia.
Qed.

(** One call of [newOutputSeen] on a well-formed state. *)
Lemma newOutputSeen_step (a d : string) (st : ui_state) :
  ui_wf st ->
  (0 < TEXT_AMOUNT_LENGTH)%nat -> (0 < TEXT_ADDRESS_LENGTH)%nat ->
  (list_index st = MAX_OUTPUTS /\ newOutputSeen a d st = (1, st)) \/
  (list_index st < MAX_OUTPUTS /\
   exists st',
     newOutputSeen a d st = (0, st') /\ ui_wf st' /\
     list_index st' = list_index st + 1 /\
     pending_outputs st' = pending_outputs st ++ [stored_pair (a, d)]).
Proof.
  intros (Hla & Hld & Hidx) Ham Had. unfold newOutputSeen.
  destruct (Z.leb_spec MAX_OUTPUTS (list_index st)) as [Hfull|Hroom].
  - left. split; [lia|reflexivity].
  - right. split; [exact Hroom|]. eexists. split; [reflexivity|].
    assert (Hmod : (list_index st + 1) mod 2 ^ 32 = list_index st + 1)
      by (apply Z.mod_small; unfold MAX_OUTPUTS in *; lia).
    split; [|split].
    + unfold ui_wf. cbn [list_index list_amount list_address].
      rewrite !length_insert, Hmod. repeat split; try assumption; lia.
    + exact Hmod.
    + unfold pending_outputs, stored_pair.
      cbn [list_index list_amount list_address fst snd]. rewrite Hmod.
      replace (Z.to_nat (list_index st + 1))
        with (S (Z.to_nat (list_index st))) by lia.
      rewrite seq_S, map_app. cbn [map Nat.add]. f_equal.
      * apply map_ext_in. intros i Hi. apply in_seq in Hi.
        unfold row_text. rewrite Nat2Z.id.
        rewrite !list_lookup_total_insert_ne by lia. reflexivity.
      * unfold row_text. rewrite Nat2Z.id.
        rewrite !list_lookup_total_insert_eq
          by (rewrite ?Hla, ?Hld; unfold MAX_OUTPUTS in *; lia).
        destruct TEXT_AMOUNT_LENGTH as [|na]; [lia|].
        destruct TEXT_ADDRESS_LENGTH as [|nd]; [lia|].
        rewrite !cstring_copy_terminated.
        replace (S na - 1)%nat with na by lia.
        replace (S nd - 1)%nat with nd by lia.
        reflexivity.
Qed.

Lemma ui_step_wf (st : ui_state) (c : ui_call) :
  ui_wf st -> ui_wf (ui_step st c).
Proof.
  intros Hwf. destruct c; cbn [ui_step].
  - apply newOutputSeen_wf. exact Hwf.
  - apply setTransactionFee_wf. exact Hwf.
  - apply clearOutputsSeen_wf. exact Hwf.
Qed.

Lemma ui_step_terminated (st : ui_state) (c : ui_call) :
  (0 < TEXT_AMOUNT_LENGTH)%nat -> (0 < TEXT_ADDRESS_LENGTH)%nat ->
  buffers_terminated st -> buffers_terminated (ui_step st c).
Proof.
  intros Ham Had (Ha & Hd & Hf). destruct c as [a d|a|]; cbn [ui_step].
  - unfold newOutputSeen.
    destruct (MAX_OUTPUTS <=? list_index st); cbn [snd];
      [exact (conj Ha (conj Hd Hf))|].
    split; [|split]; cbn [list_amount list_address transaction_fee_amount].
    + apply Forall_insert; [exact Ha|].
      apply copy_terminated_buffer. exact Ham.
    + apply Forall_insert; [exact Hd|].
      apply copy_terminated_buffer. exact Had.
    + exact Hf.
  - split; [exact Ha|]. split; [exact Hd|].
    apply copy_terminated_buffer. exact Ham.
  - exact (conj Ha (conj Hd Hf)).
Qed.

(** X6: whatever calls of [newOutputSeen], [setTransactionFee] and
    [clearOutputsSeen] are made, in whatever order and with texts of whatever
    length, starting from the zero-initialised variables: [list_index] stays
    within 0 .. [MAX_OUTPUTS], every text buffer keeps its size and its
    terminating NUL, and so every pending amount and address read back from
    the buffers is shorter than its buffer. *)
Theorem ui_calls_keep_buffers_safe (calls : list ui_call) :
  (0 < TEXT_AMOUNT_LENGTH)%nat ->
  (0 < TEXT_ADDRESS_LENGTH)%nat ->
  let st := ui_run calls ui_initial in
  ui_wf st /\
  buffers_terminated st /\
  (length (pending_outputs st) <= Z.to_nat MAX_OUTPUTS)%nat /\
  Forall (fun output =>
            (String.length output.1 < TEXT_AMOUNT_LENGTH)%nat /\
            (String.length output.2 < TEXT_ADDRESS_LENGTH)%nat)
         (pending_outputs st) /\
  (String.length (cstring (transaction_fee_amount st)) < TEXT_AMOUNT_LENGTH)%nat.
Proof.
  intros Ham Had st.
  assert (Hinv : ui_wf st /\ buffers_terminated st).
  { unfold st, ui_run.
    assert (Hinit : ui_wf ui_initial /\ buffers_terminated ui_initial).
    { split; [apply ui_initial_wf|].
      unfold buffers_terminated, ui_initial.
      cbn [list_amount list_address transaction_fee_amount].
      split; [|split].
      - apply Forall_replicate, replicate_terminated_buffer. exact Ham.
      - apply Forall_replicate, replicate_terminated_buffer. exact Had.
      - apply replicate_terminated_buffer. exact Ham. }
    revert Hinit. generalize ui_initial.
    induction calls as [|c calls IH]; intros st0 [Hwf Hterm];
      [split; assumption|].
    cbn [fold_left]. apply IH. split.
    - apply ui_step_wf. exact Hwf.
    - apply ui_step_terminated; assumption. }
  destruct Hinv as [Hwf Hterm].
  split; [exact Hwf|]. split; [exact Hterm|].
  destruct Hwf as (Hla & Hld & Hidx).
  destruct Hterm as (Ha & Hd & [Hflen Hflast]).
  split; [rewrite pending_outputs_length; lia|]. split.
  - unfold pending_outputs. apply Forall_map, Forall_forall.
    intros i Hi. apply list_elem_of_In, in_seq in Hi.
    cbn [fst snd]. unfold row_text. rewrite Nat2Z.id.
    assert (Hrow : forall n (rows : list (list ascii)),
      Forall (terminated_buffer n) rows ->
      length rows = Z.to_nat MAX_OUTPUTS ->
      (String.length (cstring (rows !!! i)) < n)%nat).
    { intros n rows Hrows Hlen.
      assert (Hi' : (i < length rows)%nat) by lia.
      apply lookup_lt_is_Some_2 in Hi'. destruct Hi' as [row Hrow].
      rewrite (list_lookup_total_correct _ _ _ Hrow).
      apply (Forall_lookup_1 _ _ _ _ Hrows) in Hrow.
      destruct Hrow as [Hrlen Hrlast].
      rewrite <- Hrlen. apply cstring_within_buffer. exact Hrlast. }
    split; [apply Hrow|apply Hrow]; assumption.
  - rewrite <- Hflen. apply cstring_within_buffer. exact Hflast.
Qed.

Lemma newOutputsSeen_from (outputs : list (string * string)) :
  forall st,
    ui_wf st ->
    (0 < TEXT_AMOUNT_LENGTH)%nat -> (0 < TEXT_ADDRESS_LENGTH)%nat ->
    let room := Z.to_nat (MAX_OUTPUTS - list_index st) in
    let st' := (newOutputsSeen outputs st).2 in
    (newOutputsSeen outputs st).1 =
      replicate (min (length outputs) room) 0 ++
      replicate (length outputs - room) 1 /\
    pending_outputs st' =
      pending_outputs st ++ map stored_pair (take room outputs) /\
    transaction_fee_set st' = transaction_fee_set st /\
    transaction_fee_amount st' = transaction_fee_amount st.
Proof.
  induction outputs as [|[a d] outputs IH]; intros st Hwf Ham Had room st'.
  - unfold st'. cbn. destruct room; cbn; rewrite ?app_nil_r; auto.
  - unfold st'. cbn [newOutputsSeen].
    destruct (newOutputSeen_step a d st Hwf Ham Had)
      as [[Hfull Hstep]|[Hroom (st1 & Hstep & Hwf1 & Hidx1 & Hpend1)]].
    + rewrite Hstep.
      specialize (IH st Hwf Ham Had). cbv zeta in IH.
      destruct (newOutputsSeen outputs st) as [rs st2].
      cbn [fst snd] in *.
      destruct IH as (Hrs & Hpend & Hfee & Hamt).
      subst room.
      assert (Hz : Z.to_nat (MAX_OUTPUTS - list_index st) = O) by lia.
      rewrite Hz in *. cbn [length].
      rewrite ?Nat.min_0_r, ?Nat.sub_0_r in *.
      cbn [take map replicate app] in *. rewrite Hrs.
      repeat split; assumption.
    + rewrite Hstep.
      specialize (IH st1 Hwf1 Ham Had). cbv zeta in IH.
      destruct (newOutputsSeen outputs st1) as [rs st2].
      cbn [fst snd] in *.
      destruct IH as (Hrs & Hpend & Hfee & Hamt).
      subst room.
      destruct (Z.to_nat (MAX_OUTPUTS - list_index st)) as [|room'] eqn:Hr;
        [lia|].
      assert (Hroom1 : Z.to_nat (MAX_OUTPUTS - list_index st1) = room')
        by lia.
      rewrite Hroom1 in *.
      cbn [take map length Nat.sub Nat.min replicate app].
      rewrite Hrs, Hpend, Hpend1, <- app_assoc.
      assert (Hst1 : newOutputSeen a d st = (0, st1)) by exact Hstep.
      unfold newOutputSeen in Hst1.
      destruct (MAX_OUTPUTS <=? list_index st); [discriminate|].
      injection Hst1 as <-.
      cbn [transaction_fee_set transaction_fee_amount] in *.
      repeat split; assumption.
Qed.

Lemma stored_pair_fits (output : string * string) :
  text_fits TEXT_AMOUNT_LENGTH output.1 ->
  text_fits TEXT_ADDRESS_LENGTH output.2 ->
  stored_pair output = output.
Proof.
  intros [Hla Hna] [Hld Hnd]. destruct output as [a d].
  unfold stored_pair. cbn [fst snd] in *.
  rewrite !c_prefix_fits by (try assumption; lia). reflexivity.
Qed.

(** X7: after [clearOutputsSeen], calling [newOutputSeen] for each output
    of a list in turn returns 0 for the first 20 and 1 for every later one;
    the pending outputs are then the first 20 of the list, in order, each
    cut to what its buffers hold, and exactly the first 20 of the list when
    every text fits its buffer; no fee is set. *)
Theorem newOutputsSeen_after_clear
    (outputs : list (string * string)) (st : ui_state) :
  ui_wf st ->
  (0 < TEXT_AMOUNT_LENGTH)%nat ->
  (0 < TEXT_ADDRESS_LENGTH)%nat ->
  let results := (newOutputsSeen outputs (clearOutputsSeen st)).1 in
  let st' := (newOutputsSeen outputs (clearOutputsSeen st)).2 in
  results = replicate (min (length outputs) 20) 0 ++
            replicate (length outputs - 20) 1 /\
  pending_outputs st' = map stored_pair (take 20 outputs) /\
  (Forall (fun output => text_fits TEXT_AMOUNT_LENGTH output.1 /\
                         text_fits TEXT_ADDRESS_LENGTH output.2) outputs ->
   pending_outputs st' = take 20 outputs) /\
  transaction_fee_set st' = 0.
Proof.
  intros Hwf Ham Had results st'.
  pose proof (newOutputsSeen_from outputs (clearOutputsSeen st)
                (clearOutputsSeen_wf st Hwf) Ham Had) as Hfrom.
  cbv zeta in Hfrom. fold st' in Hfrom. fold results in Hfrom.
  change (Z.to_nat (MAX_OUTPUTS - list_index (clearOutputsSeen st)))
    with 20%nat in Hfrom.
  change (pending_outputs (clearOutputsSeen st)) with (@nil (string * string))
    in Hfrom.
  destruct Hfrom as (Hrs & Hpend & Hfee & _).
  split; [exact Hrs|]. split; [exact Hpend|]. split; [|exact Hfee].
  intros Hfit. rewrite Hpend. cbn [app].
  apply (Forall_take _ 20%nat) in Hfit.
  revert Hfit. generalize (take 20 outputs). intros l Hfit.
  induction Hfit as [|output rest [Ha Hd] _ IH]; [reflexivity|].
  cbn [map]. rewrite IH. rewrite stored_pair_fits by assumption.
  reflexivity.
Qed.

End PendingOutputsCalls.

Lemma newOutputsSeen_after_clear_witness :
  let outputs := replicate 22 ("0.01"%string, "1abc"%string) in
  let st := @ui_initial sample_platform in
  ui_wf st /\
  (0 < @TEXT_AMOUNT_LENGTH sample_platform)%nat /\
  (0 < @TEXT_ADDRESS_LENGTH sample_platform)%nat /\
  (newOutputsSeen (H := sample_platform) outputs (clearOutputsSeen st)).1 =
    replicate 20 0 ++ replicate 2 1.
Proof.
  intros outputs st.
  assert (Hwf : ui_wf st) by apply ui_initial_wf.
  assert (Ha : (0 < @TEXT_AMOUNT_LENGTH sample_platform)%nat) by (cbn; lia).
  assert (Hd : (0 < @TEXT_ADDRESS_LENGTH sample_platform)%nat) by (cbn; lia).
  split; [exact Hwf|]. split; [exact Ha|]. split; [exact Hd|].
  pose proof (newOutputsSeen_after_clear (H := sample_platform)
                outputs st Hwf Ha Hd) as Hthm.
  cbv zeta in Hthm. destruct Hthm as (Hrs & _). exact Hrs.
Defined.

Lemma ui_calls_keep_buffers_safe_witness :
  let calls :=
    [CallNewOutputSeen "123456789012345678901234567890" "1abc";
     CallSetTransactionFee "0.0005"; CallClearOutputsSeen;
     CallNewOutputSeen "0.5" "1RaTTuSEN7jJUDiW1EGogHwtek7g9BiEn"] in
  (0 < @TEXT_AMOUNT_LENGTH sample_platform)%nat /\
  (0 < @TEXT_ADDRESS_LENGTH sample_platform)%nat /\
  ui_wf (ui_run (H := sample_platform) calls (@ui_initial sample_platform)).
Proof.
  intros calls.
  assert (Ha : (0 < @TEXT_AMOUNT_LENGTH sample_platform)%nat) by (cbn; lia).
  assert (Hd : (0 < @TEXT_ADDRESS_LENGTH sample_platform)%nat) by (cbn; lia).
  split; [exact Ha|]. split; [exact Hd|].
  pose proof (ui_calls_keep_buffers_safe (H := sample_platform)
                calls Ha Hd) as Hthm.
  cbv zeta in Hthm. destruct Hthm as (Hwf & _). exact Hwf.
Defined.

(* --------------------------------------------------------------------- *)
(** ** askUser: every command *)
(* --------------------------------------------------------------------- *)

Lemma io_post_emit_then {A : Type} (e : event) (k : io A) (Q : A -> Prop) :
  io_post k Q -> io_post (emit e ≫= fun _ => k) Q.
Proof.
  intros Hk w a w' Hrun.
  cbv beta iota delta [mbind io_bind emit] in Hrun.
  apply Hk in Hrun. destruct Hrun as (HQ & mid & consumed & Hlog & Hpend).
  cbn [log pending] in *. split; [exact HQ|].
  exists (e :: mid), consumed. split; [|exact Hpend].
  rewrite Hlog, <- app_assoc. reflexivity.
Qed.

Lemma io_post_wait_then {A : Type} (k : Z -> io A) (Q : A -> Prop) :
  (forall r, r = 0 \/ r = 1 -> io_post (k r) Q) ->
  io_post (waitForButtonPress ≫= k) Q.
Proof.
  intros Hk w a w' Hrun.
  cbv beta iota delta [mbind io_bind waitForButtonPress] in Hrun.
  destruct w as [[|p ps] lg]; cbn [pending log] in Hrun; [discriminate|].
  apply Hk in Hrun; [|destruct p; auto].
  destruct Hrun as (HQ & mid & consumed & Hlog & Hpend).
  cbn [log pending] in *. split; [exact HQ|].
  exists (EvWaitForButtonPress p :: mid), (p :: consumed).
  split; [rewrite Hlog, <- app_assoc; reflexivity|].
  rewrite Hpend. reflexivity.
Qed.

Lemma io_post_ret {A : Type} (a : A) (Q : A -> Prop) :
  Q a -> io_post (mret a) Q.
Proof.
  intros HQ w a' w' Hrun. injection Hrun as <- <-.
  split; [exact HQ|]. exists [], []. split; [|reflexivity].
  rewrite app_nil_r. reflexivity.
Qed.

Lemma io_post_wait (Q : Z -> Prop) :
  Q 0 -> Q 1 -> io_post waitForButtonPress Q.
Proof.
  intros H0 H1 w a w' Hrun. unfold waitForButtonPress in Hrun.
  destruct w as [[|p ps] lg]; cbn [pending log] in Hrun; [discriminate|].
  injection Hrun as <- <-. cbn [log pending].
  split; [destruct p; assumption|].
  exists [EvWaitForButtonPress p], [p]. split; reflexivity.
Qed.

Lemma io_post_bind {A B : Type} (m : io A) (k : A -> io B)
    (P : A -> Prop) (Q : B -> Prop) :
  io_post m P -> (forall a, P a -> io_post (k a) Q) ->
  io_post (m ≫= k) Q.
Proof.
  intros Hm Hk w b w' Hrun.
  cbv beta iota delta [mbind io_bind] in Hrun.
  destruct (m w) as [[a w1]|] eqn:Hmw; [|discriminate].
  apply Hm in Hmw. destruct Hmw as (HP & mid1 & consumed1 & Hlog1 & Hpend1).
  apply (Hk a HP) in Hrun.
  destruct Hrun as (HQ & mid2 & consumed2 & Hlog2 & Hpend2).
  split; [exact HQ|]. exists (mid1 ++ mid2), (consumed1 ++ consumed2).
  split.
  - rewrite Hlog2, Hlog1, <- app_assoc. reflexivity.
  - rewrite Hpend1, Hpend2, <- app_assoc. reflexivity.
Qed.

(** The loop over the outputs: [r] is that of a button, or still unassigned
    when there is no output. *)
Lemma askUser_outputs_post (st : ui_state) (ps : list press) :
  forall i r lg r' w1,
    askUser_outputs st i r ps lg = Some (r', w1) ->
    (r' = 0 \/ r' = 1 \/ (r' = r /\ list_index st <= i)) /\
    exists mid consumed, log w1 = lg ++ mid /\ ps = consumed ++ pending w1.
Proof.
  induction ps as [|p ps IH]; intros i r lg r' w1 Hrun;
    cbn [askUser_outputs] in Hrun;
    destruct (Z.ltb_spec i (list_index st)) as [Hlt|Hge];
    try discriminate.
  - injection Hrun as <- <-. split; [right; right; split; [reflexivity|lia]|].
    exists [], []. cbn [log pending]. rewrite app_nil_r. split; reflexivity.
  - cbv zeta in Hrun.
    destruct (negb (button_result p =? 0)) eqn:Hp.
    + injection Hrun as <- <-. split.
      * destruct p; cbn in Hp; try discriminate; auto.
      * exists (output_prompt st i ++ [EvWaitForButtonPress p]), [p].
        cbn [log pending]. split; reflexivity.
    + apply IH in Hrun.
      destruct Hrun as (Hr & mid & consumed & Hlog & Hpend). split.
      * destruct p; cbn in Hp; try discriminate. cbn [button_result] in Hr.
        destruct Hr as [Hr|[Hr|[Hr _]]]; auto.
      * exists ((output_prompt st i ++ [EvWaitForButtonPress p]) ++ mid),
               (p :: consumed).
        split; [rewrite Hlog, <- app_assoc; reflexivity|].
        rewrite Hpend. reflexivity.
  - injection Hrun as <- <-. split; [right; right; split; [reflexivity|lia]|].
    exists [], []. cbn [log pending]. rewrite app_nil_r. split; reflexivity.
Qed.

(** The display is cleared and switched on before, and cleared and switched
    off after, whatever is done in between. *)
Lemma bracket_run {A : Type} (body : io A) (w : world) :
  (clearDisplay ≫= fun _ =>
   displayOn ≫= fun _ =>
   body ≫= fun r =>
   clearDisplay ≫= fun _ => displayOff ≫= fun _ => mret r) w =
  match body (World (pending w) (log w ++ [EvClearDisplay; EvDisplayOn])) with
  | Some (r, w3) =>
      Some (r, World (pending w3) (log w3 ++ [EvClearDisplay; EvDisplayOff]))
  | None => None
  end.
Proof.
  cbv beta iota delta
    [mbind io_bind mret io_ret emit clearDisplay displayOn displayOff].
  cbn [pending log]. rewrite <- app_assoc. cbn [app].
  destruct (body _) as [[r w3]|]; [|reflexivity].
  cbn [pending log]. rewrite <- app_assoc. reflexivity.
Qed.

Section AskUserEveryCommand.

Context `{Platform}.

(** X8: for each of the commands nuke-wallet, new-address, change-name,
    backup-wallet and restore-wallet, [askUser] shows the one question of
    that command, takes one button press and returns its result: 0 when
    accept alone was pressed, 1 when cancel or both were; without a press it
    does not return. *)
Theorem askUser_single_question
    (r_uninit command : Z) (question : string) (st : ui_state)
    (lg : list event) :
  commands_distinct ->
  In (command, question) single_questions ->
  (forall p rest,
      askUser r_uninit command st (World (p :: rest) lg) =
      Some (button_result p,
            World rest
              (lg ++ [EvClearDisplay; EvDisplayOn; EvWaitForNoButtonPress;
                      EvWriteStringWordWrap question;
                      EvWaitForButtonPress p;
                      EvClearDisplay; EvDisplayOff]))) /\
  askUser r_uninit command st (World [] lg) = None.
Proof.
  intros Hd Hin. use_distinct Hd.
  unfold single_questions in Hin. cbn [In] in Hin.
  destruct Hin as [Hin|[Hin|[Hin|[Hin|[Hin|[]]]]]];
    injection Hin as <- <-;
    (split; [intros p rest|]);
    unfold askUser; decide_command;
    cbv beta iota zeta delta
      [mbind io_bind mret io_ret emit clearDisplay displayOn displayOff
       writeStringToDisplayWordWrap waitForNoButtonPress
       waitForButtonPress pending log];
    normalise_log; reflexivity.
Qed.

(** X9: whenever [askUser] returns, for whatever command: the display was
    cleared and switched on first and is cleared and switched off last; the
    presses taken are the first of those to come; and the value is 0 or 1,
    except for the sign-transaction command without any pending output,
    where it can also be the value [r] held unassigned. *)
Theorem askUser_returns_display_off
    (r_uninit command : Z) (st : ui_state) (w : world) (r : Z) (w' : world) :
  askUser r_uninit command st w = Some (r, w') ->
  (r = 0 \/ r = 1 \/
   (r = r_uninit /\ command = ASKUSER_SIGN_TRANSACTION /\ list_index st <= 0)) /\
  exists mid consumed,
    log w' = log w ++ [EvClearDisplay; EvDisplayOn] ++ mid ++
             [EvClearDisplay; EvDisplayOff] /\
    pending w = consumed ++ pending w'.
Proof.
  intros Hrun. unfold askUser in Hrun. rewrite bracket_run in Hrun.
  match type of Hrun with
  | match ?body ?w0 with _ => _ end = _ =>
      assert (Hbody : io_post body
        (fun r => r = 0 \/ r = 1 \/
                  (r = r_uninit /\ command = ASKUSER_SIGN_TRANSACTION /\
                   list_index st <= 0)));
      [|destruct (body w0) as [[r3 w3]|] eqn:Hb; [|discriminate];
        apply Hbody in Hb]
  end.
  - unfold waitForNoButtonPress, writeStringToDisplayWordWrap,
      writeStringToDisplay, clearDisplay, nextLine.
    destruct (command =? ASKUSER_NUKE_WALLET);
      [repeat apply io_post_emit_then; apply io_post_wait; auto|].
    destruct (command =? ASKUSER_NEW_ADDRESS);
      [repeat apply io_post_emit_then; apply io_post_wait; auto|].
    destruct (Z.eqb_spec command ASKUSER_SIGN_TRANSACTION) as [Hsign|_].
    { apply (io_post_bind _ _
               (fun r => r = 0 \/ r = 1 \/ (r = r_uninit /\ list_index st <= 0))).
      - intros [ps lg] r1 w1 Hloop. unfold askUser_outputs_loop in Hloop.
        cbn [pending log] in *.
        apply askUser_outputs_post in Hloop. exact Hloop.
      - intros r1 Hr1.
        destruct ((r1 =? 0) && negb (transaction_fee_set st =? 0)).
        + repeat apply io_post_emit_then. apply io_post_wait; auto.
        + apply io_post_ret. destruct Hr1 as [Hr1|[Hr1|[Hr1 Hidx]]]; auto. }
    destruct (command =? ASKUSER_FORMAT).
    { repeat apply io_post_emit_then. apply io_post_wait_then. intros r1 Hv1.
      destruct (r1 =? 0);
        [|apply io_post_ret; destruct Hv1; auto].
      repeat apply io_post_emit_then. apply io_post_wait_then. intros r2 Hv2.
      destruct (r2 =? 0);
        [|apply io_post_ret; destruct Hv2; auto].
      repeat apply io_post_emit_then. apply io_post_wait; auto. }
    destruct (command =? ASKUSER_CHANGE_NAME);
      [repeat apply io_post_emit_then; apply io_post_wait; auto|].
    destruct (command =? ASKUSER_BACKUP_WALLET);
      [repeat apply io_post_emit_then; apply io_post_wait; auto|].
    destruct (command =? ASKUSER_RESTORE_WALLET);
      [repeat apply io_post_emit_then; apply io_post_wait; auto|].
    repeat apply io_post_emit_then. apply io_post_wait_then. intros r1 _.
    apply io_post_ret. auto.
  - destruct Hb as (Hr3 & mid & consumed & Hlog & Hpend).
    cbn [pending log] in Hlog, Hpend.
    injection Hrun as <- <-. split; [exact Hr3|].
    exists mid, consumed. cbn [pending log]. split; [|exact Hpend].
    rewrite Hlog, <- !app_assoc. reflexivity.
Qed.

End AskUserEveryCommand.

Lemma askUser_single_question_witness :
  commands_distinct (H := sample_platform) /\
  In (6, "Do you want to backup the current wallet?"%string)
     (single_questions (H := sample_platform)) /\
  askUser (H := sample_platform) 0 6 (@ui_initial sample_platform)
    (World [PressBoth] []) =
  Some (1, World []
             [EvClearDisplay; EvDisplayOn; EvWaitForNoButtonPress;
              EvWriteStringWordWrap "Do you want to backup the current wallet?";
              EvWaitForButtonPress PressBoth; EvClearDisplay; EvDisplayOff]).
Proof.
  assert (Hin : In (6, "Do you want to backup the current wallet?"%string)
                   (single_questions (H := sample_platform)))
    by (cbn; tauto).
  split; [reflexivity|]. split; [exact Hin|].
  exact (proj1 (askUser_single_question (H := sample_platform) 0 6 _
                  (@ui_initial sample_platform) [] eq_refl Hin)
               PressBoth []).
Defined.

Lemma askUser_returns_display_off_witness :
  let w := World [PressAccept; PressCancel] [EvDisplayOff] in
  let w' := World [PressCancel]
              [EvDisplayOff; EvClearDisplay; EvDisplayOn;
               EvWaitForNoButtonPress;
               EvWriteStringWordWrap "Create new address?";
               EvWaitForButtonPress PressAccept;
               EvClearDisplay; EvDisplayOff] in
  askUser (H := sample_platform) 5 2 (@ui_initial sample_platform) w =
    Some (0, w') /\
  exists mid consumed,
    log w' = log w ++ [EvClearDisplay; EvDisplayOn] ++ mid ++
             [EvClearDisplay; EvDisplayOff] /\
    pending w = consumed ++ pending w'.
Proof.
  intros w w'.
  assert (Hrun : askUser (H := sample_platform) 5 2
                   (@ui_initial sample_platform) w = Some (0, w'))
    by reflexivity.
  split; [exact Hrun|].
  exact (proj2 (askUser_returns_display_off (H := sample_platform)
                  5 2 (@ui_initial sample_platform) w 0 w' Hrun)).
Defined.

Lemma askUser_determined_otherwise_witness :
  let st := (newOutputSeen (H := sample_platform) "0.5" "1xyz"
               (@ui_initial sample_platform)).2 in
  commands_distinct (H := sample_platform) /\
  (3 <> @ASKUSER_SIGN_TRANSACTION sample_platform \/ 0 < list_index st) /\
  askUser (H := sample_platform) 0 3 st (World [PressCancel] []) =
  askUser (H := sample_platform) 1 3 st (World [PressCancel] []).
Proof.
  intros st.
  assert (Hsome : 3 <> @ASKUSER_SIGN_TRANSACTION sample_platform \/
                  0 < list_index st) by (right; reflexivity).
  split; [reflexivity|]. split; [exact Hsome|].
  exact (askUser_determined_otherwise (H := sample_platform) 0 1 3 st
           (World [PressCancel] []) eq_refl Hsome).
Defined.

(* --------------------------------------------------------------------- *)
(** ** writeBackupSeed: what is displayed *)
(* --------------------------------------------------------------------- *)

Lemma land_15_cases (x : Z) :
  let t := Z.land x 15 in
  t = x mod 16 /\
  (t = 0 \/ t = 1 \/ t = 2 \/ t = 3 \/ t = 4 \/ t = 5 \/ t = 6 \/ t = 7 \/
   t = 8 \/ t = 9 \/ t = 10 \/ t = 11 \/ t = 12 \/ t = 13 \/ t = 14 \/ t = 15).
Proof.
  intros t. assert (Ht : t = x mod 16).
  { unfold t. change 15 with (Z.ones 4). rewrite Z.land_ones by lia.
    reflexivity. }
  split; [exact Ht|].
  pose proof (Z.mod_pos_bound x 16 ltac:(lia)). lia.
Qed.

Lemma nibbleToHex_value (nibble : Z) :
  hex_digit_value (nibbleToHex nibble) = Some (Z.land nibble 15).
Proof.
  unfold nibbleToHex. cbv zeta.
  destruct (land_15_cases nibble) as [_ Hcases]. cbv zeta in Hcases.
  repeat (destruct Hcases as [Hc|Hcases]; [rewrite Hc; reflexivity|]).
  rewrite Hcases. reflexivity.
Qed.

Lemma hex_byte_of_byte (b : Z) :
  hex_byte_value (String (nibbleToHex (Z.shiftr b 4))
                         (String (nibbleToHex b) EmptyString)) =
  Some (b mod 256).
Proof.
  cbn [hex_byte_value]. rewrite !nibbleToHex_value. f_equal.
  destruct (land_15_cases b) as [-> _].
  destruct (land_15_cases (Z.shiftr b 4)) as [-> _].
  rewrite Z.shiftr_div_pow2 by lia. change (2 ^ 4) with 16.
  pose proof (Z.div_mod b 16 ltac:(lia)).
  pose proof (Z.div_mod (b / 16) 16 ltac:(lia)).
  pose proof (Z.mod_pos_bound b 16 ltac:(lia)).
  pose proof (Z.mod_pos_bound (b / 16) 16 ltac:(lia)).
  apply (Z.mod_unique_pos _ _ (b / 16 / 16)); lia.
Qed.

(** X11: [nibbleToHex] gives the hexadecimal digit of the low four bits of
    its argument, whatever the other bits; the two characters
    [writeBackupSeed] writes for a byte of the seed are its two hexadecimal
    digits, high one first, so the byte can be read back from them. *)
Theorem nibbleToHex_reads_back (x : Z) :
  hex_digit_value (nibbleToHex x) = Some (Z.land x 15) /\
  0 <= Z.land x 15 < 16 /\
  nibbleToHex (x + 16) = nibbleToHex x /\
  hex_byte_value (String (nibbleToHex (Z.shiftr x 4))
                         (String (nibbleToHex x) EmptyString)) =
    Some (x mod 256) /\
  (0 <= x < 256 ->
   hex_byte_value (String (nibbleToHex (Z.shiftr x 4))
                          (String (nibbleToHex x) EmptyString)) = Some x).
Proof.
  destruct (land_15_cases x) as [Hmod Hcases]. cbv zeta in Hmod, Hcases.
  split; [apply nibbleToHex_value|]. split; [lia|]. split; [|split].
  - unfold nibbleToHex. cbv zeta.
    destruct (land_15_cases (x + 16)) as [-> _]. rewrite Hmod.
    replace ((x + 16) mod 16) with (x mod 16); [reflexivity|].
    rewrite <- (Z.add_mod_idemp_r x 16 16) by lia.
    change (16 mod 16) with 0. rewrite Z.add_0_r. reflexivity.
  - apply hex_byte_of_byte.
  - intros Hx. rewrite hex_byte_of_byte, Z.mod_small by lia. reflexivity.
Qed.

Lemma bytes_shown_app (l1 l2 : list event) :
  bytes_shown (l1 ++ l2) = bytes_shown l1 ++ bytes_shown l2.
Proof. unfold bytes_shown. apply omap_app. Qed.

Lemma bytes_shown_byte (lg : list event) (b : Z) :
  bytes_shown (lg ++ [EvWriteString
                        (String (nibbleToHex (Z.shiftr b 4))
                                (String (nibbleToHex b) EmptyString))]) =
  bytes_shown lg ++ [b mod 256].
Proof.
  rewrite bytes_shown_app. f_equal. unfold bytes_shown. cbn [omap list_omap].
  rewrite hex_byte_of_byte. reflexivity.
Qed.

Lemma bytes_shown_leader (lg : list event) (line : Z) :
  bytes_shown (lg ++ [EvWriteString (String (nibbleToHex line) ":")]) =
  bytes_shown lg.
Proof.
  rewrite bytes_shown_app.
  assert (Hnone : bytes_shown
            [EvWriteString (String (nibbleToHex line) ":")] = []).
  { unfold bytes_shown. cbn [omap list_omap hex_byte_value].
    rewrite nibbleToHex_value. reflexivity. }
  rewrite Hnone. apply app_nil_r.
Qed.

Lemma bytes_shown_other (lg : list event) (e : event) :
  match e with
  | EvWriteString s => hex_byte_value s = None
  | _ => True
  end ->
  bytes_shown (lg ++ [e]) = bytes_shown lg.
Proof.
  intros He. rewrite bytes_shown_app.
  assert (Hnone : bytes_shown [e] = []).
  { unfold bytes_shown. cbn [omap list_omap].
    destruct e; try reflexivity. rewrite He. reflexivity. }
  rewrite Hnone. apply app_nil_r.
Qed.

(** Rewrites what a log shows into what its beginning shows. *)
Ltac shown :=
  repeat first
    [ rewrite bytes_shown_byte
    | rewrite bytes_shown_leader
    | rewrite bytes_shown_other by exact I
    | rewrite bytes_shown_other by reflexivity ].

Lemma nth_seq_take (seed : list Z) : forall k,
  (k <= length seed)%nat ->
  Forall is_byte seed ->
  map (fun j => nth j seed 0 mod 256) (seq 0 k) = take k seed.
Proof.
  induction seed as [|b seed IH]; intros k Hk Hbytes.
  - destruct k; [reflexivity|simpl in Hk; lia].
  - destruct k as [|k]; [reflexivity|].
    apply Forall_cons in Hbytes. destruct Hbytes as [Hb Hbytes].
    cbn [seq map take nth]. f_equal; [apply Z.mod_small; exact Hb|].
    rewrite <- seq_shift, map_map. cbn [nth].
    apply IH; [simpl in Hk; lia|exact Hbytes].
Qed.

Section WriteBackupSeedDisplay.

Context `{Platform}.

(** The loop shows the bytes of the seed from index [i] on, one after the
    other, and ends with the display cleared and off when it makes the
    function return. *)
Lemma writeBackupSeed_loop_shows (n : nat) :
  forall seed i byte_counter line_number w res w',
    0 <= i -> i + Z.of_nat n <= 255 ->
    writeBackupSeed_loop n seed i byte_counter line_number w = Some (res, w') ->
    exists k,
      (k <= n)%nat /\
      (res = None -> k = n) /\
      bytes_shown (log w') =
        bytes_shown (log w) ++
        map (fun j => nth j seed 0 mod 256) (seq (Z.to_nat i) k) /\
      (res <> None ->
       exists lg', log w' = lg' ++ [EvClearDisplay; EvDisplayOff]).
Proof.
  induction n as [|n IH];
    intros seed i byte_counter line_number w res w' Hi Hin Hrun.
  - injection Hrun as <- <-. exists O. cbn [seq map]. rewrite app_nil_r.
    repeat split; [lia|congruence].
  - cbn [writeBackupSeed_loop] in Hrun.
    cbv beta iota zeta delta
      [mbind io_bind mret io_ret emit clearDisplay displayOff
       writeStringToDisplay waitForNoButtonPress waitForButtonPress
       cursorAtEnd] in Hrun.
    destruct w as [ps lg].
    rewrite Z.mod_small in Hrun by lia.
    assert (Hnext : forall ps1 lg1 bc1 ln1,
      bytes_shown lg1 =
        bytes_shown lg ++ [nth (Z.to_nat i) seed 0 mod 256] ->
      writeBackupSeed_loop n seed (i + 1) bc1 ln1 (World ps1 lg1) =
        Some (res, w') ->
      exists k,
        (k <= S n)%nat /\
        (res = None -> k = S n) /\
        bytes_shown (log w') =
          bytes_shown lg ++
          map (fun j => nth j seed 0 mod 256) (seq (Z.to_nat i) k) /\
        (res <> None ->
         exists lg', log w' = lg' ++ [EvClearDisplay; EvDisplayOff])).
    { intros ps1 lg1 bc1 ln1 Hlg1 Hrec.
      apply IH in Hrec; [|lia|lia].
      destruct Hrec as (k & Hk & Hnone & Hshown & Hoff).
      exists (S k). split; [lia|]. split; [intros Hr; rewrite Hnone; auto|].
      split; [|exact Hoff].
      cbn [log] in Hshown. rewrite Hshown, Hlg1, <- app_assoc.
      cbn [seq map app].
      replace (Z.to_nat (i + 1)) with (S (Z.to_nat i)) by lia.
      reflexivity. }
    assert (Hdeny : forall ps1 lg1,
      bytes_shown lg1 =
        bytes_shown lg ++ [nth (Z.to_nat i) seed 0 mod 256] ->
      Some (Some 2, World ps1 ((lg1 ++ [EvClearDisplay]) ++ [EvDisplayOff])) =
        Some (res, w') ->
      exists k,
        (k <= S n)%nat /\
        (res = None -> k = S n) /\
        bytes_shown (log w') =
          bytes_shown lg ++
          map (fun j => nth j seed 0 mod 256) (seq (Z.to_nat i) k) /\
        (res <> None ->
         exists lg', log w' = lg' ++ [EvClearDisplay; EvDisplayOff])).
    { intros ps1 lg1 Hlg1 Heq. injection Heq as <- <-.
      exists 1%nat. split; [lia|]. split; [discriminate|].
      cbn [log seq map]. split.
      - shown. exact Hlg1.
      - intros _. exists lg1. rewrite <- app_assoc. reflexivity. }
    cbn [log].
    destruct (byte_counter =? 0); [|destruct (Z.land byte_counter 1 =? 0)];
      cbv beta iota in Hrun; cbn [pending log] in Hrun;
      (destruct (displayCursorAtEnd _);
       [ destruct ps as [|p rest]; [discriminate|];
         destruct p; cbn [button_result Z.eqb negb pending log] in Hrun;
         [ eapply Hnext; [|exact Hrun]; shown; reflexivity
         | eapply Hdeny; [|exact Hrun]; shown; reflexivity
         | eapply Hdeny; [|exact Hrun]; shown; reflexivity ]
       | eapply Hnext; [|exact Hrun]; shown; reflexivity ]).
Qed.

Lemma bytes_shown_none (lg evs : list event) :
  Forall (fun e => match e with EvWriteString _ => False | _ => True end) evs ->
  bytes_shown (lg ++ evs) = bytes_shown lg.
Proof.
  intros Hevs. rewrite bytes_shown_app.
  assert (Hnone : bytes_shown evs = []).
  { induction Hevs as [|e evs He _ IH]; [reflexivity|].
    unfold bytes_shown in *. cbn [omap list_omap].
    destruct e; try contradiction; exact IH. }
  rewrite Hnone. apply app_nil_r.
Qed.

(** What [writeBackupSeed] has displayed when it returns for device 0. *)
Lemma writeBackupSeed_shown (seed : list Z) (is_encrypted : Z)
    (w : world) (r : Z) (w' : world) :
  writeBackupSeed seed is_encrypted 0 w = Some (r, w') ->
  (exists k,
     (k <= Z.to_nat SEED_LENGTH)%nat /\
     (r = 0 -> k = Z.to_nat SEED_LENGTH) /\
     bytes_shown (log w') =
       bytes_shown (log w) ++
       map (fun j => nth j seed 0 mod 256) (seq 0 k)) /\
  exists lg', log w' = lg' ++ [EvClearDisplay; EvDisplayOff].
Proof.
  intros Hrun. destruct w as [ps lg]. rewrite writeBackupSeed_run in Hrun.
  cbn [log]. destruct ps as [|p rest]; [discriminate|].
  cbv zeta in Hrun.
  assert (Hfirst : forall (notice : string) rest0,
    (exists k,
       (k <= Z.to_nat SEED_LENGTH)%nat /\
       (2 = 0 -> k = Z.to_nat SEED_LENGTH) /\
       bytes_shown
         (log (World rest0
                 ((lg ++ [EvClearDisplay; EvDisplayOn; EvWaitForNoButtonPress;
                          EvWriteStringWordWrap notice;
                          EvWaitForButtonPress p; EvClearDisplay]) ++
                  [EvDisplayOff]))) =
         bytes_shown lg ++
         map (fun j => nth j seed 0 mod 256) (seq 0 k)) /\
    exists lg',
      log (World rest0
             ((lg ++ [EvClearDisplay; EvDisplayOn; EvWaitForNoButtonPress;
                      EvWriteStringWordWrap notice;
                      EvWaitForButtonPress p; EvClearDisplay]) ++
              [EvDisplayOff])) = lg' ++ [EvClearDisplay; EvDisplayOff]).
  { intros notice rest0. cbn [log]. split.
    - exists O. split; [lia|]. split; [discriminate|].
      rewrite <- app_assoc. cbn [seq map].
      rewrite bytes_shown_none by (repeat constructor).
      rewrite app_nil_r. reflexivity.
    - exists (lg ++ [EvClearDisplay; EvDisplayOn; EvWaitForNoButtonPress;
                     EvWriteStringWordWrap notice; EvWaitForButtonPress p]).
      rewrite <- !app_assoc. reflexivity. }
  destruct (writeBackupSeed_loop _ _ _ _ _ _)
    as [[res [ps1 lg1]]|] eqn:Hloop in Hrun.
  - pose proof Hloop as Hval.
    apply writeBackupSeed_loop_presses in Hval.
    destruct Hval as (consumed & _ & Hval).
    apply writeBackupSeed_loop_shows in Hloop;
      [|lia|unfold SEED_LENGTH; lia].
    destruct Hloop as (k & Hk & Hnone & Hshown & Hoff).
    cbn [log pending Z.to_nat] in Hshown, Hoff, Hrun.
    rewrite <- app_assoc in Hshown.
    rewrite bytes_shown_none in Hshown by (repeat constructor).
    destruct (negb (button_result p =? 0)).
    + injection Hrun as <- <-. apply Hfirst.
    + destruct Hval as [[-> _]|[-> _]].
      * specialize (Hnone eq_refl). subst k.
        destruct ps1 as [|q rest1]; [discriminate|].
        injection Hrun as <- <-. cbn [log]. split.
        -- exists (Z.to_nat SEED_LENGTH). split; [lia|].
           split; [reflexivity|].
           rewrite bytes_shown_none by (repeat constructor). exact Hshown.
        -- exists (lg1 ++ [EvWaitForNoButtonPress; EvWaitForButtonPress q]).
           rewrite <- !app_assoc. reflexivity.
      * injection Hrun as <- <-. cbn [log]. split.
        -- exists k. split; [exact Hk|]. split; [discriminate|exact Hshown].
        -- apply Hoff. discriminate.
  - destruct (negb (button_result p =? 0)); [|discriminate].
    injection Hrun as <- <-. apply Hfirst.
Qed.

(** X12: when [writeBackupSeed] returns for device 0, the bytes it has
    written to the display as two hexadecimal digits are the first bytes of
    the seed, in order, and nothing else; when it returns 0 they are the
    whole seed. *)
Theorem writeBackupSeed_shows_seed (seed : list Z) (is_encrypted : Z)
    (w : world) (r : Z) (w' : world) :
  Forall is_byte seed ->
  length seed = Z.to_nat SEED_LENGTH ->
  writeBackupSeed seed is_encrypted 0 w = Some (r, w') ->
  (exists k, bytes_shown (log w') = bytes_shown (log w) ++ take k seed) /\
  (r = 0 -> bytes_shown (log w') = bytes_shown (log w) ++ seed).
Proof.
  intros Hbytes Hlen Hrun.
  apply writeBackupSeed_shown in Hrun.
  destruct Hrun as ((k & Hk & Hall & Hshown) & _).
  rewrite nth_seq_take in Hshown by (try assumption; lia).
  split; [exists k; exact Hshown|].
  intros Hr. rewrite Hshown, (Hall Hr), <- Hlen, firstn_all. reflexivity.
Qed.

(** X13: on every return of [writeBackupSeed] for device 0, accepted or
    denied, the last things done to the display are to clear it and to
    switch it off: no part of the seed stays displayed. *)
Theorem writeBackupSeed_leaves_display_off (seed : list Z)
    (is_encrypted destination_device : Z) (w : world) (r : Z) (w' : world) :
  destination_device = 0 ->
  writeBackupSeed seed is_encrypted destination_device w = Some (r, w') ->
  exists lg', log w' = lg' ++ [EvClearDisplay; EvDisplayOff].
Proof.
  intros -> Hrun. apply writeBackupSeed_shown in Hrun.
  destruct Hrun as (_ & Hoff). exact Hoff.
Qed.

End WriteBackupSeedDisplay.

Lemma writeBackupSeed_shows_seed_witness :
  let seed := map Z.of_nat (seq 0 64) in
  Forall is_byte seed /\
  length seed = Z.to_nat SEED_LENGTH /\
  exists w',
    writeBackupSeed (H := sample_platform) seed 1 0
      (World (replicate 6 PressAccept) []) = Some (0, w') /\
    bytes_shown (log w') = seed.
Proof.
  intros seed.
  assert (Hbytes : Forall is_byte seed).
  { apply Forall_forall. intros x Hx.
    apply list_elem_of_In, in_map_iff in Hx.
    destruct Hx as (j & <- & Hj). apply in_seq in Hj.
    unfold is_byte. lia. }
  assert (Hlen : length seed = Z.to_nat SEED_LENGTH) by reflexivity.
  split; [exact Hbytes|]. split; [exact Hlen|].
  destruct (writeBackupSeed (H := sample_platform) seed 1 0
              (World (replicate 6 PressAccept) []))
    as [[r w']|] eqn:Hrun; [|vm_compute in Hrun; discriminate].
  assert (Hr : r = 0)
    by (vm_compute in Hrun; injection Hrun as <- _; reflexivity).
  subst r. exists w'. split; [reflexivity|].
  exact (proj2 (writeBackupSeed_shows_seed (H := sample_platform)
                  seed 1 (World (replicate 6 PressAccept) []) 0 w'
                  Hbytes Hlen Hrun) eq_refl).
Defined.

Lemma writeBackupSeed_leaves_display_off_witness :
  let w' := World []
              [EvClearDisplay; EvDisplayOn; EvWaitForNoButtonPress;
               EvWriteStringWordWrap "Backup is not encrypted.";
               EvWaitForButtonPress PressCancel;
               EvClearDisplay; EvDisplayOff] in
  0 = 0 /\
  writeBackupSeed (H := sample_platform) [] 0 0 (World [PressCancel] []) =
    Some (2, w') /\
  exists lg', log w' = lg' ++ [EvClearDisplay; EvDisplayOff].
Proof.
  intros w'.
  assert (Hrun : writeBackupSeed (H := sample_platform) [] 0 0
                   (World [PressCancel] []) = Some (2, w'))
    by reflexivity.
  split; [reflexivity|]. split; [exact Hrun|].
  exact (writeBackupSeed_leaves_display_off (H := sample_platform)
           [] 0 0 (World [PressCancel] []) 2 w' eq_refl Hrun).
Defined.

(* --------------------------------------------------------------------- *)
(** ** The command catalogue and the layout of storage, further *)
(* --------------------------------------------------------------------- *)

(** X14: no two commands of the catalogue have the same type byte, every
    type is at most 0x12, and none is the 0xFF that starts a flow control
    acknowledge. *)
Theorem command_types_distinct (c1 c2 : command) :
  (command_type c1 = command_type c2 -> c1 = c2) /\
  0 <= command_type c1 <= 0x12 /\
  command_type c1 <> 0xFF.
Proof.
  split; [|split].
  - destruct c1, c2; cbn; intros Heq; try reflexivity; discriminate.
  - destruct c1; cbn; lia.
  - destruct c1; cbn; discriminate.
Qed.

(** X15: the regions of non-volatile storage are in the order entropy pool,
    pool checksum, staging area, wallet records; the staging area has room
    for exactly one record and ends where record 0 starts; every record
    starts at a multiple of the AES block size and right where the record
    before it ends, so that the slots of different records do not overlap
    each other or the staging area. *)
Theorem storage_regions_disjoint_aligned (i j x : Z) :
  ADDRESS_ENTROPY_POOL < ADDRESS_POOL_CHECKSUM /\
  ADDRESS_POOL_CHECKSUM < ADDRESS_WALLET_STAGING /\
  ADDRESS_WALLET_STAGING mod AES_BLOCK_SIZE = 0 /\
  ADDRESS_WALLET_STAGING + WALLET_RECORD_LENGTH = wallet_record_address 0 /\
  wallet_record_address (i + 1) = wallet_record_address i + WALLET_RECORD_LENGTH /\
  wallet_record_address i mod AES_BLOCK_SIZE = 0 /\
  (0 <= i -> 0 <= j -> i <> j ->
   wallet_record_address i <= x < wallet_record_address i + WALLET_RECORD_LENGTH ->
   ~ (wallet_record_address j <= x < wallet_record_address j + WALLET_RECORD_LENGTH) /\
   ~ (ADDRESS_WALLET_STAGING <= x < ADDRESS_WALLET_STAGING + WALLET_RECORD_LENGTH)).
Proof.
  unfold wallet_record_address, ADDRESS_WALLET_START, ADDRESS_WALLET_STAGING,
    ADDRESS_POOL_CHECKSUM, ADDRESS_ENTROPY_POOL, WALLET_RECORD_LENGTH,
    AES_BLOCK_SIZE.
  repeat split; try lia.
  replace (128 + 160 + i * 160) with ((18 + i * 10) * 16) by lia.
  apply Z.mod_mul. lia.
Qed.

(* --------------------------------------------------------------------- *)
(** ** From the outputs seen to the approval session *)
(* --------------------------------------------------------------------- *)

Section SeenThenAsked.

Context `{Platform}.

Lemma newOutputsSeen_wf (outputs : list (string * string)) :
  forall st, ui_wf st -> ui_wf (newOutputsSeen outputs st).2.
Proof.
  induction outputs as [|[a d] outputs IH]; intros st Hwf; [exact Hwf|].
  cbn [newOutputsSeen].
  pose proof (newOutputSeen_wf a d st Hwf) as Hwf1.
  destruct (newOutputSeen a d st) as [r st1]. cbn [snd] in Hwf1.
  specialize (IH st1 Hwf1).
  destruct (newOutputsSeen outputs st1) as [rs st2]. exact IH.
Qed.

(** X16: the outputs and the fee that were passed to [newOutputSeen] and
    [setTransactionFee] after a [clearOutputsSeen] are what the approval
    session for the sign-transaction command shows: with at least one and at
    most 20 outputs, all accepted, the user is shown one prompt for each
    output of the list, in its order, with its texts as the buffers keep
    them, then the fee prompt with the fee text, and the result is that of
    the answer to the fee prompt. *)
Theorem sign_session_shows_outputs_seen
    (r_uninit : Z) (st0 : ui_state) (outputs : list (string * string))
    (fee : string) (p : press) (rest : list press) (lg : list event) :
  commands_distinct ->
  ui_wf st0 ->
  (0 < TEXT_AMOUNT_LENGTH)%nat ->
  (0 < TEXT_ADDRESS_LENGTH)%nat ->
  (0 < length outputs <= 20)%nat ->
  let st := setTransactionFee fee
              (newOutputsSeen outputs (clearOutputsSeen st0)).2 in
  let accepts := replicate (length outputs) PressAccept in
  askUser r_uninit ASKUSER_SIGN_TRANSACTION st (World (accepts ++ p :: rest) lg) =
  Some (button_result p,
        World rest
          (lg ++ [EvClearDisplay; EvDisplayOn] ++
           outputs_log (map stored_pair outputs) accepts ++
           [EvClearDisplay; EvWaitForNoButtonPress;
            EvWriteString "Transaction fee:"; EvNextLine;
            EvWriteString (c_prefix (TEXT_AMOUNT_LENGTH - 1) fee);
            EvWriteString " BTC."; EvNextLine;
            EvWriteString "Is this okay?";
            EvWaitForButtonPress p] ++
           [EvClearDisplay; EvDisplayOff])).
Proof.
  intros Hd Hwf0 Ham Had Hn st accepts.
  set (st1 := (newOutputsSeen outputs (clearOutputsSeen st0)).2) in *.
  assert (Hwf1 : ui_wf st1)
    by (apply newOutputsSeen_wf, clearOutputsSeen_wf; exact Hwf0).
  assert (Hpend1 : pending_outputs st1 = map stored_pair outputs).
  { pose proof (newOutputsSeen_from outputs (clearOutputsSeen st0)
                  (clearOutputsSeen_wf st0 Hwf0) Ham Had) as Hfrom.
    cbv zeta in Hfrom. fold st1 in Hfrom.
    change (Z.to_nat (MAX_OUTPUTS - list_index (clearOutputsSeen st0)))
      with 20%nat in Hfrom.
    change (pending_outputs (clearOutputsSeen st0))
      with (@nil (string * string)) in Hfrom.
    destruct Hfrom as (_ & Hpend & _).
    rewrite Hpend, take_ge by lia. reflexivity. }
  assert (Hpend : pending_outputs st = map stored_pair outputs)
    by exact Hpend1.
  assert (Hidx : Z.to_nat (list_index st) = length outputs).
  { rewrite <- pending_outputs_length, Hpend, length_map. reflexivity. }
  assert (Hrange : 0 <= list_index st <= MAX_OUTPUTS)
    by (destruct Hwf1 as (_ & _ & Hr); exact Hr).
  assert (Hacc : Forall accepted accepts)
    by (apply Forall_replicate; reflexivity).
  assert (Hlen : length accepts = length outputs)
    by apply length_replicate.
  rewrite askUser_sign_run by exact Hd.
  rewrite askUser_outputs_approved
    by (try exact Hacc; unfold MAX_OUTPUTS in *; lia).
  rewrite output_prompts_pending by lia.
  rewrite Hpend.
  assert (Hne : accepts <> []).
  { intros Hnil. rewrite Hnil in Hlen. simpl in Hlen. lia. }
  assert (Hfee : cstring (transaction_fee_amount st) =
                 c_prefix (TEXT_AMOUNT_LENGTH - 1) fee).
  { unfold st, setTransactionFee. cbn [transaction_fee_amount].
    destruct TEXT_AMOUNT_LENGTH as [|na]; [lia|].
    rewrite cstring_copy_terminated.
    replace (S na - 1)%nat with na by lia. reflexivity. }
  assert (Hset : transaction_fee_set st = 1) by reflexivity.
  rewrite Hset. unfold fee_prompt. rewrite Hfee.
  destruct accepts as [|a accepts'] eqn:Hacc'; [congruence|].
  cbn [pending log Z.eqb andb negb].
  rewrite <- !app_assoc. reflexivity.
Qed.

End SeenThenAsked.

Lemma sign_session_shows_outputs_seen_witness :
  let outputs := [("0.5"%string, "1abc"%string); ("0.25"%string, "1xyz"%string)] in
  commands_distinct (H := sample_platform) /\
  ui_wf (@ui_initial sample_platform) /\
  (0 < @TEXT_AMOUNT_LENGTH sample_platform)%nat /\
  (0 < @TEXT_ADDRESS_LENGTH sample_platform)%nat /\
  (0 < length outputs <= 20)%nat /\
  exists w',
    askUser (H := sample_platform) 7 3
      (setTransactionFee (H := sample_platform) "0.0005"
         (newOutputsSeen (H := sample_platform) outputs
            (clearOutputsSeen (@ui_initial sample_platform))).2)
      (World [PressAccept; PressAccept; PressCancel] []) = Some (1, w').
Proof.
  intros outputs.
  assert (Hwf : ui_wf (@ui_initial sample_platform)) by apply ui_initial_wf.
  assert (Ha : (0 < @TEXT_AMOUNT_LENGTH sample_platform)%nat) by (cbn; lia).
  assert (Hd : (0 < @TEXT_ADDRESS_LENGTH sample_platform)%nat) by (cbn; lia).
  assert (Hn : (0 < length outputs <= 20)%nat) by (cbn; lia).
  split; [reflexivity|]. split; [exact Hwf|]. split; [exact Ha|].
  split; [exact Hd|]. split; [exact Hn|].
  eexists.
  exact (sign_session_shows_outputs_seen (H := sample_platform) 7
           (@ui_initial sample_platform) outputs "0.0005" PressCancel [] []
           eq_refl Hwf Ha Hd Hn).
Defined.

Lemma waitForButtonPress_returns_and_initialised_witness :
  let pre := [(0x20000, 0x80); (0, 0); (0x20000, 0x80)] in
  let run := replicate 50 (0, 0) in
  let rest := [(0x20000, 0x80); (0, 0)] in
  Z.of_nat (length run) = Buttons.DEBOUNCE_COUNT /\
  Forall (fun s => Buttons.button_down s = true) run /\
  last run = Some (0, 0) /\
  ends_with false pre /\
  no_run_of true 50 pre /\
  Buttons.waitForButtonPress 3 (pre ++ run ++ rest) = Some (1, rest).
Proof.
  intros pre run rest.
  assert (Hlen : Z.of_nat (length run) = Buttons.DEBOUNCE_COUNT)
    by reflexivity.
  assert (Hall : Forall (fun s => Buttons.button_down s = true) run)
    by (apply Forall_replicate; reflexivity).
  assert (Hlast : last run = Some (0, 0)) by reflexivity.
  assert (Hend : ends_with false pre).
  { right. exists [(0x20000, 0x80); (0, 0)], (0x20000, 0x80).
    split; reflexivity. }
  assert (Hno : no_run_of true 50 pre).
  { intros l1 l2 l3 Heq _. apply (f_equal length) in Heq.
    rewrite !length_app in Heq. cbn [pre length] in Heq. lia. }
  split; [exact Hlen|]. split; [exact Hall|]. split; [exact Hlast|].
  split; [exact Hend|]. split; [exact Hno|].
  exact (proj1 waitForButtonPress_returns_and_initialised
           3 pre run rest (0, 0) Hlen Hall Hlast Hend Hno).
Defined.

Lemma waitForNoButtonPress_debounced_witness :
  let pre := [(0x20000, 0x80); (0, 0x80); (0x20000, 0)] in
  let run := replicate 50 (0x20000, 0x80) in
  let rest := [(0, 0); (0x20000, 0x80)] in
  Z.of_nat (length run) = 50 /\
  Forall (fun s => Buttons.button_down s = false) run /\
  ends_with true pre /\
  no_run_of false 50 pre /\
  Buttons.waitForNoButtonPress (pre ++ run ++ rest) = Some rest.
Proof.
  intros pre run rest.
  assert (Hlen : Z.of_nat (length run) = 50) by reflexivity.
  assert (Hall : Forall (fun s => Buttons.button_down s = false) run)
    by (apply Forall_replicate; reflexivity).
  assert (Hend : ends_with true pre).
  { right. exists [(0x20000, 0x80); (0, 0x80)], (0x20000, 0).
    split; reflexivity. }
  assert (Hno : no_run_of false 50 pre).
  { intros l1 l2 l3 Heq _. apply (f_equal length) in Heq.
    rewrite !length_app in Heq. cbn [pre length] in Heq. lia. }
  split; [exact Hlen|]. split; [exact Hall|]. split; [exact Hend|].
  split; [exact Hno|].
  exact (proj1 waitForNoButtonPress_debounced pre run rest Hlen Hall Hend Hno).
Defined.

Lemma nibbleToHex_reads_back_witness :
  0 <= 0xa7 < 256 /\
  hex_byte_value (String (nibbleToHex (Z.shiftr 0xa7 4))
                         (String (nibbleToHex 0xa7) EmptyString)) = Some 0xa7.
Proof.
  assert (Hx : 0 <= 0xa7 < 256) by lia.
  split; [exact Hx|].
  destruct (nibbleToHex_reads_back 0xa7) as (_ & _ & _ & _ & Hback).
  exact (Hback Hx).
Defined.

Lemma command_types_distinct_witness :
  command_type CmdGetAddress = command_type CmdGetAddress /\
  CmdGetAddress = CmdGetAddress.
Proof.
  assert (Heq : command_type CmdGetAddress = command_type CmdGetAddress)
    by reflexivity.
  split; [exact Heq|].
  exact (proj1 (command_types_distinct CmdGetAddress CmdGetAddress) Heq).
Defined.

Lemma storage_regions_disjoint_aligned_witness :
  0 <= 2 /\ 0 <= 3 /\ 2 <> 3 /\
  wallet_record_address 2 <= 700 < wallet_record_address 2 + WALLET_RECORD_LENGTH /\
  ~ (wallet_record_address 3 <= 700 < wallet_record_address 3 + WALLET_RECORD_LENGTH).
Proof.
  assert (H2 : 0 <= 2) by lia. assert (H3 : 0 <= 3) by lia.
  assert (Hne : 2 <> 3) by lia.
  assert (Hin : wallet_record_address 2 <= 700 <
                wallet_record_address 2 + WALLET_RECORD_LENGTH)
    by (unfold wallet_record_address, ADDRESS_WALLET_START,
          ADDRESS_WALLET_STAGING, WALLET_RECORD_LENGTH; lia).
  split; [exact H2|]. split; [exact H3|]. split; [exact Hne|].
  split; [exact Hin|].
  destruct (storage_regions_disjoint_aligned 2 3 700)
    as (_ & _ & _ & _ & _ & _ & Hdisjoint).
  exact (proj1 (Hdisjoint H2 H3 Hne Hin)).
Defined.
